(** * IronLog: persistence and session-timing core

    A shallow embedding of the workout tracker's core modules

      - [models.py]        the dataclasses (records below), their totals and
                           [format_duration],
      - [timer.py]         [Timer] and its test subclass [MockTimer],
      - [db.py]            [Database.transaction] and [Database.cursor],
      - [migrations.py]    [MIGRATIONS], [get_current_version], [apply_migrations],
      - [repositories.py]  the template, session and app-state repositories,

    together with the properties the specification states about them.

    Conventions of the embedding.

      - A [datetime] is the integer number of microseconds since an arbitrary
        epoch (datetimes have microsecond resolution).  [datetime.now()] is an
        explicit argument [now] of every function that reads the clock.
      - A Python [float] is idealised as an exact rational ([Q]); rounding of
        floating-point arithmetic is not modelled, and nothing is stated of a
        sum of several floats that depends on it.
      - Python integers are unbounded integers ([Z]).  An SQLite INTEGER is a
        signed 64-bit integer: [end_session], which binds an integer that its
        caller has computed, raises [OverflowError] outside that range; the
        other integers bound to statements (the [order_index], [reps] and
        [duration_seconds] that the aggregates hold, the page size of
        [get_all]) are taken to lie within it.
      - A [UUID] is its 128-bit value; [str(uuid)] and [UUID(text)] are inverse
        to each other, so the TEXT column that stores an id is identified
        with the id.
      - A table is the list of its rows in rowid (insertion) order.  The
        schema of [migration_001_initial_schema] is built into the
        statements: PRIMARY KEY and FOREIGN KEY violations raise
        [IntegrityError] (foreign keys are switched ON by [Database.connect]).
      - The connection has the default [isolation_level] of [sqlite3]: an
        INSERT, UPDATE or DELETE opens a transaction when none is open,
        [commit] makes the pending writes durable and [rollback] undoes
        them; a CREATE statement opens none, so outside a transaction it is
        committed at once.
      - Python exceptions are values of [PyExc]; code that can raise returns
        an [Outcome]. *)

From Stdlib Require Import ZArith QArith List String Bool Lia.
From Stdlib Require Import Sorted Permutation.
From Stdlib Require Import Ascii DecimalString DecimalZ DecimalPos.
Import ListNotations.

Open Scope Z_scope.

(** ** Basic data *)

Definition DateTime := Z.
Definition UUID := N.
Bind Scope N_scope with UUID.

Definition MICROSECOND : Z := 1000000.

(** [timedelta(seconds=n)] as a number of microseconds. *)
Definition seconds (n : Z) : Z := n * MICROSECOND.

(** [timedelta.total_seconds()] of a difference of [d] microseconds. *)
Definition total_seconds (d : Z) : Q := Qmake d 1000000.

(** [int(x)] on a float: truncation toward zero. *)
Definition py_int (x : Q) : Z := Z.quot (Qnum x) (Z.pos (Qden x)).

(** [f"{n:d}"]: the decimal digits of an integer, after a minus sign if it
    is negative. *)
Definition format_d (n : Z) : string := NilZero.string_of_int (Z.to_int n).

(** [f"{n:02d}"]: the same, padded with a zero on the left to two
    characters. *)
Definition format_02d (n : Z) : string :=
  let s := format_d n in
  if (String.length s <? 2)%nat then String "0"%char s else s.

(** [format_duration]; [//] and [%] round toward minus infinity. *)
Definition format_duration (seconds : Z) : string :=
  let hours := seconds / 3600 in
  let minutes := (seconds mod 3600) / 60 in
  let secs := seconds mod 60 in
  if hours >? 0
  then (format_d hours ++ ":" ++ format_02d minutes ++ ":" ++ format_02d secs)%string
  else (format_d minutes ++ ":" ++ format_02d secs)%string.

(** ** models.py *)

Record TimerState := mkTimerState {
  is_running : bool;
  is_paused : bool;
  start_time : option DateTime;
  pause_time : option DateTime;
  accumulated_seconds : Q
}.

(** [TimerState.initial()] *)
Definition TimerState_initial : TimerState :=
  mkTimerState false false None None (0 # 1).

(** ** timer.py *)

(** [Timer] and [MockTimer] share every method except [_calculate_elapsed],
    which [MockTimer] overrides and which [pause], [stop] and
    [elapsed_seconds] reach through [self].  The class of [self] is the
    instance of [TimerLike]. *)
Class TimerLike (Self : Type) := {
  _state : Self -> TimerState;
  set_state : TimerState -> Self -> Self;
  (** calls of [on_state_change] made so far, oldest first *)
  notified : Self -> list TimerState;
  set_notified : list TimerState -> Self -> Self;
  _calculate_elapsed : DateTime -> Self -> Q
}.

Record Timer := mkTimer {
  timer_state : TimerState;
  timer_notified : list TimerState
}.

Record MockTimer := mkMockTimer {
  mock_base : Timer;
  _mock_now : option DateTime
}.

(** [Timer.__init__] *)
Definition Timer_init : Timer := mkTimer TimerState_initial [].

(** [MockTimer.__init__] *)
Definition MockTimer_init : MockTimer := mkMockTimer Timer_init None.

(** [Timer._calculate_elapsed]; [now] is the value of [datetime.now()]. *)
Definition Timer_calculate_elapsed (now : DateTime) (s : TimerState) : Q :=
  if negb (is_running s) then accumulated_seconds s
  else if is_paused s then accumulated_seconds s
  else match start_time s with
       | None => accumulated_seconds s
       | Some st => (accumulated_seconds s + total_seconds (now - st))%Q
       end.

(** [MockTimer._calculate_elapsed] *)
Definition MockTimer_calculate_elapsed (now : DateTime) (self : MockTimer) : Q :=
  let s := timer_state (mock_base self) in
  match _mock_now self with
  | None => Timer_calculate_elapsed now s
  | Some mock_now =>
      if negb (is_running s) then accumulated_seconds s
      else if is_paused s then accumulated_seconds s
      else match start_time s with
           | None => accumulated_seconds s
           | Some st => (accumulated_seconds s + total_seconds (mock_now - st))%Q
           end
  end.

#[global] Instance Timer_TimerLike : TimerLike Timer := {
  _state := timer_state;
  set_state := fun s self => mkTimer s (timer_notified self);
  notified := timer_notified;
  set_notified := fun l self => mkTimer (timer_state self) l;
  _calculate_elapsed := fun now self => Timer_calculate_elapsed now (timer_state self)
}.

#[global] Instance MockTimer_TimerLike : TimerLike MockTimer := {
  _state := fun self => timer_state (mock_base self);
  set_state := fun s self =>
    mkMockTimer (mkTimer s (timer_notified (mock_base self))) (_mock_now self);
  notified := fun self => timer_notified (mock_base self);
  set_notified := fun l self =>
    mkMockTimer (mkTimer (timer_state (mock_base self)) l) (_mock_now self);
  _calculate_elapsed := MockTimer_calculate_elapsed
}.

(** [MockTimer.set_mock_time] *)
Definition set_mock_time (dt : DateTime) (self : MockTimer) : MockTimer :=
  mkMockTimer (mock_base self) (Some dt).

Section TimerMethods.
Context {Self : Type} `{TimerLike Self}.

(** the property [Timer.is_running] *)
Definition timer_is_running (self : Self) : bool :=
  is_running (_state self) && negb (is_paused (_state self)).

(** the property [Timer.is_paused] *)
Definition timer_is_paused (self : Self) : bool := is_paused (_state self).

(** the property [Timer.is_stopped] *)
Definition timer_is_stopped (self : Self) : bool := negb (is_running (_state self)).

(** the property [Timer.elapsed_seconds] *)
Definition elapsed_seconds (now : DateTime) (self : Self) : Z :=
  py_int (_calculate_elapsed now self).

(** [Timer._notify_state_change], with a callback installed *)
Definition _notify_state_change (self : Self) : Self :=
  set_notified (notified self ++ [_state self]) self.

(** [Timer.start] *)
Definition start (now : DateTime) (self : Self) : Self :=
  if is_running (_state self) then self
  else
    _notify_state_change
      (set_state (mkTimerState true false (Some now) None (0 # 1)) self).

(** [Timer.pause] *)
Definition pause (now : DateTime) (self : Self) : Self :=
  if negb (is_running (_state self)) || is_paused (_state self) then self
  else
    let accumulated := _calculate_elapsed now self in
    _notify_state_change
      (set_state
         (mkTimerState true true (start_time (_state self)) (Some now) accumulated)
         self).

(** [Timer.resume] *)
Definition resume (now : DateTime) (self : Self) : Self :=
  if negb (is_paused (_state self)) then self
  else
    _notify_state_change
      (set_state
         (mkTimerState true false (Some now) None
            (accumulated_seconds (_state self)))
         self).

(** [Timer.stop]: the returned seconds and the timer afterwards *)
Definition stop (now : DateTime) (self : Self) : Z * Self :=
  let final_seconds := elapsed_seconds now self in
  (final_seconds, _notify_state_change (set_state TimerState_initial self)).

(** [Timer.restore] *)
Definition restore (state : TimerState) (self : Self) : Self :=
  set_state state self.

(** the property [Timer.formatted_time] *)
Definition formatted_time (now : DateTime) (self : Self) : string :=
  format_duration (elapsed_seconds now self).
End TimerMethods.

(** The three states of the specification's state machine, read off a
    [TimerState] the way the properties of [Timer] do. *)
Inductive Phase := Stopped | Running | Paused.

Definition phase (s : TimerState) : Phase :=
  if negb (is_running s) then Stopped
  else if is_paused s then Paused
  else Running.

(** ** models.py: the aggregates *)

Module Set_.
Record t := mk {
  id : UUID;
  session_exercise_id : UUID;
  reps : Z;
  weight : option Q;
  created_at : DateTime
}.
End Set_.

Module SessionExercise.
Record t := mk {
  id : UUID;
  session_id : UUID;
  name : string;
  order_index : Z;
  uses_weight : bool;
  sets : list Set_.t
}.
End SessionExercise.

Module WorkoutSession.
Record t := mk {
  id : UUID;
  template_id : option UUID;
  template_name : option string;
  started_at : DateTime;
  ended_at : option DateTime;
  duration_seconds : option Z;
  notes : option string;
  exercises : list SessionExercise.t
}.

(** the property [WorkoutSession.is_active] *)
Definition is_active (s : t) : bool :=
  match ended_at s with None => true | Some _ => false end.

(** [WorkoutSession.create]; [id] is the result of [uuid4()], [now] of
    [datetime.now()] *)
Definition create (id : UUID) (now : DateTime) (template_id : option UUID)
  (template_name : option string) : t :=
  mk id template_id template_name now None None None [].

(** the property [WorkoutSession.total_sets] *)
Definition total_sets (s : t) : Z :=
  fold_left (fun total ex => total + Z.of_nat (List.length (SessionExercise.sets ex)))
    (exercises s) 0.

(** the property [WorkoutSession.total_reps] *)
Definition total_reps (s : t) : Z :=
  fold_left (fun total w => total + Set_.reps w)
    (flat_map SessionExercise.sets (exercises s)) 0.

(** the property [WorkoutSession.total_volume] *)
Definition total_volume (s : t) : Q :=
  fold_left
    (fun total ex =>
       fold_left
         (fun total w =>
            match Set_.weight w with
            | Some weight => (total + weight * inject_Z (Set_.reps w))%Q
            | None => total
            end)
         (SessionExercise.sets ex) total)
    (exercises s) (0 # 1).

(** [WorkoutSession.formatted_duration] *)
Definition formatted_duration (s : t) : string :=
  match duration_seconds s with
  | None => "--:--"%string
  | Some d => format_duration d
  end.
End WorkoutSession.

Module TemplateExercise.
Record t := mk {
  id : UUID;
  template_id : UUID;
  name : string;
  order_index : Z;
  uses_weight : bool
}.

(** [TemplateExercise.create]; [id] is the result of [uuid4()] *)
Definition create (id : UUID) (template_id : UUID) (name : string) (order_index : Z)
  (uses_weight : bool) : t :=
  mk id template_id name order_index uses_weight.
End TemplateExercise.

Module WorkoutTemplate.
Record t := mk {
  id : UUID;
  name : string;
  created_at : DateTime;
  exercises : list TemplateExercise.t
}.

(** [WorkoutTemplate.create]; [id] is the result of [uuid4()], [now] of
    [datetime.now()] *)
Definition create (id : UUID) (now : DateTime) (name : string) : t :=
  mk id name now [].
End WorkoutTemplate.

(** ** The embedded store

    The rows of the tables that [migration_001_initial_schema] creates.
    [uses_weight] is an INTEGER column, NULL is [None]. *)

Module TemplateRow.
Record t := mk { id : UUID; name : string; created_at : DateTime }.
End TemplateRow.

Module TemplateExerciseRow.
Record t := mk {
  id : UUID;
  template_id : UUID;
  name : string;
  order_index : Z;
  uses_weight : Z
}.
End TemplateExerciseRow.

Module SessionRow.
Record t := mk {
  id : UUID;
  template_id : option UUID;
  template_name : option string;
  started_at : DateTime;
  ended_at : option DateTime;
  duration_seconds : option Z;
  notes : option string
}.
End SessionRow.

Module SessionExerciseRow.
Record t := mk {
  id : UUID;
  session_id : UUID;
  name : string;
  order_index : Z;
  uses_weight : Z
}.
End SessionExerciseRow.

Module SetRow.
Record t := mk {
  id : UUID;
  session_exercise_id : UUID;
  reps : Z;
  weight : option Q;
  created_at : DateTime
}.
End SetRow.

(** The database file: the catalogue of tables and indexes that exist
    ([sqlite_master], as pairs of type and name) and the rows of every table.  Statements on the data
    tables presuppose that [Database.initialize] has created them; only the
    migration engine looks at the catalogue. *)
Record Store := mkStore {
  sqlite_master : list (string * string);
  schema_version : list (Z * DateTime);
  workout_templates : list TemplateRow.t;
  template_exercises : list TemplateExerciseRow.t;
  workout_sessions : list SessionRow.t;
  session_exercises : list SessionExerciseRow.t;
  sets : list SetRow.t;
  app_state : list (string * option string)
}.

Definition empty_store : Store := mkStore [] [] [] [] [] [] [] [].

Definition with_sqlite_master (v : list (string * string)) (st : Store) : Store :=
  mkStore v (schema_version st) (workout_templates st) (template_exercises st)
    (workout_sessions st) (session_exercises st) (sets st) (app_state st).

Definition with_schema_version (v : list (Z * DateTime)) (st : Store) : Store :=
  mkStore (sqlite_master st) v (workout_templates st) (template_exercises st)
    (workout_sessions st) (session_exercises st) (sets st) (app_state st).

Definition with_workout_templates (v : list TemplateRow.t) (st : Store) : Store :=
  mkStore (sqlite_master st) (schema_version st) v (template_exercises st)
    (workout_sessions st) (session_exercises st) (sets st) (app_state st).

Definition with_template_exercises (v : list TemplateExerciseRow.t) (st : Store) : Store :=
  mkStore (sqlite_master st) (schema_version st) (workout_templates st) v
    (workout_sessions st) (session_exercises st) (sets st) (app_state st).

Definition with_workout_sessions (v : list SessionRow.t) (st : Store) : Store :=
  mkStore (sqlite_master st) (schema_version st) (workout_templates st)
    (template_exercises st) v (session_exercises st) (sets st) (app_state st).

Definition with_session_exercises (v : list SessionExerciseRow.t) (st : Store) : Store :=
  mkStore (sqlite_master st) (schema_version st) (workout_templates st)
    (template_exercises st) (workout_sessions st) v (sets st) (app_state st).

Definition with_sets (v : list SetRow.t) (st : Store) : Store :=
  mkStore (sqlite_master st) (schema_version st) (workout_templates st)
    (template_exercises st) (workout_sessions st) (session_exercises st) v
    (app_state st).

Definition with_app_state (v : list (string * option string)) (st : Store) : Store :=
  mkStore (sqlite_master st) (schema_version st) (workout_templates st)
    (template_exercises st) (workout_sessions st) (session_exercises st)
    (sets st) v.

(** ** Exceptions and outcomes *)

(** The [sqlite3] errors a statement raises. *)
Inductive SqlError :=
| IntegrityError (msg : string)
| OperationalError (msg : string).

(** The Python exceptions of the modelled code.  All but
    [KeyboardInterrupt] derive from [Exception]. *)
Inductive PyExc :=
| Sqlite3Error (e : SqlError)
| JSONDecodeError
| KeyError (key : string)
| ValueError
| TypeError
| OverflowError
| KeyboardInterrupt.

(** [isinstance(e, Exception)] *)
Definition is_Exception (e : PyExc) : bool :=
  match e with
  | KeyboardInterrupt => false
  | _ => true
  end.

Inductive Outcome (A : Type) :=
| Return (a : A)
| Raise (e : PyExc).
Arguments Return {A} a.
Arguments Raise {A} e.

(** ** Statements on a table *)

Section Table.
Context {Row : Type} (pk : Row -> UUID).

(** [WHERE id = ?] *)
Definition has_pk (k : UUID) (r : Row) : bool := N.eqb (pk r) k.

Definition pk_exists (k : UUID) (t : list Row) : bool := existsb (has_pk k) t.

(** [cursor.fetchone()] *)
Definition fetchone (rows : list Row) : option Row := hd_error rows.

(** [UPDATE ... WHERE p]: rows keep their place. *)
Definition update_where (p : Row -> bool) (f : Row -> Row) (t : list Row) : list Row :=
  map (fun r => if p r then f r else r) t.

(** [DELETE ... WHERE p] *)
Definition delete_where (p : Row -> bool) (t : list Row) : list Row :=
  filter (fun r => negb (p r)) t.

(** [INSERT INTO ... VALUES ...] on a table with PRIMARY KEY [id]. *)
Definition insert_row (table : string) (r : Row) (t : list Row)
  : SqlError + list Row :=
  if pk_exists (pk r) t
  then inl (IntegrityError ("UNIQUE constraint failed: " ++ table ++ ".id"))
  else inr (t ++ [r]).

(** [INSERT ... ON CONFLICT(id) DO UPDATE SET ...]: [do_update old] is the
    conflicting row after the SET clause. *)
Definition upsert_row (r : Row) (do_update : Row -> Row) (t : list Row) : list Row :=
  if pk_exists (pk r) t
  then update_where (has_pk (pk r)) do_update t
  else t ++ [r].
End Table.

(** [ORDER BY key] (ascending).  SQL leaves the order of rows with equal keys
    open; this sort keeps them in scan order. *)
Fixpoint insert_sorted {A : Type} (key : A -> Z) (x : A) (l : list A) : list A :=
  match l with
  | [] => [x]
  | y :: l' => if key x <=? key y then x :: l else y :: insert_sorted key x l'
  end.

Definition order_by {A : Type} (key : A -> Z) (l : list A) : list A :=
  fold_right (insert_sorted key) [] l.

(** [ORDER BY key DESC] *)
Definition order_by_desc {A : Type} (key : A -> Z) (l : list A) : list A :=
  order_by (fun r => - key r) l.

(** [ORDER BY key] on a TEXT column: the BINARY collation compares the
    strings byte by byte.  Rows with equal keys stay in scan order. *)
Fixpoint insert_sorted_text {A : Type} (key : A -> string) (x : A) (l : list A) : list A :=
  match l with
  | [] => [x]
  | y :: l' =>
      if String.leb (key x) (key y) then x :: l else y :: insert_sorted_text key x l'
  end.

Definition order_by_text {A : Type} (key : A -> string) (l : list A) : list A :=
  fold_right (insert_sorted_text key) [] l.

(** [LIMIT n]: a negative [n] is no limit. *)
Definition sql_limit {A : Type} (n : Z) (rows : list A) : list A :=
  if n <? 0 then rows else firstn (Z.to_nat n) rows.

(** The constraint error of a violated FOREIGN KEY (foreign keys are ON). *)
Definition fk_failed : SqlError := IntegrityError "FOREIGN KEY constraint failed".

(** ** db.py *)

(** The connection: what has been committed to the file, what the
    connection currently sees, whether a transaction is open
    ([Connection.in_transaction]), and how often [commit] and [rollback]
    have been called on it.  Outside a transaction the connection sees what
    the file holds. *)
Record Database := mkConnection {
  committed : Store;
  working : Store;
  in_transaction : bool;
  commits : nat;
  rollbacks : nat
}.

(** a connection outside a transaction *)
Abbreviation mkDatabase committed working commits rollbacks :=
  (mkConnection committed working false commits rollbacks) (only parsing).

(** [Database.connect] on a file that holds [st] *)
Definition connect (st : Store) : Database := mkDatabase st st 0 0.

(** [conn.commit()] *)
Definition conn_commit (db : Database) : Database :=
  mkDatabase (working db) (working db) (S (commits db)) (rollbacks db).

(** [conn.rollback()] *)
Definition conn_rollback (db : Database) : Database :=
  mkDatabase (committed db) (committed db) (commits db) (S (rollbacks db)).

Definition with_working (st : Store) (db : Database) : Database :=
  mkConnection (committed db) st (in_transaction db) (commits db) (rollbacks db).

(** The BEGIN that [sqlite3] issues before an INSERT, UPDATE or DELETE when
    no transaction is open (the connection has the default
    [isolation_level]). *)
Definition begin (db : Database) : Database :=
  mkConnection (committed db) (working db) true (commits db) (rollbacks db).

(** Code running on a cursor of the connection: it returns or raises. *)
Definition Tx (A : Type) : Type := Database -> Database * Outcome A.

Definition tx_ret {A : Type} (a : A) : Tx A := fun db => (db, Return a).

Definition tx_bind {A B : Type} (m : Tx A) (k : A -> Tx B) : Tx B :=
  fun db =>
    match m db with
    | (db', Return a) => k a db'
    | (db', Raise e) => (db', Raise e)
    end.

Declare Scope tx_scope.
Delimit Scope tx_scope with tx.
Notation "m ;; k" := (tx_bind m (fun _ => k))
  (at level 61, right associativity) : tx_scope.

(** [cursor.execute(stmt)] for an INSERT, UPDATE or DELETE.  A transaction
    is open from then on.  A statement that raises changes nothing, the
    statements before it keep their effect. *)
Definition execute (stmt : Store -> SqlError + Store) : Tx unit :=
  fun db =>
    match stmt (working db) with
    | inr st' => (with_working st' (begin db), Return tt)
    | inl e => (begin db, Raise (Sqlite3Error e))
    end.

(** [cursor.execute(stmt)] for a CREATE TABLE or CREATE INDEX: [sqlite3]
    opens no transaction for it.  Inside an open transaction it is one more
    pending write; outside, SQLite commits it at once, and no [rollback]
    undoes it. *)
Definition execute_create (stmt : Store -> SqlError + Store) : Tx unit :=
  fun db =>
    match stmt (working db) with
    | inr st' =>
        (if in_transaction db then with_working st' db
         else mkConnection st' st' false (commits db) (rollbacks db),
         Return tt)
    | inl e => (db, Raise (Sqlite3Error e))
    end.

(** SQLite's INTEGER is a signed 64-bit integer. *)
Definition fits_sqlite_integer (n : Z) : bool := (- 2 ^ 63 <=? n) && (n <? 2 ^ 63).

(** [cursor.execute(stmt, params)] for an INSERT, UPDATE or DELETE that
    binds the Python integer [n]: the transaction is opened first, then the
    parameters are bound, and an integer that SQLite cannot hold raises
    [OverflowError] before the statement runs. *)
Definition execute_binding (n : Z) (stmt : Store -> SqlError + Store) : Tx unit :=
  fun db =>
    if fits_sqlite_integer n then execute stmt db else (begin db, Raise OverflowError).

(** [for x in l: body(x)] *)
Fixpoint for_each {A : Type} (l : list A) (body : A -> Tx unit) : Tx unit :=
  match l with
  | [] => tx_ret tt
  | x :: l' => tx_bind (body x) (fun _ => for_each l' body)
  end.

(** [Database.transaction]: the body runs at the [yield]; [except Exception]
    rolls back and re-raises, anything else passes through untouched. *)
Definition transaction {A : Type} (body : Tx A) (db : Database) : Database * Outcome A :=
  match body db with
  | (db', Return a) => (conn_commit db', Return a)
  | (db', Raise e) =>
      if is_Exception e
      then (conn_rollback db', Raise e)
      else (db', Raise e)
  end.

(** [Database.cursor]: a read-only scope *)
Definition cursor {A : Type} (body : Store -> A) (db : Database) : A :=
  body (working db).

(** ** repositories.py: [TemplateRepository] *)

(** [1 if exercise.uses_weight else 0] *)
Definition int_of_bool (b : bool) : Z := if b then 1 else 0.

(** [bool(row["uses_weight"])] *)
Definition bool_of_int (x : Z) : bool := negb (x =? 0).

Module TemplateRepository.

(** the [TemplateExercise(...)] built from a row of [template_exercises] *)
Definition exercise_of_row (ex_row : TemplateExerciseRow.t) : TemplateExercise.t :=
  TemplateExercise.mk
    (TemplateExerciseRow.id ex_row)
    (TemplateExerciseRow.template_id ex_row)
    (TemplateExerciseRow.name ex_row)
    (TemplateExerciseRow.order_index ex_row)
    (bool_of_int (TemplateExerciseRow.uses_weight ex_row)).

(** [SELECT ... FROM template_exercises WHERE template_id = ? ORDER BY order_index] *)
Definition select_exercises (template_id : UUID) (st : Store)
  : list TemplateExerciseRow.t :=
  order_by TemplateExerciseRow.order_index
    (filter (fun r => N.eqb (TemplateExerciseRow.template_id r) template_id)
       (template_exercises st)).

(** [TemplateRepository.get_by_id] *)
Definition get_by_id (template_id : UUID) (db : Database) : option WorkoutTemplate.t :=
  cursor (fun st =>
    match fetchone (filter (has_pk TemplateRow.id template_id) (workout_templates st)) with
    | None => None
    | Some row =>
        Some (WorkoutTemplate.mk
                (TemplateRow.id row)
                (TemplateRow.name row)
                (TemplateRow.created_at row)
                (map exercise_of_row (select_exercises template_id st)))
    end) db.

(** [TemplateRepository.get_all] *)
Definition get_all (db : Database) : list WorkoutTemplate.t :=
  cursor (fun st =>
    map (fun row =>
           WorkoutTemplate.mk
             (TemplateRow.id row)
             (TemplateRow.name row)
             (TemplateRow.created_at row)
             (map exercise_of_row (select_exercises (TemplateRow.id row) st)))
      (order_by_text TemplateRow.name (workout_templates st))) db.

(** [INSERT INTO workout_templates (id, name, created_at) VALUES (?, ?, ?)
     ON CONFLICT(id) DO UPDATE SET name = excluded.name] *)
Definition upsert_template (id : UUID) (name : string) (created_at : DateTime)
  (st : Store) : SqlError + Store :=
  inr (with_workout_templates
         (upsert_row TemplateRow.id
            (TemplateRow.mk id name created_at)
            (fun old => TemplateRow.mk (TemplateRow.id old) name (TemplateRow.created_at old))
            (workout_templates st))
         st).

(** [DELETE FROM template_exercises WHERE template_id = ?] *)
Definition delete_exercises (template_id : UUID) (st : Store) : SqlError + Store :=
  inr (with_template_exercises
         (delete_where
            (fun r => N.eqb (TemplateExerciseRow.template_id r) template_id)
            (template_exercises st))
         st).

(** [INSERT INTO template_exercises (...) VALUES (?, ?, ?, ?, ?)]; the row
    must reference a template that exists. *)
Definition insert_exercise (r : TemplateExerciseRow.t) (st : Store) : SqlError + Store :=
  match insert_row TemplateExerciseRow.id "template_exercises" r (template_exercises st) with
  | inl e => inl e
  | inr rows =>
      if pk_exists TemplateRow.id (TemplateExerciseRow.template_id r) (workout_templates st)
      then inr (with_template_exercises rows st)
      else inl fk_failed
  end.

(** the values [save] binds to the INSERT of one exercise: the owner is the
    id of the template being saved *)
Definition exercise_params (template : WorkoutTemplate.t) (exercise : TemplateExercise.t)
  : TemplateExerciseRow.t :=
  TemplateExerciseRow.mk
    (TemplateExercise.id exercise)
    (WorkoutTemplate.id template)
    (TemplateExercise.name exercise)
    (TemplateExercise.order_index exercise)
    (int_of_bool (TemplateExercise.uses_weight exercise)).

(** the body of the [with self.db.transaction()] block of [save] *)
Definition save_body (template : WorkoutTemplate.t) : Tx unit :=
  (execute (upsert_template (WorkoutTemplate.id template)
              (WorkoutTemplate.name template) (WorkoutTemplate.created_at template)) ;;
   execute (delete_exercises (WorkoutTemplate.id template)) ;;
   for_each (WorkoutTemplate.exercises template) (fun exercise =>
     execute (insert_exercise (exercise_params template exercise))))%tx.

(** [TemplateRepository.save] *)
Definition save (template : WorkoutTemplate.t) (db : Database) : Database * Outcome unit :=
  transaction (save_body template) db.

(** [DELETE FROM workout_templates WHERE id = ?].  For the rows it deletes,
    ON DELETE CASCADE removes the exercises that refer to one of them and
    ON DELETE SET NULL clears the reference of every session to one of
    them. *)
Definition delete_template (template_id : UUID) (st : Store) : SqlError + Store :=
  let deleted := filter (has_pk TemplateRow.id template_id) (workout_templates st) in
  inr (with_workout_sessions
         (update_where
            (fun s => match SessionRow.template_id s with
                      | Some t => pk_exists TemplateRow.id t deleted
                      | None => false
                      end)
            (fun s => SessionRow.mk (SessionRow.id s) None (SessionRow.template_name s)
                        (SessionRow.started_at s) (SessionRow.ended_at s)
                        (SessionRow.duration_seconds s) (SessionRow.notes s))
            (workout_sessions st))
         (with_template_exercises
            (delete_where
               (fun r => pk_exists TemplateRow.id (TemplateExerciseRow.template_id r) deleted)
               (template_exercises st))
            (with_workout_templates
               (delete_where (has_pk TemplateRow.id template_id) (workout_templates st))
               st))).

(** [TemplateRepository.delete] *)
Definition delete (template_id : UUID) (db : Database) : Database * Outcome unit :=
  transaction (execute (delete_template template_id)) db.

(** the loop of [duplicate] over [original.exercises]; the exercise number
    [j] takes the call [call + j] of [uuid4()] *)
Fixpoint copy_exercises (uuid4 : nat -> UUID) (call : nat) (new_template_id : UUID)
  (exercises : list TemplateExercise.t) : list TemplateExercise.t :=
  match exercises with
  | [] => []
  | ex :: rest =>
      TemplateExercise.create (uuid4 call) new_template_id
        (TemplateExercise.name ex) (TemplateExercise.order_index ex)
        (TemplateExercise.uses_weight ex)
      :: copy_exercises uuid4 (S call) new_template_id rest
  end.

(** [TemplateRepository.duplicate]; [uuid4 n] is the result of the call
    number [n] of [uuid4()], [now] that of [datetime.now()] *)
Definition duplicate (uuid4 : nat -> UUID) (now : DateTime) (template_id : UUID)
  (new_name : string) (db : Database) : Database * Outcome (option WorkoutTemplate.t) :=
  match get_by_id template_id db with
  | None => (db, Return None)
  | Some original =>
      let new_template := WorkoutTemplate.create (uuid4 0%nat) now new_name in
      let new_template :=
        WorkoutTemplate.mk
          (WorkoutTemplate.id new_template)
          (WorkoutTemplate.name new_template)
          (WorkoutTemplate.created_at new_template)
          (WorkoutTemplate.exercises new_template
           ++ copy_exercises uuid4 1 (WorkoutTemplate.id new_template)
                (WorkoutTemplate.exercises original)) in
      match save new_template db with
      | (db', Return _) => (db', Return (Some new_template))
      | (db', Raise e) => (db', Raise e)
      end
  end.

End TemplateRepository.

(** ** repositories.py: [SessionRepository] *)

Module SessionRepository.

(** [SessionRepository._row_to_session], before the exercises are loaded *)
Definition _row_to_session (row : SessionRow.t) : WorkoutSession.t :=
  WorkoutSession.mk
    (SessionRow.id row)
    (SessionRow.template_id row)
    (SessionRow.template_name row)
    (SessionRow.started_at row)
    (SessionRow.ended_at row)
    (SessionRow.duration_seconds row)
    (SessionRow.notes row)
    [].

(** the [Set(...)] built from a row of [sets] *)
Definition set_of_row (set_row : SetRow.t) : Set_.t :=
  Set_.mk
    (SetRow.id set_row)
    (SetRow.session_exercise_id set_row)
    (SetRow.reps set_row)
    (SetRow.weight set_row)
    (SetRow.created_at set_row).

(** [SELECT ... FROM sets WHERE session_exercise_id = ? ORDER BY created_at] *)
Definition select_sets (exercise_id : UUID) (st : Store) : list SetRow.t :=
  order_by SetRow.created_at
    (filter (fun r => N.eqb (SetRow.session_exercise_id r) exercise_id) (sets st)).

(** [SELECT ... FROM session_exercises WHERE session_id = ? ORDER BY order_index] *)
Definition select_exercises (session_id : UUID) (st : Store) : list SessionExerciseRow.t :=
  order_by SessionExerciseRow.order_index
    (filter (fun r => N.eqb (SessionExerciseRow.session_id r) session_id)
       (session_exercises st)).

(** [SessionRepository._load_exercises]: the list that ends up in
    [session.exercises] *)
Definition _load_exercises (st : Store) (session_id : UUID) : list SessionExercise.t :=
  map (fun ex_row =>
         SessionExercise.mk
           (SessionExerciseRow.id ex_row)
           (SessionExerciseRow.session_id ex_row)
           (SessionExerciseRow.name ex_row)
           (SessionExerciseRow.order_index ex_row)
           (bool_of_int (SessionExerciseRow.uses_weight ex_row))
           (map set_of_row (select_sets (SessionExerciseRow.id ex_row) st)))
      (select_exercises session_id st).

Definition with_exercises (l : list SessionExercise.t) (s : WorkoutSession.t)
  : WorkoutSession.t :=
  WorkoutSession.mk (WorkoutSession.id s) (WorkoutSession.template_id s)
    (WorkoutSession.template_name s) (WorkoutSession.started_at s)
    (WorkoutSession.ended_at s) (WorkoutSession.duration_seconds s)
    (WorkoutSession.notes s) l.

(** [SessionRepository.get_by_id] *)
Definition get_by_id (session_id : UUID) (db : Database) : option WorkoutSession.t :=
  cursor (fun st =>
    match fetchone (filter (has_pk SessionRow.id session_id) (workout_sessions st)) with
    | None => None
    | Some row =>
        let session := _row_to_session row in
        Some (with_exercises (_load_exercises st (WorkoutSession.id session)) session)
    end) db.

(** [SessionRepository.get_all]; the default of [limit] is 50 *)
Definition get_all (limit : Z) (db : Database) : list WorkoutSession.t :=
  cursor (fun st =>
    map (fun row =>
           let session := _row_to_session row in
           with_exercises (_load_exercises st (WorkoutSession.id session)) session)
      (sql_limit limit (order_by_desc SessionRow.started_at (workout_sessions st)))) db.

(** [SessionRepository.get_active] *)
Definition get_active (db : Database) : option WorkoutSession.t :=
  cursor (fun st =>
    match fetchone
            (sql_limit 1
               (order_by_desc SessionRow.started_at
                  (filter (fun r => match SessionRow.ended_at r with
                                    | None => true
                                    | Some _ => false
                                    end)
                     (workout_sessions st))))
    with
    | None => None
    | Some row =>
        let session := _row_to_session row in
        Some (with_exercises (_load_exercises st (WorkoutSession.id session)) session)
    end) db.

(** the FOREIGN KEY of [workout_sessions.template_id] *)
Definition template_fk_ok (template_id : option UUID) (st : Store) : bool :=
  match template_id with
  | None => true
  | Some t => pk_exists TemplateRow.id t (workout_templates st)
  end.

(** [DO UPDATE SET template_id = excluded.template_id, template_name = ...,
     ended_at = ..., duration_seconds = ..., notes = ...] on the row [old] *)
Definition update_session (excluded old : SessionRow.t) : SessionRow.t :=
  SessionRow.mk (SessionRow.id old)
    (SessionRow.template_id excluded) (SessionRow.template_name excluded)
    (SessionRow.started_at old)
    (SessionRow.ended_at excluded) (SessionRow.duration_seconds excluded)
    (SessionRow.notes excluded).

(** [INSERT INTO workout_sessions (...) VALUES (?, ?, ?, ?, ?, ?, ?)
     ON CONFLICT(id) DO UPDATE SET ...]; the template the row refers to must
    exist, whether the row is inserted or updated. *)
Definition upsert_session (r : SessionRow.t) (st : Store) : SqlError + Store :=
  if template_fk_ok (SessionRow.template_id r) st
  then inr (with_workout_sessions
              (upsert_row SessionRow.id r (update_session r) (workout_sessions st)) st)
  else inl fk_failed.

(** the values [save] binds to its statement *)
Definition session_params (session : WorkoutSession.t) : SessionRow.t :=
  SessionRow.mk
    (WorkoutSession.id session)
    (WorkoutSession.template_id session)
    (WorkoutSession.template_name session)
    (WorkoutSession.started_at session)
    (WorkoutSession.ended_at session)
    (WorkoutSession.duration_seconds session)
    (WorkoutSession.notes session).

(** [SessionRepository.save] *)
Definition save (session : WorkoutSession.t) (db : Database) : Database * Outcome unit :=
  transaction (execute (upsert_session (session_params session))) db.

(** [DO UPDATE SET name = excluded.name, order_index = excluded.order_index,
     uses_weight = excluded.uses_weight] on the row [old] *)
Definition update_exercise (excluded old : SessionExerciseRow.t) : SessionExerciseRow.t :=
  SessionExerciseRow.mk (SessionExerciseRow.id old) (SessionExerciseRow.session_id old)
    (SessionExerciseRow.name excluded) (SessionExerciseRow.order_index excluded)
    (SessionExerciseRow.uses_weight excluded).

(** [INSERT INTO session_exercises (...) VALUES (?, ?, ?, ?, ?)
     ON CONFLICT(id) DO UPDATE SET ...]; a new row must reference a session
    that exists. *)
Definition upsert_exercise (r : SessionExerciseRow.t) (st : Store) : SqlError + Store :=
  if pk_exists SessionExerciseRow.id (SessionExerciseRow.id r) (session_exercises st)
     || pk_exists SessionRow.id (SessionExerciseRow.session_id r) (workout_sessions st)
  then inr (with_session_exercises
              (upsert_row SessionExerciseRow.id r (update_exercise r) (session_exercises st))
              st)
  else inl fk_failed.

(** the values [save_exercise] binds to its statement *)
Definition exercise_params (exercise : SessionExercise.t) : SessionExerciseRow.t :=
  SessionExerciseRow.mk
    (SessionExercise.id exercise)
    (SessionExercise.session_id exercise)
    (SessionExercise.name exercise)
    (SessionExercise.order_index exercise)
    (int_of_bool (SessionExercise.uses_weight exercise)).

(** [SessionRepository.save_exercise] *)
Definition save_exercise (exercise : SessionExercise.t) (db : Database)
  : Database * Outcome unit :=
  transaction (execute (upsert_exercise (exercise_params exercise))) db.

(** [DO UPDATE SET reps = excluded.reps, weight = excluded.weight] on the
    row [old] *)
Definition update_set (excluded old : SetRow.t) : SetRow.t :=
  SetRow.mk (SetRow.id old) (SetRow.session_exercise_id old)
    (SetRow.reps excluded) (SetRow.weight excluded) (SetRow.created_at old).

(** [INSERT INTO sets (...) VALUES (?, ?, ?, ?, ?)
     ON CONFLICT(id) DO UPDATE SET ...]; a new row must reference a session
    exercise that exists. *)
Definition upsert_set (r : SetRow.t) (st : Store) : SqlError + Store :=
  if pk_exists SetRow.id (SetRow.id r) (sets st)
     || pk_exists SessionExerciseRow.id (SetRow.session_exercise_id r) (session_exercises st)
  then inr (with_sets (upsert_row SetRow.id r (update_set r) (sets st)) st)
  else inl fk_failed.

(** the values [save_set] binds to its statement *)
Definition set_params (workout_set : Set_.t) : SetRow.t :=
  SetRow.mk
    (Set_.id workout_set)
    (Set_.session_exercise_id workout_set)
    (Set_.reps workout_set)
    (Set_.weight workout_set)
    (Set_.created_at workout_set).

(** [DELETE FROM session_exercises WHERE id = ?]; ON DELETE CASCADE removes
    the sets that refer to a row it deletes. *)
Definition delete_exercise_row (exercise_id : UUID) (st : Store) : SqlError + Store :=
  let deleted :=
    filter (has_pk SessionExerciseRow.id exercise_id) (session_exercises st) in
  inr (with_sets
         (delete_where
            (fun w => pk_exists SessionExerciseRow.id (SetRow.session_exercise_id w) deleted)
            (sets st))
         (with_session_exercises
            (delete_where (has_pk SessionExerciseRow.id exercise_id) (session_exercises st))
            st)).

(** [SessionRepository.delete_exercise] *)
Definition delete_exercise (exercise_id : UUID) (db : Database) : Database * Outcome unit :=
  transaction (execute (delete_exercise_row exercise_id)) db.

(** [SessionRepository.save_set] *)
Definition save_set (workout_set : Set_.t) (db : Database) : Database * Outcome unit :=
  transaction (execute (upsert_set (set_params workout_set))) db.

(** [SessionRepository.delete_set] *)
Definition delete_set (set_id : UUID) (db : Database) : Database * Outcome unit :=
  transaction
    (execute (fun st =>
       inr (with_sets (delete_where (has_pk SetRow.id set_id) (sets st)) st)))
    db.

(** [SessionRepository.end_session]; [now] is [datetime.now()] *)
Definition end_session (now : DateTime) (session_id : UUID) (duration_seconds : Z)
  (db : Database) : Database * Outcome unit :=
  transaction
    (execute_binding duration_seconds (fun st =>
       inr (with_workout_sessions
              (update_where (has_pk SessionRow.id session_id)
                 (fun old =>
                    SessionRow.mk (SessionRow.id old) (SessionRow.template_id old)
                      (SessionRow.template_name old) (SessionRow.started_at old)
                      (Some now) (Some duration_seconds) (SessionRow.notes old))
                 (workout_sessions st))
              st)))
    db.

(** [DELETE FROM workout_sessions WHERE id = ?]; ON DELETE CASCADE removes
    the exercises that refer to a row it deletes, and with each of them the
    sets that refer to it. *)
Definition delete_session (session_id : UUID) (st : Store) : SqlError + Store :=
  let deleted := filter (has_pk SessionRow.id session_id) (workout_sessions st) in
  let deleted_exercises :=
    filter (fun e => pk_exists SessionRow.id (SessionExerciseRow.session_id e) deleted)
      (session_exercises st) in
  inr (with_sets
         (delete_where
            (fun w =>
               pk_exists SessionExerciseRow.id (SetRow.session_exercise_id w)
                 deleted_exercises)
            (sets st))
         (with_session_exercises
            (delete_where
               (fun e => pk_exists SessionRow.id (SessionExerciseRow.session_id e) deleted)
               (session_exercises st))
            (with_workout_sessions
               (delete_where (has_pk SessionRow.id session_id) (workout_sessions st))
               st))).

(** [SessionRepository.delete] *)
Definition delete (session_id : UUID) (db : Database) : Database * Outcome unit :=
  transaction (execute (delete_session session_id)) db.

(** [FROM sets s JOIN session_exercises se ON s.session_exercise_id = se.id] *)
Definition join_sets_exercises (st : Store) : list (SetRow.t * SessionExerciseRow.t) :=
  flat_map
    (fun s =>
       map (fun se => (s, se))
         (filter (has_pk SessionExerciseRow.id (SetRow.session_exercise_id s))
            (session_exercises st)))
    (sets st).

(** [WHERE se.name = ? AND s.weight IS NOT NULL] *)
Definition weight_recorded_for (exercise_name : string)
  (row : SetRow.t * SessionExerciseRow.t) : bool :=
  String.eqb (SessionExerciseRow.name (snd row)) exercise_name
  && match SetRow.weight (fst row) with Some _ => true | None => false end.

(** [SessionRepository.get_last_weight_for_exercise] *)
Definition get_last_weight_for_exercise (exercise_name : string) (db : Database)
  : option Q :=
  cursor (fun st =>
    match fetchone
            (order_by_desc (fun row => SetRow.created_at (fst row))
               (filter (weight_recorded_for exercise_name) (join_sets_exercises st)))
    with
    | Some row => SetRow.weight (fst row)
    | None => None
    end) db.

End SessionRepository.

(** ** repositories.py: [AppStateRepository] *)

(** What [json.loads] returns. *)
#[warnings="-register-all"]
Inductive JSON :=
| JNull
| JBool (b : bool)
| JNumber (x : Q)
| JString (s : string)
| JArray (items : list JSON)
| JObject (members : list (string * JSON)).

(** The truth value of a decoded JSON value in an [if]. *)
Definition truthy (v : JSON) : bool :=
  match v with
  | JNull => false
  | JBool b => b
  | JNumber x => negb (Qeq_bool x 0)
  | JString s => negb (String.eqb s EmptyString)
  | JArray items => match items with [] => false | _ => true end
  | JObject members => match members with [] => false | _ => true end
  end.

(** [data[key]]: only a dict can be indexed by a string. *)
Definition getitem (data : JSON) (key : string) : Outcome JSON :=
  match data with
  | JObject members =>
      match find (fun m => String.eqb (fst m) key) members with
      | Some m => Return (snd m)
      | None => Raise (KeyError key)
      end
  | _ => Raise TypeError
  end.

Definition outcome_bind {A B : Type} (m : Outcome A) (k : A -> Outcome B) : Outcome B :=
  match m with
  | Return a => k a
  | Raise e => Raise e
  end.

(** [try: body except catches: return handler] *)
Definition try_except {A : Type} (body : Outcome A) (catches : PyExc -> bool)
  (handler : A) : Outcome A :=
  match body with
  | Return a => Return a
  | Raise e => if catches e then Return handler else Raise e
  end.

(** The object [get_timer_state] builds.  A dataclass does not check the
    types of its fields: the three fields copied from the JSON object hold
    whatever value the object has there. *)
Record LoadedTimerState := mkLoadedTimerState {
  loaded_is_running : JSON;
  loaded_is_paused : JSON;
  loaded_start_time : option DateTime;
  loaded_pause_time : option DateTime;
  loaded_accumulated_seconds : JSON
}.

Module AppStateRepository.

(** [AppStateRepository.get] *)
Definition get (key : string) (db : Database) : option string :=
  cursor (fun st =>
    match fetchone (filter (fun r => String.eqb (fst r) key) (app_state st)) with
    | Some row => snd row
    | None => None
    end) db.

(** [AppStateRepository.set] *)
Definition set (key value : string) (db : Database) : Database * Outcome unit :=
  transaction
    (execute (fun st =>
       inr (with_app_state
              (if existsb (fun r => String.eqb (fst r) key) (app_state st)
               then map (fun r => if String.eqb (fst r) key then (fst r, Some value) else r)
                      (app_state st)
               else app_state st ++ [(key, Some value)])
              st)))
    db.

(** [AppStateRepository.delete] *)
Definition delete (key : string) (db : Database) : Database * Outcome unit :=
  transaction
    (execute (fun st =>
       inr (with_app_state
              (filter (fun r => negb (String.eqb (fst r) key)) (app_state st)) st)))
    db.

(** [AppStateRepository.clear_all] *)
Definition clear_all (db : Database) : Database * Outcome unit :=
  transaction (execute (fun st => inr (with_app_state [] st))) db.

Section Identifiers.
(** [str(uuid)], and [UUID(text)], which raises [ValueError] ([None]) on a
    text that is not a UUID. *)
Variable uuid_str : UUID -> string.
Variable uuid_parse : string -> option UUID.

(** [UUID(value) if value else None] *)
Definition uuid_of_value (value : option string) : Outcome (option UUID) :=
  match value with
  | None => Return None
  | Some text =>
      if String.eqb text EmptyString then Return None
      else match uuid_parse text with
           | Some u => Return (Some u)
           | None => Raise ValueError
           end
  end.

(** [AppStateRepository.get_active_session_id] *)
Definition get_active_session_id (db : Database) : Outcome (option UUID) :=
  uuid_of_value (get "active_session_id" db).

(** [AppStateRepository.set_active_session_id] *)
Definition set_active_session_id (session_id : option UUID) (db : Database)
  : Database * Outcome unit :=
  match session_id with
  | None => delete "active_session_id" db
  | Some u => set "active_session_id" (uuid_str u) db
  end.

(** [AppStateRepository.get_last_template_id] *)
Definition get_last_template_id (db : Database) : Outcome (option UUID) :=
  uuid_of_value (get "last_template_id" db).

(** [AppStateRepository.set_last_template_id] *)
Definition set_last_template_id (template_id : option UUID) (db : Database)
  : Database * Outcome unit :=
  match template_id with
  | None => delete "last_template_id" db
  | Some u => set "last_template_id" (uuid_str u) db
  end.
End Identifiers.

Section TimerSnapshot.
(** The two library functions [get_timer_state] calls: [json.loads], which
    raises [JSONDecodeError] ([None]) on text that is not JSON, and
    [datetime.fromisoformat], which raises [ValueError] ([None]) on a string
    that is not an ISO timestamp. *)
Variable json_loads : string -> option JSON.
Variable fromisoformat : string -> option DateTime.

(** [datetime.fromisoformat(v) if v else None] *)
Definition parse_time (v : JSON) : Outcome (option DateTime) :=
  if truthy v then
    match v with
    | JString s =>
        match fromisoformat s with
        | Some dt => Return (Some dt)
        | None => Raise ValueError
        end
    | _ => Raise TypeError
    end
  else Return None.

(** the body of the [try] block of [get_timer_state] *)
Definition decode_timer_state (value : string) : Outcome (option LoadedTimerState) :=
  match json_loads value with
  | None => Raise JSONDecodeError
  | Some data =>
      outcome_bind (getitem data "is_running") (fun is_running =>
      outcome_bind (getitem data "is_paused") (fun is_paused =>
      outcome_bind (getitem data "start_time") (fun start_time =>
      outcome_bind (parse_time start_time) (fun start_time =>
      outcome_bind (getitem data "pause_time") (fun pause_time =>
      outcome_bind (parse_time pause_time) (fun pause_time =>
      outcome_bind (getitem data "accumulated_seconds") (fun accumulated_seconds =>
      Return (Some (mkLoadedTimerState is_running is_paused start_time
                      pause_time accumulated_seconds)))))))))
  end.

(** [except (json.JSONDecodeError, KeyError)] *)
Definition caught_by_get_timer_state (e : PyExc) : bool :=
  match e with
  | JSONDecodeError => true
  | KeyError _ => true
  | _ => false
  end.

(** [AppStateRepository.get_timer_state] *)
Definition get_timer_state (db : Database) : Outcome (option LoadedTimerState) :=
  match get "timer_state" db with
  | None => Return None
  | Some value =>
      try_except (decode_timer_state value) caught_by_get_timer_state None
  end.
End TimerSnapshot.

Section WriteTimerSnapshot.
(** The two library functions [set_timer_state] calls: [json.dumps] and
    [datetime.isoformat]. *)
Variable json_dumps : JSON -> string.
Variable isoformat : DateTime -> string.

(** [t.isoformat() if t else None]; a [datetime] is never false *)
Definition isoformat_or_none (t : option DateTime) : JSON :=
  match t with
  | Some t => JString (isoformat t)
  | None => JNull
  end.

(** the dict [data] of [set_timer_state] *)
Definition timer_state_data (state : TimerState) : JSON :=
  JObject [ ("is_running"%string, JBool (is_running state));
            ("is_paused"%string, JBool (is_paused state));
            ("start_time"%string, isoformat_or_none (start_time state));
            ("pause_time"%string, isoformat_or_none (pause_time state));
            ("accumulated_seconds"%string, JNumber (accumulated_seconds state)) ].

(** [AppStateRepository.set_timer_state] *)
Definition set_timer_state (state : option TimerState) (db : Database)
  : Database * Outcome unit :=
  match state with
  | None => delete "timer_state" db
  | Some state => set "timer_state" (json_dumps (timer_state_data state)) db
  end.
End WriteTimerSnapshot.

End AppStateRepository.

(** ** migrations.py *)

(** [SELECT 1 FROM sqlite_master WHERE type = ? AND name = ?] finds a row *)
Definition catalogued (type name : string) (st : Store) : bool :=
  existsb (fun e => String.eqb (fst e) type && String.eqb (snd e) name) (sqlite_master st).

(** [CREATE TABLE IF NOT EXISTS name (...)]: nothing to do when the table
    exists; tables and indexes share one name space. *)
Definition create_table_if_not_exists (name : string) (st : Store) : SqlError + Store :=
  if catalogued "table" name st then inr st
  else if catalogued "index" name st
  then inl (OperationalError ("there is already an index named " ++ name))
  else inr (with_sqlite_master (sqlite_master st ++ [("table"%string, name)]) st).

(** [CREATE INDEX IF NOT EXISTS name ON table(...)]: the table must exist;
    nothing to do when the index exists. *)
Definition create_index_if_not_exists (name table : string) (st : Store)
  : SqlError + Store :=
  if negb (catalogued "table" table st)
  then inl (OperationalError ("no such table: main." ++ table))
  else if catalogued "table" name st
  then inl (OperationalError ("there is already a table named " ++ name))
  else if catalogued "index" name st then inr st
  else inr (with_sqlite_master (sqlite_master st ++ [("index"%string, name)]) st).

Definition Migration : Type := Database -> Database * Outcome unit.

(** [migration_001_initial_schema] *)
Definition migration_001_initial_schema : Migration :=
  transaction
    (execute_create (create_table_if_not_exists "workout_templates") ;;
     execute_create (create_table_if_not_exists "template_exercises") ;;
     execute_create (create_table_if_not_exists "workout_sessions") ;;
     execute_create (create_table_if_not_exists "session_exercises") ;;
     execute_create (create_table_if_not_exists "sets") ;;
     execute_create (create_table_if_not_exists "app_state") ;;
     execute_create
       (create_index_if_not_exists "idx_template_exercises_template_id"
          "template_exercises") ;;
     execute_create
       (create_index_if_not_exists "idx_session_exercises_session_id"
          "session_exercises") ;;
     execute_create (create_index_if_not_exists "idx_sets_session_exercise_id" "sets") ;;
     execute_create
       (create_index_if_not_exists "idx_workout_sessions_started_at"
          "workout_sessions"))%tx.

(** What a run reads from outside: the results of [uuid4()], numbered in
    call order within [migration_002_seed_templates], and of
    [datetime.now()]. *)
Record Env := mkEnv {
  uuid4 : nat -> UUID;
  now : DateTime
}.

(** the list [templates] of [migration_002_seed_templates] *)
Definition seed_templates : list (string * list (string * bool)) :=
  ([ ("Push Day",
     [ ("Bench Press", true); ("Overhead Press", true);
       ("Incline Dumbbell Press", true); ("Tricep Pushdowns", true);
       ("Lateral Raises", true) ]);
    ("Pull Day",
     [ ("Deadlift", true); ("Barbell Rows", true); ("Pull-ups", false);
       ("Face Pulls", true); ("Bicep Curls", true) ]);
    ("Leg Day",
     [ ("Squats", true); ("Romanian Deadlifts", true); ("Leg Press", true);
       ("Leg Curls", true); ("Calf Raises", true) ]) ])%string.

(** [INSERT INTO workout_templates (id, name, created_at) VALUES (?, ?, ?)] *)
Definition insert_template (r : TemplateRow.t) (st : Store) : SqlError + Store :=
  match insert_row TemplateRow.id "workout_templates" r (workout_templates st) with
  | inl e => inl e
  | inr rows => inr (with_workout_templates rows st)
  end.

(** [enumerate(l)], counting from [i] *)
Fixpoint enumerate_from {A : Type} (i : nat) (l : list A) : list (nat * A) :=
  match l with
  | [] => []
  | x :: l' => (i, x) :: enumerate_from (S i) l'
  end.

(** [migration_002_seed_templates]: template number [k] takes the call
    [6 * k] of [uuid4()], its exercise number [j] the call [6 * k + 1 + j]. *)
Definition migration_002_seed_templates (env : Env) : Migration :=
  transaction
    (for_each (enumerate_from 0 seed_templates) (fun template_data =>
       let k := fst template_data in
       let template_id := uuid4 env (6 * k)%nat in
       (execute (insert_template
                   (TemplateRow.mk template_id (fst (snd template_data)) (now env))) ;;
        for_each (enumerate_from 0 (snd (snd template_data))) (fun ex =>
          let order_idx := fst ex in
          let exercise_id := uuid4 env (6 * k + 1 + order_idx)%nat in
          execute (TemplateRepository.insert_exercise
                     (TemplateExerciseRow.mk exercise_id template_id (fst (snd ex))
                        (Z.of_nat order_idx) (int_of_bool (snd (snd ex)))))))%tx)).

(** [MIGRATIONS] *)
Definition MIGRATIONS (env : Env) : list (Z * string * Migration) :=
  [ (1, "initial_schema"%string, migration_001_initial_schema);
    (2, "seed_templates"%string, migration_002_seed_templates env) ].

(** [get_current_version] *)
Definition get_current_version (db : Database) : Z :=
  cursor (fun st =>
    match fetchone
            (filter (fun e => String.eqb (fst e) "table" && String.eqb (snd e) "schema_version")
               (sqlite_master st))
    with
    | None => 0
    | Some _ =>
        match fetchone (order_by_desc fst (schema_version st)) with
        | Some row => fst row
        | None => 0
        end
    end) db.

(** [INSERT INTO schema_version (version, applied_at) VALUES (?, ?)];
    [version] is the PRIMARY KEY. *)
Definition insert_schema_version (version : Z) (applied_at : DateTime) (st : Store)
  : SqlError + Store :=
  if existsb (fun row => fst row =? version) (schema_version st)
  then inl (IntegrityError "UNIQUE constraint failed: schema_version.version")
  else inr (with_schema_version (schema_version st ++ [(version, applied_at)]) st).

(** What [apply_migrations] prints. *)
Inductive Printed :=
| Applying (version : Z) (name : string)
| AppliedSuccessfully (version : Z)
| MigrationFailed (version : Z) (e : PyExc).

(** the [except Exception as e: print(...); raise] of [apply_migrations] *)
Definition report_failure (version : Z) (e : PyExc) : list Printed :=
  if is_Exception e then [MigrationFailed version e] else [].

(** the [for version, name, migration_fn in MIGRATIONS] loop of
    [apply_migrations] *)
Fixpoint run_pending (env : Env) (current_version : Z)
  (migrations : list (Z * string * Migration)) (db : Database)
  : Database * list Printed * Outcome unit :=
  match migrations with
  | [] => (db, [], Return tt)
  | (version, name, migration_fn) :: rest =>
      if version >? current_version then
        match migration_fn db with
        | (db1, Raise e) => (db1, Applying version name :: report_failure version e, Raise e)
        | (db1, Return _) =>
            match transaction (execute (insert_schema_version version (now env))) db1 with
            | (db2, Raise e) =>
                (db2, Applying version name :: report_failure version e, Raise e)
            | (db2, Return _) =>
                match run_pending env current_version rest db2 with
                | (db3, printed, r) =>
                    (db3, Applying version name :: AppliedSuccessfully version :: printed, r)
                end
            end
        end
      else run_pending env current_version rest db
  end.

(** [apply_migrations]: the database afterwards, what was printed, and
    whether it returned or raised. *)
Definition apply_migrations (env : Env) (db : Database)
  : Database * list Printed * Outcome unit :=
  match transaction (execute_create (create_table_if_not_exists "schema_version")) db with
  | (db1, Raise e) => (db1, [], Raise e)
  | (db1, Return _) => run_pending env (get_current_version db1) (MIGRATIONS env) db1
  end.

(** * Definitions for the statements of the properties *)

(** The states a timer goes through when it is driven by its own methods
    (no [restore]). *)
Inductive reachable : TimerState -> Prop :=
| reach_init : reachable TimerState_initial
| reach_start : forall now (self : Timer),
    reachable (_state self) -> reachable (_state (start now self))
| reach_pause : forall now (self : Timer),
    reachable (_state self) -> reachable (_state (pause now self))
| reach_resume : forall now (self : Timer),
    reachable (_state self) -> reachable (_state (resume now self))
| reach_stop : forall now (self : Timer),
    reachable (_state self) -> reachable (_state (snd (stop now self))).

(** A connection with no uncommitted work: what every [transaction] scope
    finds when all writes go through [transaction]. *)
Definition clean (db : Database) : Prop := working db = committed db.

(** A step of the body of a scope: an INSERT, UPDATE or DELETE statement
    run on the cursor, or code that raises. *)
Inductive Step :=
| Statement (stmt : Store -> SqlError + Store)
| Raises (e : PyExc).

(** [raise e] *)
Definition tx_raise {A : Type} (e : PyExc) : Tx A := fun db => (db, Raise e).

Definition step (s : Step) : Tx unit :=
  match s with
  | Statement stmt => execute stmt
  | Raises e => tx_raise e
  end.

(** The reference meaning of a sequence of steps: the store after all of
    them, or the store reached when a step raises, with what it raises. *)
Fixpoint run_steps (steps : list Step) (st : Store) : Store * option PyExc :=
  match steps with
  | [] => (st, None)
  | Statement stmt :: rest =>
      match stmt st with
      | inl e => (st, Some (Sqlite3Error e))
      | inr st' => run_steps rest st'
      end
  | Raises e :: _ => (st, Some e)
  end.

(** A file that another program has left at the path of the database: it
    holds a table [notes] with an index named [sets]. *)
Definition foreign_store : Store :=
  with_sqlite_master [("table", "notes"); ("index", "sets")]%string empty_store.

(** A set counts for the history of [exercise_name] when its weight is
    present and the session exercise that owns it has exactly that name. *)
Definition recorded_for (st : Store) (exercise_name : string) (s : SetRow.t) : Prop :=
  In s (sets st)
  /\ SetRow.weight s <> None
  /\ exists se, In se (session_exercises st)
                /\ SessionExerciseRow.id se = SetRow.session_exercise_id s
                /\ SessionExerciseRow.name se = exercise_name.

(** ** Well-formed aggregates

    The data model of the aggregates, which the dataclasses and the
    repositories rely on and do not check: identifiers are globally unique, a
    child refers back to the aggregate that lists it, the children are listed
    in the order of their ordering key ([order_index], and [created_at] for
    sets) without two children sharing a key, and [created_at] and
    [started_at] are assigned once, at construction. *)

(** A template as application code constructs it, against the store it is
    about to be saved to (a new template, or one persisted before). *)
Record template_constructed (st : Store) (t : WorkoutTemplate.t) : Prop := {
  (* the exercises have pairwise distinct ids *)
  tc_ids : NoDup (map TemplateExercise.id (WorkoutTemplate.exercises t));
  (* each was created with [template_id = template.id] *)
  tc_owner : forall e, In e (WorkoutTemplate.exercises t) ->
    TemplateExercise.template_id e = WorkoutTemplate.id t;
  (* they are listed by increasing [order_index] *)
  tc_order :
    StronglySorted
      (fun a b => TemplateExercise.order_index a < TemplateExercise.order_index b)
      (WorkoutTemplate.exercises t);
  (* no other template has stored an exercise under one of their ids *)
  tc_global : forall row, In row (template_exercises st) ->
    In (TemplateExerciseRow.id row) (map TemplateExercise.id (WorkoutTemplate.exercises t)) ->
    TemplateExerciseRow.template_id row = WorkoutTemplate.id t;
  (* if the template is stored already, [created_at] is still the stored one *)
  tc_created_at : forall row, In row (workout_templates st) ->
    TemplateRow.id row = WorkoutTemplate.id t ->
    TemplateRow.created_at row = WorkoutTemplate.created_at t
}.

(** The store [save] commits. *)
Definition saved_template_store (t : WorkoutTemplate.t) (st : Store) : Store :=
  with_template_exercises
    (delete_where
       (fun r => N.eqb (TemplateExerciseRow.template_id r) (WorkoutTemplate.id t))
       (template_exercises st)
     ++ map (TemplateRepository.exercise_params t) (WorkoutTemplate.exercises t))
    (with_workout_templates
       (upsert_row TemplateRow.id
          (TemplateRow.mk (WorkoutTemplate.id t) (WorkoutTemplate.name t)
             (WorkoutTemplate.created_at t))
          (fun old => TemplateRow.mk (TemplateRow.id old) (WorkoutTemplate.name t)
                        (TemplateRow.created_at old))
          (workout_templates st))
       st).

Definition UUID_eq_dec : forall a b : UUID, {a = b} + {a <> b} := N.eq_dec.

(** [l] without its element number [i] *)
Definition drop_nth {A : Type} (i : nat) (l : list A) : list A :=
  firstn i l ++ skipn (S i) l.

Definition template_with_exercises (l : list TemplateExercise.t) (t : WorkoutTemplate.t)
  : WorkoutTemplate.t :=
  WorkoutTemplate.mk (WorkoutTemplate.id t) (WorkoutTemplate.name t)
    (WorkoutTemplate.created_at t) l.

(** How [save_set] may change a row of [sets] that was there before:
    only [reps] and [weight], and only of the row with the id of the set. *)
Definition reps_weight_update (workout_set : Set_.t) (old new : SetRow.t) : Prop :=
  SetRow.id new = SetRow.id old
  /\ SetRow.session_exercise_id new = SetRow.session_exercise_id old
  /\ SetRow.created_at new = SetRow.created_at old
  /\ (SetRow.id old = Set_.id workout_set ->
      SetRow.reps new = Set_.reps workout_set
      /\ SetRow.weight new = Set_.weight workout_set)
  /\ (SetRow.id old <> Set_.id workout_set -> new = old).

(** How [save] may change a row of [workout_sessions] that was there
    before: only the mutable columns, and only of the row with the id of the
    session. *)
Definition mutable_fields_update (session : WorkoutSession.t) (old new : SessionRow.t)
  : Prop :=
  SessionRow.id new = SessionRow.id old
  /\ SessionRow.started_at new = SessionRow.started_at old
  /\ (SessionRow.id old = WorkoutSession.id session ->
      SessionRow.template_id new = WorkoutSession.template_id session
      /\ SessionRow.template_name new = WorkoutSession.template_name session
      /\ SessionRow.ended_at new = WorkoutSession.ended_at session
      /\ SessionRow.duration_seconds new = WorkoutSession.duration_seconds session
      /\ SessionRow.notes new = WorkoutSession.notes session)
  /\ (SessionRow.id old <> WorkoutSession.id session -> new = old).

(** [m] relates the store the connection sees when it starts to the store
    the connection sees when it is done by [R]. *)
Definition tx_respects (R : Store -> Store -> Prop) {A : Type} (m : Tx A) : Prop :=
  forall db db' r, m db = (db', r) -> R (working db) (working db').

(** [m] writes to the store the connection sees only: it leaves the file
    as it is and calls neither [commit] nor [rollback]. *)
Definition keeps_file {A : Type} (m : Tx A) : Prop :=
  forall db db' r, m db = (db', r) ->
    committed db' = committed db /\ commits db' = commits db
    /\ rollbacks db' = rollbacks db.

(** Outside a transaction the connection sees what the file holds. *)
Definition coherent (db : Database) : Prop :=
  in_transaction db = false -> working db = committed db.

(** [m] relates what the file holds when it starts to what the file holds
    when it is done by [R]. *)
Definition tx_respects_file (R : Store -> Store -> Prop) {A : Type} (m : Tx A) : Prop :=
  forall db db' r, m db = (db', r) -> coherent db ->
    coherent db' /\ R (committed db) (committed db').

(** The ledger table exists, as [CREATE TABLE IF NOT EXISTS] looks for it. *)
Definition has_ledger (st : Store) : Prop :=
  catalogued "table" "schema_version" st = true.

(** What a migration body leaves alone: the rows of the ledger, and the
    ledger table once it exists. *)
Definition keeps_ledger (st st' : Store) : Prop :=
  schema_version st' = schema_version st /\ (has_ledger st -> has_ledger st').

(** ** Saving a whole session

    [SessionRepository.save] writes the parent row only; the callers save
    every child with a call of its own, parent before child.  This is that
    sequence of calls, stopping at the first one that raises. *)
Fixpoint save_each {A : Type} (save_one : A -> Database -> Database * Outcome unit)
  (l : list A) (db : Database) : Database * Outcome unit :=
  match l with
  | [] => (db, Return tt)
  | x :: l' =>
      match save_one x db with
      | (db', Return _) => save_each save_one l' db'
      | (db', Raise e) => (db', Raise e)
      end
  end.

Definition save_exercise_and_sets (exercise : SessionExercise.t) (db : Database)
  : Database * Outcome unit :=
  match SessionRepository.save_exercise exercise db with
  | (db', Return _) =>
      save_each SessionRepository.save_set (SessionExercise.sets exercise) db'
  | (db', Raise e) => (db', Raise e)
  end.

Definition save_session_aggregate (session : WorkoutSession.t) (db : Database)
  : Database * Outcome unit :=
  match SessionRepository.save session db with
  | (db', Return _) =>
      save_each save_exercise_and_sets (WorkoutSession.exercises session) db'
  | (db', Raise e) => (db', Raise e)
  end.

(** every set of a session, exercise by exercise *)
Definition all_sets (s : WorkoutSession.t) : list Set_.t :=
  flat_map SessionExercise.sets (WorkoutSession.exercises s).

(** A session as application code constructs it, against the store it is
    about to be saved to (a new session, or one persisted before). *)
Record session_constructed (st : Store) (s : WorkoutSession.t) : Prop := {
  (* the template it refers to, if any, is in the store (FOREIGN KEY) *)
  sc_template : SessionRepository.template_fk_ok (WorkoutSession.template_id s) st = true;
  (* if the session is stored already, [started_at] is still the stored one *)
  sc_started_at : forall row, In row (workout_sessions st) ->
    SessionRow.id row = WorkoutSession.id s ->
    SessionRow.started_at row = WorkoutSession.started_at s;
  (* [session_exercises.id] is a PRIMARY KEY *)
  sc_exercise_pk : NoDup (map SessionExerciseRow.id (session_exercises st));
  (* the exercises have pairwise distinct ids *)
  sc_exercise_ids : NoDup (map SessionExercise.id (WorkoutSession.exercises s));
  (* each was created with [session_id = session.id] *)
  sc_exercise_owner : forall e, In e (WorkoutSession.exercises s) ->
    SessionExercise.session_id e = WorkoutSession.id s;
  (* they are listed by increasing [order_index] *)
  sc_exercise_order :
    StronglySorted
      (fun a b => SessionExercise.order_index a < SessionExercise.order_index b)
      (WorkoutSession.exercises s);
  (* no other session has stored an exercise under one of their ids *)
  sc_exercise_global : forall row, In row (session_exercises st) ->
    In (SessionExerciseRow.id row) (map SessionExercise.id (WorkoutSession.exercises s)) ->
    SessionExerciseRow.session_id row = WorkoutSession.id s;
  (* every exercise stored for this session is in the list *)
  sc_exercise_all : forall row, In row (session_exercises st) ->
    SessionExerciseRow.session_id row = WorkoutSession.id s ->
    In (SessionExerciseRow.id row) (map SessionExercise.id (WorkoutSession.exercises s));
  (* [sets.id] is a PRIMARY KEY *)
  sc_set_pk : NoDup (map SetRow.id (sets st));
  (* the sets of the session have pairwise distinct ids *)
  sc_set_ids : NoDup (map Set_.id (all_sets s));
  (* each was created with [session_exercise_id = exercise.id] *)
  sc_set_owner : forall e w, In e (WorkoutSession.exercises s) ->
    In w (SessionExercise.sets e) ->
    Set_.session_exercise_id w = SessionExercise.id e;
  (* the sets of an exercise are listed by increasing [created_at] *)
  sc_set_order : forall e, In e (WorkoutSession.exercises s) ->
    StronglySorted (fun a b => Set_.created_at a < Set_.created_at b)
      (SessionExercise.sets e);
  (* a set that is stored already has kept its owner and its [created_at] *)
  sc_set_global : forall row w, In row (sets st) -> In w (all_sets s) ->
    SetRow.id row = Set_.id w ->
    SetRow.session_exercise_id row = Set_.session_exercise_id w
    /\ SetRow.created_at row = Set_.created_at w;
  (* every set stored for one of the exercises is in its list *)
  sc_set_all : forall row e, In row (sets st) -> In e (WorkoutSession.exercises s) ->
    SetRow.session_exercise_id row = SessionExercise.id e ->
    In (SetRow.id row) (map Set_.id (SessionExercise.sets e))
}.

(** A run of upserts, one row after the other. *)
Definition upsert_all {Row : Type} (pk : Row -> UUID) (upd : Row -> Row -> Row)
  (rs : list Row) (t : list Row) : list Row :=
  fold_left (fun t r => upsert_row pk r (upd r) t) rs t.

Definition sets_after (ws : list Set_.t) (t : list SetRow.t) : list SetRow.t :=
  upsert_all SetRow.id SessionRepository.update_set
    (map SessionRepository.set_params ws) t.

Definition exercises_after (exs : list SessionExercise.t) (t : list SessionExerciseRow.t)
  : list SessionExerciseRow.t :=
  upsert_all SessionExerciseRow.id SessionRepository.update_exercise
    (map SessionRepository.exercise_params exs) t.

(** The store after the whole sequence of saves. *)
Definition saved_session_store (s : WorkoutSession.t) (st : Store) : Store :=
  with_sets (sets_after (all_sets s) (sets st))
    (with_session_exercises
       (exercises_after (WorkoutSession.exercises s) (session_exercises st))
       (with_workout_sessions
          (upsert_row SessionRow.id (SessionRepository.session_params s)
             (SessionRepository.update_session (SessionRepository.session_params s))
             (workout_sessions st))
          st)).


(** ** Runs of the timer *)

(** The calls that drive a timer. *)
Inductive Call := CallStart | CallPause | CallResume | CallStop.

(** One call of a method of the timer, made when the clock reads [fst c]. *)
Definition call (c : DateTime * Call) (self : Timer) : Timer :=
  match snd c with
  | CallStart => start (fst c) self
  | CallPause => pause (fst c) self
  | CallResume => resume (fst c) self
  | CallStop => snd (stop (fst c) self)
  end.

(** A run of calls, the first of the list first. *)
Definition run (calls : list (DateTime * Call)) (self : Timer) : Timer :=
  fold_left (fun self c => call c self) calls self.

(** The edges of the state machine: every other call leaves the phase. *)
Definition next_phase (p : Phase) (c : Call) : Phase :=
  match c, p with
  | CallStart, Stopped => Running
  | CallPause, Running => Paused
  | CallResume, Paused => Running
  | CallStop, _ => Stopped
  | _, _ => p
  end.

(** What the fields of a state hold in each phase. *)
Definition well_formed (s : TimerState) : Prop :=
  match phase s with
  | Stopped => s = TimerState_initial
  | Running =>
      is_paused s = false /\ (exists st, start_time s = Some st) /\ pause_time s = None
  | Paused =>
      is_running s = true /\ (exists st, start_time s = Some st)
      /\ (exists pt, pause_time s = Some pt)
  end.

(** [pause()] at [fst c] and [resume()] at [snd c], for every [c] of
    [cycles] in turn. *)
Fixpoint pause_resume (cycles : list (DateTime * DateTime)) (self : Timer) : Timer :=
  match cycles with
  | [] => self
  | c :: rest => pause_resume rest (resume (snd c) (pause (fst c) self))
  end.

(** The lengths, in microseconds, of the segments in which a timer runs
    when its current segment began at [segment_start], it then goes through
    [cycles], and it is read at [now]. *)
Fixpoint segments (segment_start : DateTime) (cycles : list (DateTime * DateTime))
  (now : DateTime) : list Z :=
  match cycles with
  | [] => [now - segment_start]
  | c :: rest => (fst c - segment_start) :: segments (snd c) rest now
  end.

(** what the monotone clock guarantees of a state: nothing is banked below
    zero, and a running segment began no later than the latest reading *)
Definition clock_bounded (t : DateTime) (s : TimerState) : Prop :=
  (0 <= accumulated_seconds s)%Q
  /\ forall st, phase s = Running -> start_time s = Some st -> st <= t.

(** ** Texts of durations *)

(** the character [:] does not occur in [s] *)
Fixpoint no_colon (s : string) : Prop :=
  match s with
  | EmptyString => True
  | String c s' => c <> ":"%char /\ no_colon s'
  end.

(** ** The constraints of the schema

    What [migration_001_initial_schema] declares of the rows: the PRIMARY KEY
    of every table and the four FOREIGN KEYs. *)
Record store_ok (st : Store) : Prop := {
  ok_templates : NoDup (map TemplateRow.id (workout_templates st));
  ok_template_exercises : NoDup (map TemplateExerciseRow.id (template_exercises st));
  ok_sessions : NoDup (map SessionRow.id (workout_sessions st));
  ok_session_exercises : NoDup (map SessionExerciseRow.id (session_exercises st));
  ok_sets : NoDup (map SetRow.id (sets st));
  ok_app_state : NoDup (map fst (app_state st));
  ok_ledger : NoDup (map fst (schema_version st));
  ok_template_of_exercise : forall r, In r (template_exercises st) ->
    pk_exists TemplateRow.id (TemplateExerciseRow.template_id r) (workout_templates st) = true;
  ok_template_of_session : forall r, In r (workout_sessions st) ->
    SessionRepository.template_fk_ok (SessionRow.template_id r) st = true;
  ok_session_of_exercise : forall r, In r (session_exercises st) ->
    pk_exists SessionRow.id (SessionExerciseRow.session_id r) (workout_sessions st) = true;
  ok_exercise_of_set : forall r, In r (sets st) ->
    pk_exists SessionExerciseRow.id (SetRow.session_exercise_id r) (session_exercises st) = true
}.

(** The calls that write to the database: [Database.initialize] and the
    writing methods of the three repositories. *)
Inductive Write :=
| Initialize (env : Env)
| TemplateSave (template : WorkoutTemplate.t)
| TemplateDelete (template_id : UUID)
| TemplateDuplicate (uuid4 : nat -> UUID) (now : DateTime) (template_id : UUID)
    (new_name : string)
| SessionSave (session : WorkoutSession.t)
| SessionSaveExercise (exercise : SessionExercise.t)
| SessionDeleteExercise (exercise_id : UUID)
| SessionSaveSet (workout_set : Set_.t)
| SessionDeleteSet (set_id : UUID)
| SessionEnd (now : DateTime) (session_id : UUID) (duration_seconds : Z)
| SessionDelete (session_id : UUID)
| StateSet (key value : string)
| StateDelete (key : string)
| StateClearAll.

(** The database after a call, whether it returned or raised. *)
Definition perform (db : Database) (w : Write) : Database :=
  match w with
  | Initialize env => fst (fst (apply_migrations env db))
  | TemplateSave template => fst (TemplateRepository.save template db)
  | TemplateDelete template_id => fst (TemplateRepository.delete template_id db)
  | TemplateDuplicate uuid4 now template_id new_name =>
      fst (TemplateRepository.duplicate uuid4 now template_id new_name db)
  | SessionSave session => fst (SessionRepository.save session db)
  | SessionSaveExercise exercise => fst (SessionRepository.save_exercise exercise db)
  | SessionDeleteExercise exercise_id => fst (SessionRepository.delete_exercise exercise_id db)
  | SessionSaveSet workout_set => fst (SessionRepository.save_set workout_set db)
  | SessionDeleteSet set_id => fst (SessionRepository.delete_set set_id db)
  | SessionEnd now session_id duration_seconds =>
      fst (SessionRepository.end_session now session_id duration_seconds db)
  | SessionDelete session_id => fst (SessionRepository.delete session_id db)
  | StateSet key value => fst (AppStateRepository.set key value db)
  | StateDelete key => fst (AppStateRepository.delete key db)
  | StateClearAll => fst (AppStateRepository.clear_all db)
  end.

(** [m] keeps the constraints of the schema, in what the connection sees
    and in what the file holds, and what it raises is an [Exception]. *)
Definition tx_keeps {A : Type} (m : Tx A) : Prop :=
  forall db db' r, m db = (db', r) ->
    (store_ok (working db) -> store_ok (committed db) ->
     store_ok (working db') /\ store_ok (committed db'))
    /\ match r with Raise e => is_Exception e = true | Return _ => True end.

(** a call leaves the connection clean and the constraints in force *)
Definition db_keeps {A : Type} (f : Database -> Database * A) : Prop :=
  forall db, clean db -> store_ok (working db) ->
    clean (fst (f db)) /\ store_ok (working (fst (f db))).

(** ** What the deleting and ending calls leave of a session *)

(** [e] without the sets whose id is [set_id] *)
Definition exercise_without_set (set_id : UUID) (e : SessionExercise.t) : SessionExercise.t :=
  SessionExercise.mk (SessionExercise.id e) (SessionExercise.session_id e)
    (SessionExercise.name e) (SessionExercise.order_index e) (SessionExercise.uses_weight e)
    (filter (fun w => negb (N.eqb (Set_.id w) set_id)) (SessionExercise.sets e)).

(** [s] without the sets whose id is [set_id] *)
Definition without_set (set_id : UUID) (s : WorkoutSession.t) : WorkoutSession.t :=
  SessionRepository.with_exercises
    (map (exercise_without_set set_id) (WorkoutSession.exercises s)) s.

(** [s] without the exercises whose id is [exercise_id] *)
Definition without_exercise (exercise_id : UUID) (s : WorkoutSession.t) : WorkoutSession.t :=
  SessionRepository.with_exercises
    (filter (fun e => negb (N.eqb (SessionExercise.id e) exercise_id))
       (WorkoutSession.exercises s)) s.

(** [s], ended at [now] after [duration_seconds] *)
Definition ended (now : DateTime) (duration_seconds : Z) (s : WorkoutSession.t)
  : WorkoutSession.t :=
  WorkoutSession.mk (WorkoutSession.id s) (WorkoutSession.template_id s)
    (WorkoutSession.template_name s) (WorkoutSession.started_at s)
    (Some now) (Some duration_seconds) (WorkoutSession.notes s)
    (WorkoutSession.exercises s).

(** [s] with its reference to the template [template_id], if it has one,
    cleared; the name of the template stays *)
Definition without_template (template_id : UUID) (s : WorkoutSession.t) : WorkoutSession.t :=
  WorkoutSession.mk (WorkoutSession.id s)
    match WorkoutSession.template_id s with
    | Some t => if N.eqb t template_id then None else Some t
    | None => None
    end
    (WorkoutSession.template_name s) (WorkoutSession.started_at s)
    (WorkoutSession.ended_at s) (WorkoutSession.duration_seconds s)
    (WorkoutSession.notes s) (WorkoutSession.exercises s).

(** the session [get_by_id], [get_all] and [get_active] build from a row *)
Definition loaded_session (st : Store) (row : SessionRow.t) : WorkoutSession.t :=
  let session := SessionRepository._row_to_session row in
  SessionRepository.with_exercises
    (SessionRepository._load_exercises st (WorkoutSession.id session)) session.

(** ** Loaded templates *)

(** the template [get_by_id] and [get_all] build from a row *)
Definition loaded_template (st : Store) (row : TemplateRow.t) : WorkoutTemplate.t :=
  WorkoutTemplate.mk (TemplateRow.id row) (TemplateRow.name row) (TemplateRow.created_at row)
    (map TemplateRepository.exercise_of_row
       (TemplateRepository.select_exercises (TemplateRow.id row) st)).

(** ** Copies of templates *)

(** What a copy of a template exercise shares with the exercise it was
    made from. *)
Definition copy_of (new_template_id : UUID) (original copy : TemplateExercise.t) : Prop :=
  TemplateExercise.template_id copy = new_template_id
  /\ TemplateExercise.name copy = TemplateExercise.name original
  /\ TemplateExercise.order_index copy = TemplateExercise.order_index original
  /\ TemplateExercise.uses_weight copy = TemplateExercise.uses_weight original.

(** ** Re-saved exercises *)

(** How [save_exercise] may change a row of [session_exercises] that was
    there before: only [name], [order_index] and [uses_weight], and only of
    the row with the id of the exercise. *)
Definition name_order_update (exercise : SessionExercise.t)
  (old new : SessionExerciseRow.t) : Prop :=
  SessionExerciseRow.id new = SessionExerciseRow.id old
  /\ SessionExerciseRow.session_id new = SessionExerciseRow.session_id old
  /\ (SessionExerciseRow.id old = SessionExercise.id exercise ->
      SessionExerciseRow.name new = SessionExercise.name exercise
      /\ SessionExerciseRow.order_index new = SessionExercise.order_index exercise
      /\ SessionExerciseRow.uses_weight new
         = int_of_bool (SessionExercise.uses_weight exercise))
  /\ (SessionExerciseRow.id old <> SessionExercise.id exercise -> new = old).

(** ** The data tables and the report of a run of migrations *)

(** The rows of the six data tables. *)
Definition user_data (st : Store) :=
  (workout_templates st, template_exercises st, workout_sessions st,
   session_exercises st, sets st, app_state st).

(** The versions a run reports as applied, in the order of the report. *)
Definition applied (printed : list Printed) : list Z :=
  flat_map (fun p => match p with AppliedSuccessfully version => [version] | _ => [] end)
    printed.

(** what [m] raises is an error of [sqlite3] *)
Definition sql_only {A : Type} (m : Tx A) : Prop :=
  forall db db' e, m db = (db', Raise e) -> exists err, e = Sqlite3Error err.

(** [st'] has the rows of [st] in the data tables *)
Definition same_data (st st' : Store) : Prop := user_data st' = user_data st.

(** ** The seeded database *)

(** The template number [k] of [seed_templates] as [migration_002_seed_templates]
    stores it. *)
Definition seeded_template (env : Env) (k : nat) (template_data : string * list (string * bool))
  : WorkoutTemplate.t :=
  WorkoutTemplate.mk (uuid4 env (6 * k)%nat) (fst template_data) (now env)
    (map (fun ex =>
            TemplateExercise.mk (uuid4 env (6 * k + 1 + fst ex)%nat) (uuid4 env (6 * k)%nat)
              (fst (snd ex)) (Z.of_nat (fst ex)) (snd (snd ex)))
       (enumerate_from 0 (snd template_data))).

(** the rows of the seeded templates *)
Definition seeded_rows (env : Env) : list TemplateRow.t :=
  map (fun template_data =>
         TemplateRow.mk (uuid4 env (6 * fst template_data)%nat) (fst (snd template_data))
           (now env))
    (enumerate_from 0 seed_templates).

(** the rows of their exercises *)
Definition seeded_exercise_rows (env : Env) : list TemplateExerciseRow.t :=
  flat_map
    (fun template_data =>
       map (fun ex =>
              TemplateExerciseRow.mk
                (uuid4 env (6 * fst template_data + 1 + fst ex)%nat)
                (uuid4 env (6 * fst template_data)%nat)
                (fst (snd ex)) (Z.of_nat (fst ex)) (int_of_bool (snd (snd ex))))
         (enumerate_from 0 (snd (snd template_data))))
    (enumerate_from 0 seed_templates).

(** the tables and indexes of a database that [Database.initialize] has
    created *)
Definition initial_catalogue : list (string * string) :=
  ([ ("table", "schema_version"); ("table", "workout_templates");
     ("table", "template_exercises"); ("table", "workout_sessions");
     ("table", "session_exercises"); ("table", "sets"); ("table", "app_state");
     ("index", "idx_template_exercises_template_id");
     ("index", "idx_session_exercises_session_id");
     ("index", "idx_sets_session_exercise_id");
     ("index", "idx_workout_sessions_started_at") ])%string.

(** the store of a new database after [Database.initialize] *)
Definition seeded_store (env : Env) : Store :=
  mkStore initial_catalogue [(1, now env); (2, now env)]
    (seeded_rows env) (seeded_exercise_rows env) [] [] [] [].

(** ** Totals *)

(** the weight and the reps of the sets of [s] that have a weight, in the
    order of the session *)
Definition weighted_sets (s : WorkoutSession.t) : list (Q * Z) :=
  flat_map (fun w => match Set_.weight w with
                     | Some weight => [(weight, Set_.reps w)]
                     | None => []
                     end)
    (all_sets s).

(** ** Sample data

    The aggregates of the repository's own tests, with small numbers for the
    ids and timestamps. *)

Definition sample_env : Env := mkEnv (fun n => N.of_nat (100 + n)) 1000.

(** the database of the test fixtures: a new file after [Database.initialize] *)
Definition initialized_db : Database :=
  fst (fst (apply_migrations sample_env (connect empty_store))).

Definition sample_template_row : TemplateRow.t := TemplateRow.mk 7 "Push Day" 0.

Definition full_body : WorkoutTemplate.t :=
  WorkoutTemplate.mk 2 "Full Body" 5000
    [ TemplateExercise.mk 10 2 "Squats" 0 true;
      TemplateExercise.mk 11 2 "Bench Press" 1 true;
      TemplateExercise.mk 12 2 "Pull-ups" 2 false ].

Definition bench_sets : list Set_.t :=
  [ Set_.mk 30 20 10 (Some (135 # 1)) 7000;
    Set_.mk 31 20 8 (Some (145 # 1)) 7100 ].

Definition bench_session : WorkoutSession.t :=
  WorkoutSession.mk 3 None None 6000 None None None
    [ SessionExercise.mk 20 3 "Bench Press" 0 true bench_sets ].

(** the database after the template and the session have been saved *)
Definition sample_db : Database :=
  fst (save_session_aggregate bench_session
         (fst (TemplateRepository.save full_body initialized_db))).

(** a paused timer with 30 seconds banked *)
Definition paused_timer : Timer :=
  mkTimer (mkTimerState true true (Some 0) (Some 30000000) (30 # 1)) [].

(** a running timer with nothing banked, started at time 0 *)
Definition running_timer : Timer :=
  mkTimer (mkTimerState true false (Some 0) None (0 # 1)) [].

(** [s] between double quotes *)
Definition quoted (s : string) : string :=
  String (Ascii.ascii_of_nat 34) (s ++ String (Ascii.ascii_of_nat 34) EmptyString).

(** a snapshot whose [start_time] is not a timestamp *)
Definition bad_snapshot : string :=
  ("{" ++ quoted "is_running" ++ ": true, " ++ quoted "is_paused" ++ ": false, "
   ++ quoted "start_time" ++ ": " ++ quoted "yesterday" ++ ", "
   ++ quoted "pause_time" ++ ": null, " ++ quoted "accumulated_seconds" ++ ": 0.0}")%string.

(** [json.loads] and [datetime.fromisoformat], as far as the sample
    snapshots need them: the texts [null] and [bad_snapshot], and the string
    [yesterday], which is not an ISO timestamp. *)
Definition sample_json_loads (text : string) : option JSON :=
  if String.eqb text "null" then Some JNull
  else if String.eqb text bad_snapshot then
    Some (JObject [ ("is_running"%string, JBool true);
                    ("is_paused"%string, JBool false);
                    ("start_time"%string, JString "yesterday");
                    ("pause_time"%string, JNull);
                    ("accumulated_seconds"%string, JNumber (0 # 1)) ])
  else None.

Definition sample_fromisoformat (text : string) : option DateTime :=
  if String.eqb text "yesterday" then None else Some 0.

(** the session of [test_get_last_weight_for_exercise] *)
Definition squat_session : WorkoutSession.t :=
  WorkoutSession.mk 4 None None 6500 None None None
    [ SessionExercise.mk 21 4 "Squats" 0 true
        [ Set_.mk 40 21 5 (Some (135 # 1)) 7200;
          Set_.mk 41 21 5 (Some (155 # 1)) 7300;
          Set_.mk 42 21 5 (Some (175 # 1)) 7400 ] ].

(** [full_body] with its first two exercises listed the other way round *)
Definition shuffled_full_body : WorkoutTemplate.t :=
  WorkoutTemplate.mk 2 "Full Body" 5000
    [ TemplateExercise.mk 11 2 "Bench Press" 1 true;
      TemplateExercise.mk 10 2 "Squats" 0 true;
      TemplateExercise.mk 12 2 "Pull-ups" 2 false ].

(** a run in which [uuid4()] returns the same id every time *)
Definition colliding_env : Env := mkEnv (fun _ => 7%N) 1000.

(** the ids that new aggregates draw in the samples *)
Definition sample_uuid4 (n : nat) : UUID := (1000 + N.of_nat n)%N.

(** [sample_db] with a session started from [full_body] *)
Definition started_db : Database :=
  fst (SessionRepository.save
         (WorkoutSession.create 5 8000 (Some 2%N) (Some "Full Body"%string)) sample_db).

(** stand-ins for [str(uuid)] and [UUID(text)]: the decimal digits of the
    id, read back for the id 42 *)
Definition sample_uuid_str (u : UUID) : string := format_d (Z.of_N u).

Definition sample_uuid_parse (text : string) : option UUID :=
  if String.eqb text "42" then Some 42%N else None.

(** a running timer state, and stand-ins for [datetime.isoformat],
    [datetime.fromisoformat], [json.dumps] and [json.loads] on its
    snapshot: the decimal digits of the microseconds, and one fixed text *)
Definition sample_state : TimerState := mkTimerState true false (Some 1234) None (241 # 2).

Definition sample_isoformat (t : DateTime) : string := format_d t.

Definition sample_parse_isoformat (text : string) : option DateTime :=
  option_map Z.of_int (NilZero.int_of_string text).

Definition sample_json_dumps (data : JSON) : string := "snapshot".

Definition sample_snapshot_loads (text : string) : option JSON :=
  if String.eqb text "snapshot"
  then Some (AppStateRepository.timer_state_data sample_isoformat sample_state)
  else None.

(** a template that lists an exercise id of [full_body] *)
Definition clashing_template : WorkoutTemplate.t :=
  WorkoutTemplate.mk 50 "Legs" 9000 [ TemplateExercise.mk 10 50 "Squats" 0 true ].

(** * Properties of the timer *)

Lemma running_has_start_time (s : TimerState) :
  reachable s -> is_running s = true -> exists st, start_time s = Some st.
Proof.
  intros R.
  induction R as [ | now self R IH | now self R IH | now self R IH | now self R IH ];
    cbn in *; try discriminate.
  - unfold start. cbn. destruct (is_running (timer_state self)) eqn:E; cbn.
    + rewrite E. exact IH.
    + intros _. eexists. reflexivity.
  - unfold pause. cbn.
    destruct (is_running (timer_state self)) eqn:E; cbn.
    + destruct (is_paused (timer_state self)) eqn:P; cbn.
      * rewrite E. exact IH.
      * intros _. apply IH. reflexivity.
    + rewrite E. discriminate.
  - unfold resume. cbn. destruct (is_paused (timer_state self)) eqn:P; cbn.
    + intros _. eexists. reflexivity.
    + exact IH.
Qed.



Ltac run_timer :=
  cbv [start pause resume stop elapsed_seconds _notify_state_change
       timer_is_stopped set_mock_time
       _state set_state notified set_notified _calculate_elapsed
       Timer_TimerLike MockTimer_TimerLike Timer_calculate_elapsed
       MockTimer_calculate_elapsed timer_state timer_notified mock_base _mock_now
       is_running is_paused start_time accumulated_seconds negb orb fst snd] in *.

(** C1.  Timer additivity on a virtual clock.  From a stopped timer:
    [start()] at time [t0], then [pause()] 30 seconds later gives
    [elapsed_seconds = 30]; [resume()] and 30 more seconds give
    [elapsed_seconds = 60], and [stop()] at that point returns 60 and leaves
    the initial state.  Stated for [Timer], whose clock is the explicit
    [datetime.now()], and for [MockTimer] driven the way test_timer.py drives
    it: the mock time is set 30 seconds past the [start_time] of the running
    segment, whatever the wall clock reads at [pause], [resume] and
    afterwards. *)
Theorem timer_additivity (t0 : DateTime) (timer : Timer) (mock : MockTimer)
  (at_pause at_resume afterwards : DateTime) :
  timer_is_stopped timer = true ->
  timer_is_stopped mock = true ->
  (let paused := pause (t0 + seconds 30) (start t0 timer) in
   let resumed := resume (t0 + seconds 30) paused in
   elapsed_seconds (t0 + seconds 30) paused = 30
   /\ elapsed_seconds (t0 + seconds 60) resumed = 60
   /\ fst (stop (t0 + seconds 60) resumed) = 60
   /\ _state (snd (stop (t0 + seconds 60) resumed)) = TimerState_initial)
  /\
  (let started := start t0 mock in
   let paused := pause at_pause (set_mock_time (t0 + seconds 30) started) in
   let resumed := resume at_resume paused in
   let later := set_mock_time (at_resume + seconds 30) resumed in
   start_time (_state started) = Some t0
   /\ elapsed_seconds afterwards paused = 30
   /\ start_time (_state resumed) = Some at_resume
   /\ elapsed_seconds afterwards later = 60
   /\ fst (stop afterwards later) = 60
   /\ _state (snd (stop afterwards later)) = TimerState_initial).
Proof.
  intros S1 S2.
  assert (A : t0 + seconds 30 - t0 = 30000000) by (unfold seconds, MICROSECOND; lia).
  assert (B : t0 + seconds 60 - (t0 + seconds 30) = 30000000)
    by (unfold seconds, MICROSECOND; lia).
  assert (D : at_resume + seconds 30 - at_resume = 30000000)
    by (unfold seconds, MICROSECOND; lia).
  destruct timer as [[r p st pt acc] log]. destruct mock as [[[r' p' st' pt' acc'] log'] m].
  run_timer. destruct r; [ discriminate | ]. destruct r'; [ discriminate | ].
  cbv [negb orb is_running is_paused start_time accumulated_seconds].
  rewrite A, B, D. repeat split.
Qed.

Lemma timer_additivity_witness :
  elapsed_seconds (seconds 30) (pause (seconds 30) (start 0 Timer_init)) = 30
  /\ elapsed_seconds (seconds 60)
       (resume (seconds 30) (pause (seconds 30) (start 0 Timer_init))) = 60
  /\ fst (stop (seconds 60)
            (resume (seconds 30) (pause (seconds 30) (start 0 Timer_init)))) = 60
  /\ _state (snd (stop (seconds 60)
                    (resume (seconds 30) (pause (seconds 30) (start 0 Timer_init)))))
     = TimerState_initial.
Proof.
  exact (proj1 (timer_additivity 0 Timer_init MockTimer_init 0 0 0 eq_refl eq_refl)).
Defined.

(** [MockTimer] replaces the clock of [_calculate_elapsed] only: [start] and
    [resume] still stamp [datetime.now()].  A mock time that is advanced from
    the time of [start] rather than from the [start_time] of the running
    segment counts the first 30 seconds again when the wall clock has not
    moved in between. *)
Remark mock_time_does_not_drive_resume (t0 : DateTime) :
  let started := start t0 MockTimer_init in
  let paused := pause t0 (set_mock_time (t0 + seconds 30) started) in
  let resumed := resume t0 paused in
  elapsed_seconds t0 paused = 30
  /\ elapsed_seconds t0 (set_mock_time (t0 + seconds 60) resumed) = 90.
Proof.
  assert (A : t0 + seconds 30 - t0 = 30000000) by (unfold seconds, MICROSECOND; lia).
  assert (B : t0 + seconds 60 - t0 = 60000000) by (unfold seconds, MICROSECOND; lia).
  run_timer. cbv [MockTimer_init Timer_init TimerState_initial].
  cbv [negb orb is_running is_paused start_time accumulated_seconds _mock_now mock_base
       timer_state].
  rewrite A, B. repeat split.
Qed.

(** * Transactions *)

Lemma connect_clean (st : Store) : clean (connect st).
Proof. reflexivity. Qed.

Lemma transaction_return {A : Type} (body : Tx A) (db db1 : Database) (a : A) :
  body db = (db1, Return a) ->
  transaction body db
  = (mkDatabase (working db1) (working db1) (S (commits db1)) (rollbacks db1), Return a).
Proof. intros E. unfold transaction. rewrite E. reflexivity. Qed.

Lemma transaction_raise {A : Type} (body : Tx A) (db db1 : Database) (e : PyExc) :
  body db = (db1, Raise e) ->
  is_Exception e = true ->
  transaction body db
  = (mkDatabase (committed db1) (committed db1) (commits db1) (S (rollbacks db1)), Raise e).
Proof. intros E X. unfold transaction. rewrite E, X. reflexivity. Qed.

(** A single statement in its own transaction. *)
Lemma transaction_execute (stmt : Store -> SqlError + Store) (db : Database) :
  transaction (execute stmt) db
  = match stmt (working db) with
    | inr st => (mkDatabase st st (S (commits db)) (rollbacks db), Return tt)
    | inl e => (mkDatabase (committed db) (committed db) (commits db) (S (rollbacks db)),
                Raise (Sqlite3Error e))
    end.
Proof.
  unfold transaction, execute. destruct (stmt (working db)); reflexivity.
Qed.

(** A statement that binds an integer, in its own transaction. *)
Lemma transaction_execute_binding (n : Z) (stmt : Store -> SqlError + Store)
  (db : Database) :
  transaction (execute_binding n stmt) db
  = if fits_sqlite_integer n
    then transaction (execute stmt) db
    else (mkDatabase (committed db) (committed db) (commits db) (S (rollbacks db)),
          Raise OverflowError).
Proof.
  unfold transaction, execute_binding. destruct (fits_sqlite_integer n); reflexivity.
Qed.

(** Statements in a transaction that is open already. *)
Lemma execute_in_transaction (stmt : Store -> SqlError + Store) (db : Database) :
  in_transaction db = true ->
  execute stmt db
  = match stmt (working db) with
    | inr st => (with_working st db, Return tt)
    | inl e => (db, Raise (Sqlite3Error e))
    end.
Proof.
  intros T. destruct db as [c w t n r]. cbn in T. subst t. unfold execute, begin, with_working.
  cbn. destruct (stmt w); reflexivity.
Qed.

(** Steps write to the store the connection sees: the file and the counters
    stay as they are. *)
Lemma for_each_step (steps : list Step) (db : Database) :
  exists t,
    for_each steps step db
    = (mkConnection (committed db) (fst (run_steps steps (working db))) t
         (commits db) (rollbacks db),
       match snd (run_steps steps (working db)) with
       | Some e => Raise e
       | None => Return tt
       end).
Proof.
  revert db. induction steps as [ | [stmt | e] rest IH ]; intros [c w t n r]; cbn.
  - exists t. reflexivity.
  - unfold tx_bind, execute, begin, with_working. cbn.
    destruct (stmt w) as [err | st1]; cbn.
    + exists true. reflexivity.
    + apply (IH (mkConnection c st1 true n r)).
  - exists t. reflexivity.
Qed.

Lemma execute_keeps_file (stmt : Store -> SqlError + Store) : keeps_file (execute stmt).
Proof.
  intros db db' r. unfold execute. destruct (stmt (working db)); intros [= <- <-];
    repeat split.
Qed.

Lemma bind_keeps_file {A B : Type} (m : Tx A) (k : A -> Tx B) :
  keeps_file m -> (forall a, keeps_file (k a)) -> keeps_file (tx_bind m k).
Proof.
  intros Hm Hk db db' r. unfold tx_bind. destruct (m db) as [db1 [ a | e ]] eqn:E.
  - intros X. destruct (Hm _ _ _ E) as (F1 & F2 & F3).
    destruct (Hk a _ _ _ X) as (G1 & G2 & G3). repeat split; congruence.
  - intros [= <- <-]. exact (Hm _ _ _ E).
Qed.

Lemma for_each_keeps_file {A : Type} (l : list A) (body : A -> Tx unit) :
  (forall x, keeps_file (body x)) -> keeps_file (for_each l body).
Proof.
  intros H. induction l as [ | x l IH ]; cbn [for_each].
  - intros db db' r [= <- <-]. repeat split.
  - apply bind_keeps_file; auto.
Qed.

Lemma save_body_keeps_file (template : WorkoutTemplate.t) :
  keeps_file (TemplateRepository.save_body template).
Proof.
  unfold TemplateRepository.save_body.
  repeat (apply bind_keeps_file; [ apply execute_keeps_file | intros _ ]).
  apply for_each_keeps_file. intros x. apply execute_keeps_file.
Qed.

(** C4.  Transaction atomicity, for the scopes that write with INSERT,
    UPDATE and DELETE.  For every sequence of such statements, and of steps
    that raise, run inside one [transaction()] scope on a connection without
    pending work: when a step raises an exception that derives from
    [Exception], as every error of [sqlite3] does, the scope re-raises that
    same exception and the store, both as the connection sees it and as
    committed, is what it was before the scope was entered, with no commit
    made; when no step raises, the scope commits exactly once and the store
    is the result of all the statements. *)
Theorem transaction_atomicity (steps : list Step) (db : Database) :
  clean db ->
  match run_steps steps (working db) with
  | (_, Some e) =>
      is_Exception e = true ->
      exists db',
        transaction (for_each steps step) db = (db', Raise e)
        /\ working db' = working db
        /\ committed db' = committed db
        /\ commits db' = commits db
        /\ rollbacks db' = S (rollbacks db)
        /\ in_transaction db' = false
  | (st, None) =>
      exists db',
        transaction (for_each steps step) db = (db', Return tt)
        /\ working db' = st
        /\ committed db' = st
        /\ commits db' = S (commits db)
        /\ rollbacks db' = rollbacks db
        /\ in_transaction db' = false
  end.
Proof.
  intros C. destruct (for_each_step steps db) as [t F].
  destruct (run_steps steps (working db)) as [st [e | ]]; cbn [fst snd] in F.
  - intros X. eexists. split; [ apply (transaction_raise _ _ _ _ F X) | ].
    cbn. rewrite C. repeat split.
  - eexists. split; [ apply (transaction_return _ _ _ _ F) | ].
    cbn. repeat split.
Qed.

(** * Facts about the statements on tables *)

Section OrderBy.
Context {A : Type} (key : A -> Z).

Lemma insert_sorted_In (x y : A) (l : list A) :
  In y (insert_sorted key x l) <-> y = x \/ In y l.
Proof.
  induction l as [ | z l IH ]; cbn.
  - intuition.
  - destruct (key x <=? key z); cbn; [ intuition | ].
    rewrite IH. intuition.
Qed.

Lemma order_by_In (y : A) (l : list A) : In y (order_by key l) <-> In y l.
Proof.
  induction l as [ | x l IH ]; cbn; [ reflexivity | ].
  rewrite insert_sorted_In, IH. intuition.
Qed.

Lemma insert_sorted_Permutation (x : A) (l : list A) :
  Permutation (insert_sorted key x l) (x :: l).
Proof.
  induction l as [ | z l IH ]; cbn; [ reflexivity | ].
  destruct (key x <=? key z); [ reflexivity | ].
  rewrite IH. apply perm_swap.
Qed.

Lemma order_by_Permutation (l : list A) : Permutation (order_by key l) l.
Proof.
  induction l as [ | x l IH ]; cbn; [ constructor | ].
  rewrite insert_sorted_Permutation. now constructor.
Qed.

Lemma insert_sorted_sorted (x : A) (l : list A) :
  StronglySorted (fun a b => key a <= key b) l ->
  StronglySorted (fun a b => key a <= key b) (insert_sorted key x l).
Proof.
  induction 1 as [ | z l S IH F ]; cbn.
  - repeat constructor.
  - destruct (key x <=? key z) eqn:E.
    + apply Z.leb_le in E. constructor; [ now constructor | ].
      constructor; [ exact E | ].
      eapply Forall_impl; [ | exact F ]. cbn. intros. lia.
    + apply Z.leb_gt in E. constructor; [ exact IH | ].
      apply Forall_forall. intros y Hy. apply insert_sorted_In in Hy.
      destruct Hy as [-> | Hy]; [ lia | ].
      rewrite Forall_forall in F. now apply F.
Qed.

Lemma order_by_sorted (l : list A) :
  StronglySorted (fun a b => key a <= key b) (order_by key l).
Proof.
  induction l as [ | x l IH ]; cbn; [ constructor | ].
  now apply insert_sorted_sorted.
Qed.

(** Rows that already come in the order of their keys stay as they are. *)
Lemma order_by_of_sorted (l : list A) :
  StronglySorted (fun a b => key a <= key b) l -> order_by key l = l.
Proof.
  unfold order_by.
  induction 1 as [ | x l S IH F ]; cbn; [ reflexivity | ].
  rewrite IH. destruct l as [ | z l ]; cbn; [ reflexivity | ].
  inversion F as [ | ? ? Hz ]; subst.
  apply Z.leb_le in Hz. now rewrite Hz.
Qed.

Lemma strictly_sorted_weaken (l : list A) :
  StronglySorted (fun a b => key a < key b) l ->
  StronglySorted (fun a b => key a <= key b) l.
Proof.
  induction 1 as [ | x l S IH F ]; constructor; [ exact IH | ].
  eapply Forall_impl; [ | exact F ]. cbn. intros. lia.
Qed.

(** A list in key order with the same rows as a list in strictly increasing
    key order is that list. *)
Lemma sorted_Permutation_unique (l l' : list A) :
  Permutation l l' ->
  StronglySorted (fun a b => key a <= key b) l ->
  StronglySorted (fun a b => key a < key b) l' ->
  l = l'.
Proof.
  revert l'. induction l as [ | x l IH ]; intros l' P S S'.
  - apply Permutation_nil in P. now subst.
  - destruct l' as [ | y l' ].
    + symmetry in P. apply Permutation_nil in P. discriminate.
    + inversion S as [ | ? ? Sl Fl ]; subst.
      inversion S' as [ | ? ? Sl' Fl' ]; subst.
      rewrite Forall_forall in Fl, Fl'.
      assert (x = y) as ->.
      { assert (Hx : In x (y :: l')) by (eapply Permutation_in; [ exact P | now left ]).
        assert (Hy : In y (x :: l))
          by (eapply Permutation_in; [ symmetry; exact P | now left ]).
        destruct Hx as [ Hx | Hx ]; [ now subst | ].
        destruct Hy as [ Hy | Hy ]; [ now subst | ].
        specialize (Fl _ Hy). specialize (Fl' _ Hx). lia. }
      f_equal. apply IH; [ | assumption | assumption ].
      eapply Permutation_cons_inv. exact P.
Qed.

(** [ORDER BY] on rows with pairwise distinct keys: the result does not
    depend on the scan order. *)
Lemma order_by_strictly_sorted (l l' : list A) :
  Permutation l l' ->
  StronglySorted (fun a b => key a < key b) l' ->
  order_by key l = l'.
Proof.
  intros P S. apply sorted_Permutation_unique.
  - etransitivity; [ apply order_by_Permutation | exact P ].
  - apply order_by_sorted.
  - exact S.
Qed.
End OrderBy.

(** The first row of a descending order has the greatest key. *)
Lemma order_by_desc_head {A : Type} (key : A -> Z) (l : list A) :
  match fetchone (order_by_desc key l) with
  | Some r => In r l /\ forall r', In r' l -> key r' <= key r
  | None => l = []
  end.
Proof.
  unfold order_by_desc, fetchone.
  pose proof (order_by_sorted (fun r => - key r) l) as S.
  pose proof (fun y => order_by_In (fun r => - key r) y l) as I.
  destruct (order_by (fun r => - key r) l) as [ | r rest ]; cbn.
  - destruct l as [ | x l ]; [ reflexivity | ].
    exfalso. apply (I x). now left.
  - split; [ apply I; now left | ].
    intros r' Hr'. apply I in Hr'. inversion S as [ | ? ? _ F ]; subst.
    destruct Hr' as [ -> | Hr' ]; [ lia | ].
    rewrite Forall_forall in F. specialize (F _ Hr'). cbn in F. lia.
Qed.


(** A change of rows that keeps the key commutes with the ordering. *)
Lemma insert_sorted_map {A B : Type} (key : A -> Z) (key' : B -> Z) (f : A -> B)
  (x : A) (l : list A) :
  (forall x, key' (f x) = key x) ->
  insert_sorted key' (f x) (map f l) = map f (insert_sorted key x l).
Proof.
  intros K. induction l as [ | z l IH ]; cbn; [ reflexivity | ].
  rewrite !K. destruct (key x <=? key z); cbn; [ reflexivity | ].
  now rewrite IH.
Qed.

Lemma order_by_map {A B : Type} (key : A -> Z) (key' : B -> Z) (f : A -> B) (l : list A) :
  (forall x, key' (f x) = key x) ->
  order_by key' (map f l) = map f (order_by key l).
Proof.
  intros K. unfold order_by. induction l as [ | x l IH ]; cbn; [ reflexivity | ].
  rewrite IH. now apply insert_sorted_map.
Qed.

Section TableFacts.
Context {Row : Type} (pk : Row -> UUID).

Lemma pk_exists_true (k : UUID) (t : list Row) :
  pk_exists pk k t = true <-> exists r, In r t /\ pk r = k.
Proof.
  unfold pk_exists, has_pk. rewrite existsb_exists.
  split; intros (r & Hr & E); exists r; (split; [ exact Hr | ]); now apply N.eqb_eq.
Qed.

Lemma pk_exists_false (k : UUID) (t : list Row) :
  pk_exists pk k t = false <-> forall r, In r t -> pk r <> k.
Proof.
  split.
  - intros E r Hr K.
    assert (T : pk_exists pk k t = true) by (apply pk_exists_true; eauto).
    congruence.
  - intros H. destruct (pk_exists pk k t) eqn:E; [ | reflexivity ].
    apply pk_exists_true in E. destruct E as (r & Hr & K). now destruct (H r Hr).
Qed.

Lemma pk_exists_app (k : UUID) (t u : list Row) :
  pk_exists pk k (t ++ u) = pk_exists pk k t || pk_exists pk k u.
Proof. apply existsb_app. Qed.

Lemma pk_exists_map_id (k : UUID) (t : list Row) :
  pk_exists pk k t = true <-> In k (map pk t).
Proof.
  rewrite pk_exists_true, in_map_iff.
  split; intros (r & A & B); exists r; auto.
Qed.

Lemma filter_has_pk_absent (k : UUID) (t : list Row) :
  pk_exists pk k t = false -> filter (has_pk pk k) t = [].
Proof.
  intros E. induction t as [ | r t IH ]; cbn in *; [ reflexivity | ].
  apply orb_false_iff in E. destruct E as [E1 E2]. rewrite E1. now apply IH.
Qed.

Lemma update_where_filter (p q : Row -> bool) (f : Row -> Row) (t : list Row) :
  (forall r, q (f r) = q r) ->
  filter q (update_where p f t) = update_where p f (filter q t).
Proof.
  intros Q. unfold update_where. induction t as [ | r t IH ]; cbn; [ reflexivity | ].
  destruct (p r) eqn:P.
  - rewrite Q. destruct (q r); cbn; rewrite ?P, IH; reflexivity.
  - destruct (q r); cbn; rewrite ?P, IH; reflexivity.
Qed.

Lemma update_where_map_pk (p : Row -> bool) (f : Row -> Row) (t : list Row) :
  (forall r, pk (f r) = pk r) ->
  map pk (update_where p f t) = map pk t.
Proof.
  intros K. unfold update_where. rewrite map_map. apply map_ext.
  intros r. destruct (p r); [ apply K | reflexivity ].
Qed.

(** The row [WHERE id = k] finds after an upsert of a row with id [k]. *)
Lemma fetchone_upsert (r : Row) (do_update : Row -> Row) (t : list Row) :
  (forall old, pk (do_update old) = pk old) ->
  fetchone (filter (has_pk pk (pk r)) (upsert_row pk r do_update t))
  = Some match fetchone (filter (has_pk pk (pk r)) t) with
         | Some old => do_update old
         | None => r
         end.
Proof.
  intros K. unfold upsert_row.
  destruct (pk_exists pk (pk r) t) eqn:E.
  - rewrite update_where_filter.
    2:{ intros x. unfold has_pk. now rewrite K. }
    apply pk_exists_true in E. destruct E as (old & Hold & Eold).
    assert (Hf : In old (filter (has_pk pk (pk r)) t)).
    { apply filter_In. split; [ exact Hold | ]. unfold has_pk. now apply N.eqb_eq. }
    destruct (filter (has_pk pk (pk r)) t) as [ | first rest ] eqn:F;
      [ contradiction | ].
    cbn. assert (P : has_pk pk (pk r) first = true).
    { assert (I : In first (filter (has_pk pk (pk r)) t)) by (rewrite F; now left).
      apply filter_In in I. tauto. }
    now rewrite P.
  - rewrite filter_app, (filter_has_pk_absent _ _ E). cbn.
    unfold has_pk. now rewrite N.eqb_refl.
Qed.

Lemma upsert_row_other (k : UUID) (r : Row) (do_update : Row -> Row) (t : list Row) :
  (forall old, pk (do_update old) = pk old) ->
  pk r <> k ->
  filter (has_pk pk k) (upsert_row pk r do_update t) = filter (has_pk pk k) t.
Proof.
  intros K D. unfold upsert_row. destruct (pk_exists pk (pk r) t).
  - rewrite update_where_filter.
    2:{ intros x. unfold has_pk. now rewrite K. }
    unfold update_where. rewrite <- (map_id (filter (has_pk pk k) t)) at 2.
    apply map_ext_in. intros x Hx. apply filter_In in Hx. destruct Hx as [_ Hx].
    unfold has_pk in *. apply N.eqb_eq in Hx.
    destruct (N.eqb_spec (pk x) (pk r)); [ congruence | reflexivity ].
  - rewrite filter_app. cbn. unfold has_pk at 2.
    destruct (N.eqb_spec (pk r) k); [ contradiction | ]. now rewrite app_nil_r.
Qed.

Lemma NoDup_map_injective (t : list Row) (a b : Row) :
  NoDup (map pk t) -> In a t -> In b t -> pk a = pk b -> a = b.
Proof.
  induction t as [ | r t IH ]; cbn; [ contradiction | ].
  intros N Ha Hb E. inversion N as [ | ? ? Nr Nt ]; subst.
  destruct Ha as [ -> | Ha ], Hb as [ -> | Hb ]; auto.
  - exfalso. apply Nr. rewrite E. now apply in_map.
  - exfalso. apply Nr. rewrite <- E. now apply in_map.
Qed.
End TableFacts.

Lemma bool_of_int_of_bool (b : bool) : bool_of_int (int_of_bool b) = b.
Proof. now destruct b. Qed.

(** * Saving and loading templates *)

Lemma for_each_map {A B : Type} (f : A -> B) (body : B -> Tx unit) (l : list A)
  (db : Database) :
  for_each l (fun x => body (f x)) db = for_each (map f l) body db.
Proof.
  revert db. induction l as [ | x l IH ]; intros db; cbn; [ reflexivity | ].
  unfold tx_bind. destruct (body (f x) db) as [db' [ [] | e ]]; [ apply IH | reflexivity ].
Qed.

(** Inserting rows with fresh, pairwise distinct ids under an existing
    template appends them. *)
Lemma insert_exercises_append (rows : list TemplateExerciseRow.t) (db : Database) :
  in_transaction db = true ->
  NoDup (map TemplateExerciseRow.id rows) ->
  (forall r, In r rows ->
     pk_exists TemplateExerciseRow.id (TemplateExerciseRow.id r)
       (template_exercises (working db)) = false) ->
  (forall r, In r rows ->
     pk_exists TemplateRow.id (TemplateExerciseRow.template_id r)
       (workout_templates (working db)) = true) ->
  for_each rows (fun r => execute (TemplateRepository.insert_exercise r)) db
  = (with_working
       (with_template_exercises (template_exercises (working db) ++ rows) (working db)) db,
     Return tt).
Proof.
  destruct db as [c st t n k]. cbn [in_transaction working]. intros T. subst t.
  revert st. induction rows as [ | r rows IH ]; intros st N F P.
  - cbn. rewrite app_nil_r. now destruct st.
  - cbn [for_each]. unfold tx_bind. set (tail := for_each rows _).
    unfold execute, TemplateRepository.insert_exercise, insert_row.
    cbn [working begin with_working committed commits rollbacks in_transaction].
    rewrite (F r) by now left. rewrite (P r) by now left.
    inversion N as [ | ? ? Nr Nrows ]; subst. subst tail.
    unfold with_working, begin. cbn [committed working in_transaction commits rollbacks].
    rewrite IH.
    + cbn. now rewrite <- app_assoc.
    + exact Nrows.
    + intros r' Hr'. cbn [template_exercises with_template_exercises].
      rewrite pk_exists_app, (F r') by now right. cbn.
      unfold has_pk. rewrite orb_false_r. apply N.eqb_neq. intros E.
      apply Nr. rewrite E. now apply in_map.
    + intros r' Hr'. apply P. now right.
Qed.

Lemma upsert_row_exists {Row : Type} (pk : Row -> UUID) (r : Row) (f : Row -> Row)
  (t : list Row) :
  (forall old, pk (f old) = pk old) ->
  pk_exists pk (pk r) (upsert_row pk r f t) = true.
Proof.
  intros K. pose proof (fetchone_upsert pk r f t K) as H.
  destruct (filter (has_pk pk (pk r)) (upsert_row pk r f t)) as [ | x rest ] eqn:F;
    [ discriminate | ].
  assert (I : In x (filter (has_pk pk (pk r)) (upsert_row pk r f t)))
    by (rewrite F; now left).
  apply filter_In in I. destruct I as [I1 I2].
  apply pk_exists_true. exists x. split; [ exact I1 | ].
  unfold has_pk in I2. now apply N.eqb_eq.
Qed.

Lemma template_save_ok (t : WorkoutTemplate.t) (db : Database) :
  NoDup (map TemplateExercise.id (WorkoutTemplate.exercises t)) ->
  (forall row, In row (template_exercises (working db)) ->
     In (TemplateExerciseRow.id row)
        (map TemplateExercise.id (WorkoutTemplate.exercises t)) ->
     TemplateExerciseRow.template_id row = WorkoutTemplate.id t) ->
  TemplateRepository.save t db
  = (mkDatabase (saved_template_store t (working db)) (saved_template_store t (working db))
       (S (commits db)) (rollbacks db),
     Return tt).
Proof.
  intros N G. unfold TemplateRepository.save.
  refine (eq_trans (transaction_return _ db
                      (with_working (saved_template_store t (working db)) (begin db)) tt _)
            eq_refl).
  unfold TemplateRepository.save_body, tx_bind. cbn.
  rewrite (for_each_map (TemplateRepository.exercise_params t)
             (fun r => execute (TemplateRepository.insert_exercise r))).
  rewrite insert_exercises_append.
  - reflexivity.
  - reflexivity.
  - rewrite map_map. cbn. exact N.
  - intros r Hr. cbn. apply pk_exists_false. intros row Hrow E.
    unfold delete_where in Hrow. apply filter_In in Hrow. destruct Hrow as [Hrow D].
    apply in_map_iff in Hr. destruct Hr as (e & <- & He). cbn in E.
    apply negb_true_iff, N.eqb_neq in D. apply D. apply G; [ exact Hrow | ].
    rewrite E. now apply in_map.
  - intros r Hr. apply in_map_iff in Hr. destruct Hr as (e & <- & He). cbn.
    apply (upsert_row_exists TemplateRow.id
             (TemplateRow.mk (WorkoutTemplate.id t) (WorkoutTemplate.name t)
                (WorkoutTemplate.created_at t))).
    reflexivity.
Qed.

(** The exercise rows of the saved template, as the store then has them. *)
Lemma saved_template_rows (t : WorkoutTemplate.t) (st : Store) :
  filter (fun r => N.eqb (TemplateExerciseRow.template_id r) (WorkoutTemplate.id t))
    (template_exercises (saved_template_store t st))
  = map (TemplateRepository.exercise_params t) (WorkoutTemplate.exercises t).
Proof.
  cbn. rewrite filter_app. unfold delete_where.
  replace (filter _ (filter _ (template_exercises st))) with (@nil TemplateExerciseRow.t).
  - cbn. apply forallb_filter_id. apply forallb_forall. intros r Hr.
    apply in_map_iff in Hr. destruct Hr as (e & <- & _). cbn. apply N.eqb_refl.
  - symmetry. induction (template_exercises st) as [ | r l IH ]; cbn; [ reflexivity | ].
    destruct (N.eqb (TemplateExerciseRow.template_id r) (WorkoutTemplate.id t)) eqn:E; cbn.
    + exact IH.
    + now rewrite E.
Qed.

Lemma exercise_of_params (t : WorkoutTemplate.t) (e : TemplateExercise.t) :
  TemplateExercise.template_id e = WorkoutTemplate.id t ->
  TemplateRepository.exercise_of_row (TemplateRepository.exercise_params t e) = e.
Proof.
  intros O. destruct e as [i tid n o u]. cbn in *. subst.
  unfold TemplateRepository.exercise_of_row. cbn. now rewrite bool_of_int_of_bool.
Qed.

(** What [get_by_id] returns right after [save]. *)
Lemma template_get_saved (t : WorkoutTemplate.t) (db' : Database) (st : Store) :
  working db' = saved_template_store t st ->
  TemplateRepository.get_by_id (WorkoutTemplate.id t) db'
  = Some (WorkoutTemplate.mk (WorkoutTemplate.id t) (WorkoutTemplate.name t)
            match fetchone (filter (has_pk TemplateRow.id (WorkoutTemplate.id t))
                              (workout_templates st)) with
            | Some old => TemplateRow.created_at old
            | None => WorkoutTemplate.created_at t
            end
            (map TemplateRepository.exercise_of_row
               (order_by TemplateExerciseRow.order_index
                  (map (TemplateRepository.exercise_params t)
                     (WorkoutTemplate.exercises t))))).
Proof.
  intros W.
  unfold TemplateRepository.get_by_id, cursor, TemplateRepository.select_exercises.
  rewrite W, saved_template_rows.
  cbn [workout_templates saved_template_store with_template_exercises
       with_workout_templates].
  rewrite (fetchone_upsert TemplateRow.id
             (TemplateRow.mk (WorkoutTemplate.id t) (WorkoutTemplate.name t)
                (WorkoutTemplate.created_at t))) by reflexivity.
  cbn [TemplateRow.id].
  destruct (fetchone (filter (has_pk TemplateRow.id (WorkoutTemplate.id t))
                        (workout_templates st))) as [ old | ] eqn:F; cbn.
  - assert (I : In old (filter (has_pk TemplateRow.id (WorkoutTemplate.id t))
                          (workout_templates st))).
    { destruct (filter _ _) as [ | x rest ]; [ discriminate | ].
      inversion F; subst. now left. }
    apply filter_In in I. destruct I as [I K]. unfold has_pk in K. apply N.eqb_eq in K.
    now rewrite K.
  - reflexivity.
Qed.

Lemma fetchone_filter_Some {Row : Type} (p : Row -> bool) (l : list Row) (r : Row) :
  fetchone (filter p l) = Some r -> In r l /\ p r = true.
Proof.
  intros F. apply filter_In. destruct (filter p l) as [ | x rest ]; [ discriminate | ].
  inversion F; subst. now left.
Qed.


Lemma drop_nth_split {A : Type} (i : nat) (l : list A) (x : A) :
  nth_error l i = Some x ->
  exists l1 l2, l = l1 ++ x :: l2 /\ drop_nth i l = l1 ++ l2.
Proof.
  revert l. induction i as [ | i IH ]; intros [ | y l ] E; cbn in E; try discriminate.
  - inversion E; subst. exists [], l. split; reflexivity.
  - destruct (IH l E) as (l1 & l2 & -> & D). exists (y :: l1), l2.
    split; [ reflexivity | ]. unfold drop_nth in *. cbn. now rewrite <- D.
Qed.

(** A [WHERE] clause keeps the ids of the selected rows distinct. *)
Lemma where_keeps_ids_distinct {Row Key : Type} (rows : list Row)
  (key : Row -> Key) (keep : Row -> bool) :
  NoDup (map key rows) -> NoDup (map key (filter keep rows)).
Proof.
  intros Distinct. induction rows as [ | r rows IH ]; cbn in *.
  - constructor.
  - apply NoDup_cons_iff in Distinct. destruct Distinct as [Fresh Distinct].
    destruct (keep r); cbn; [ | now apply IH ].
    constructor; [ | now apply IH ].
    rewrite in_map_iff. intros (r' & Same & Kept). apply Fresh.
    rewrite <- Same. apply in_map. apply filter_In in Kept. tauto.
Qed.

(** What [get_by_id] tells about the store it read. *)
Lemma template_get_by_id_Some (tid : UUID) (db : Database) (t : WorkoutTemplate.t) :
  TemplateRepository.get_by_id tid db = Some t ->
  exists row,
    fetchone (filter (has_pk TemplateRow.id tid) (workout_templates (working db))) = Some row
    /\ TemplateRow.id row = tid
    /\ t = WorkoutTemplate.mk tid (TemplateRow.name row) (TemplateRow.created_at row)
             (map TemplateRepository.exercise_of_row
                (TemplateRepository.select_exercises tid (working db))).
Proof.
  unfold TemplateRepository.get_by_id, cursor.
  destruct (fetchone _) as [ row | ] eqn:F; [ | discriminate ].
  intros E. inversion E; subst. exists row.
  assert (K : TemplateRow.id row = tid).
  { destruct (filter _ _) as [ | r rest ] eqn:Fl; [ discriminate | ].
    cbn in F. inversion F; subst.
    assert (I : In row (filter (has_pk TemplateRow.id tid) (workout_templates (working db))))
      by (rewrite Fl; now left).
    apply filter_In in I. destruct I as [_ I]. unfold has_pk in I. now apply N.eqb_eq. }
  rewrite K. repeat split; reflexivity || exact K.
Qed.

Lemma select_exercises_In (tid : UUID) (st : Store) (r : TemplateExerciseRow.t) :
  In r (TemplateRepository.select_exercises tid st)
  <-> In r (template_exercises st) /\ TemplateExerciseRow.template_id r = tid.
Proof.
  unfold TemplateRepository.select_exercises.
  rewrite order_by_In, filter_In, N.eqb_eq. reflexivity.
Qed.

Lemma select_exercises_NoDup (tid : UUID) (st : Store) :
  NoDup (map TemplateExerciseRow.id (template_exercises st)) ->
  NoDup (map TemplateExerciseRow.id (TemplateRepository.select_exercises tid st)).
Proof.
  intros N. unfold TemplateRepository.select_exercises.
  eapply Permutation_NoDup.
  - apply Permutation_map. symmetry. apply order_by_Permutation.
  - now apply where_keeps_ids_distinct.
Qed.

(** C6.  Template save replaces the children wholesale.  For a template as
    loaded from the store, saving a copy whose exercise list has dropped one
    exercise succeeds; afterwards the dropped exercise is in no row of
    [template_exercises] and not in the reloaded template, and every exercise
    of the list that was saved is there exactly once, in the table and in the
    reloaded template. *)
Theorem template_save_replaces_children
  (db : Database) (tid : UUID) (t : WorkoutTemplate.t) (i : nat) (x : TemplateExercise.t) :
  NoDup (map TemplateExerciseRow.id (template_exercises (working db))) ->
  TemplateRepository.get_by_id tid db = Some t ->
  nth_error (WorkoutTemplate.exercises t) i = Some x ->
  let t' := template_with_exercises (drop_nth i (WorkoutTemplate.exercises t)) t in
  exists db' reloaded,
    TemplateRepository.save t' db = (db', Return tt)
    /\ TemplateRepository.get_by_id tid db' = Some (template_with_exercises reloaded t)
    /\ ~ In (TemplateExercise.id x)
            (map TemplateExerciseRow.id (template_exercises (working db')))
    /\ ~ In (TemplateExercise.id x) (map TemplateExercise.id reloaded)
    /\ Permutation reloaded (WorkoutTemplate.exercises t')
    /\ forall e, In e (WorkoutTemplate.exercises t') ->
         count_occ UUID_eq_dec
           (map TemplateExerciseRow.id (template_exercises (working db')))
           (TemplateExercise.id e) = 1%nat
         /\ count_occ UUID_eq_dec (map TemplateExercise.id reloaded)
              (TemplateExercise.id e) = 1%nat.
Proof.
  intros PK G Hx t'.
  destruct (template_get_by_id_Some _ _ _ G) as (row & Frow & Krow & Et).
  set (st := working db) in *.
  set (rows := TemplateRepository.select_exercises tid st) in *.
  assert (Ex : WorkoutTemplate.exercises t = map TemplateRepository.exercise_of_row rows)
    by (rewrite Et; reflexivity).
  assert (Tid : WorkoutTemplate.id t = tid) by (rewrite Et; reflexivity).
  assert (Ids : map TemplateExercise.id (WorkoutTemplate.exercises t)
                = map TemplateExerciseRow.id rows)
    by (rewrite Ex, map_map; reflexivity).
  assert (Nrows : NoDup (map TemplateExerciseRow.id rows))
    by now apply select_exercises_NoDup.
  destruct (drop_nth_split _ _ _ Hx) as (l1 & l2 & Split & Drop).
  assert (Nt : NoDup (map TemplateExercise.id (l1 ++ x :: l2)))
    by (rewrite <- Split, Ids; exact Nrows).
  rewrite map_app in Nt. cbn in Nt.
  assert (Nt' : NoDup (map TemplateExercise.id (l1 ++ l2)))
    by (rewrite map_app; eapply NoDup_remove_1; exact Nt).
  assert (Nx : ~ In (TemplateExercise.id x) (map TemplateExercise.id (l1 ++ l2)))
    by (rewrite map_app; eapply NoDup_remove_2; exact Nt).
  (* every exercise of [t] is the image of a stored row of this template *)
  assert (Stored : forall e, In e (WorkoutTemplate.exercises t) ->
            TemplateExercise.template_id e = tid
            /\ forall r, In r (template_exercises st) ->
                 TemplateExerciseRow.id r = TemplateExercise.id e ->
                 TemplateExerciseRow.template_id r = tid).
  { intros e He. rewrite Ex in He. apply in_map_iff in He.
    destruct He as (r0 & <- & Hr0). apply select_exercises_In in Hr0.
    destruct Hr0 as [Hr0 T0]. split; [ exact T0 | ].
    intros r Hr E. cbn in E.
    now rewrite (NoDup_map_injective TemplateExerciseRow.id _ r r0 PK Hr Hr0 E). }
  assert (Sub : forall e, In e (l1 ++ l2) -> In e (WorkoutTemplate.exercises t)).
  { intros e He. rewrite Split. apply in_app_or in He. apply in_or_app. cbn. tauto. }
  assert (Ex' : WorkoutTemplate.exercises t' = l1 ++ l2) by exact Drop.
  assert (Tid' : WorkoutTemplate.id t' = tid) by exact Tid.
  assert (Save := template_save_ok t' db).
  rewrite Ex', Tid' in Save. specialize (Save Nt').
  assert (G' : forall r, In r (template_exercises st) ->
            In (TemplateExerciseRow.id r) (map TemplateExercise.id (l1 ++ l2)) ->
            TemplateExerciseRow.template_id r = tid).
  { intros r Hr I. apply in_map_iff in I. destruct I as (e & E & He).
    apply (Stored e (Sub e He)); auto. }
  specialize (Save G').
  (* no surviving row of another template has an id of this template *)
  assert (Others : forall e, In e (WorkoutTemplate.exercises t) ->
            ~ In (TemplateExercise.id e)
                (map TemplateExerciseRow.id
                   (delete_where (fun r => N.eqb (TemplateExerciseRow.template_id r) tid)
                      (template_exercises st)))).
  { intros e He I. apply in_map_iff in I. destruct I as (r & E & Hr).
    unfold delete_where in Hr. apply filter_In in Hr. destruct Hr as [Hr D].
    apply negb_true_iff, N.eqb_neq in D. apply D.
    apply (Stored e He); auto. }
  assert (NewIds : map TemplateExerciseRow.id
                     (map (TemplateRepository.exercise_params t') (l1 ++ l2))
                   = map TemplateExercise.id (l1 ++ l2))
    by (rewrite map_map; reflexivity).
  exists (mkDatabase (saved_template_store t' st) (saved_template_store t' st)
            (S (commits db)) (rollbacks db)).
  exists (map TemplateRepository.exercise_of_row
            (order_by TemplateExerciseRow.order_index
               (map (TemplateRepository.exercise_params t') (l1 ++ l2)))).
  assert (Back : map TemplateRepository.exercise_of_row
                   (map (TemplateRepository.exercise_params t') (l1 ++ l2)) = l1 ++ l2).
  { rewrite map_map. rewrite <- (map_id (l1 ++ l2)) at 2. apply map_ext_in.
    intros e He. apply exercise_of_params. rewrite Tid'. now apply Stored, Sub. }
  assert (P : Permutation
                (map TemplateRepository.exercise_of_row
                   (order_by TemplateExerciseRow.order_index
                      (map (TemplateRepository.exercise_params t') (l1 ++ l2))))
                (l1 ++ l2)).
  { rewrite <- Back at 2. apply Permutation_map, order_by_Permutation. }
  split; [ exact Save | ].
  split.
  { assert (Created : TemplateRow.created_at row = WorkoutTemplate.created_at t)
      by (rewrite Et; reflexivity).
    rewrite <- Tid.
    refine (eq_trans
              (template_get_saved t'
                 (mkDatabase (saved_template_store t' st) (saved_template_store t' st)
                    (S (commits db)) (rollbacks db))
                 st eq_refl) _).
    cbn [WorkoutTemplate.id WorkoutTemplate.name WorkoutTemplate.created_at
         WorkoutTemplate.exercises t' template_with_exercises].
    rewrite Tid, Frow, Created, Drop. unfold template_with_exercises.
    now rewrite Tid. }
  cbn [working saved_template_store template_exercises with_template_exercises
       with_workout_templates].
  rewrite Ex', Tid'.
  split.
  { rewrite map_app, NewIds. intros I. apply in_app_or in I. destruct I as [ I | I ].
    - apply (Others x); [ | exact I ]. rewrite Split. apply in_or_app. cbn. tauto.
    - now apply Nx. }
  split.
  { intros I. apply Nx. eapply Permutation_in; [ apply Permutation_map; exact P | exact I ]. }
  split; [ exact P | ].
  intros e He. split.
  - rewrite map_app, count_occ_app, NewIds.
    assert (Z0 := proj1 (count_occ_not_In UUID_eq_dec _ _) (Others e (Sub e He))).
    rewrite Z0. cbn. apply NoDup_count_occ'; [ exact Nt' | now apply in_map ].
  - assert (Pm : Permutation
               (map TemplateExercise.id
                  (map TemplateRepository.exercise_of_row
                     (order_by TemplateExerciseRow.order_index
                        (map (TemplateRepository.exercise_params t') (l1 ++ l2)))))
               (map TemplateExercise.id (l1 ++ l2)))
      by (apply Permutation_map; exact P).
    rewrite (proj1 (Permutation_count_occ UUID_eq_dec _ _) Pm).
    apply NoDup_count_occ'; [ exact Nt' | now apply in_map ].
Qed.

(** * The exercise history *)

Lemma join_sets_exercises_In (st : Store) (s : SetRow.t) (se : SessionExerciseRow.t) :
  In (s, se) (SessionRepository.join_sets_exercises st)
  <-> In s (sets st) /\ In se (session_exercises st)
      /\ SessionExerciseRow.id se = SetRow.session_exercise_id s.
Proof.
  unfold SessionRepository.join_sets_exercises. rewrite in_flat_map. split.
  - intros (s0 & Hs0 & Hin). apply in_map_iff in Hin.
    destruct Hin as (se0 & E & Hse0). inversion E; subst.
    apply filter_In in Hse0. destruct Hse0 as [Hse0 K].
    unfold has_pk in K. apply N.eqb_eq in K. auto.
  - intros (Hs & Hse & K). exists s. split; [ exact Hs | ].
    apply in_map_iff. exists se. split; [ reflexivity | ].
    apply filter_In. split; [ exact Hse | ].
    unfold has_pk. now apply N.eqb_eq.
Qed.

Lemma weight_recorded_for_iff (st : Store) (exercise_name : string)
  (row : SetRow.t * SessionExerciseRow.t) :
  In row (filter (SessionRepository.weight_recorded_for exercise_name)
            (SessionRepository.join_sets_exercises st))
  <-> In (fst row) (sets st) /\ In (snd row) (session_exercises st)
      /\ SessionExerciseRow.id (snd row) = SetRow.session_exercise_id (fst row)
      /\ SessionExerciseRow.name (snd row) = exercise_name
      /\ SetRow.weight (fst row) <> None.
Proof.
  destruct row as [s se]. rewrite filter_In, join_sets_exercises_In.
  unfold SessionRepository.weight_recorded_for. cbn.
  rewrite andb_true_iff, String.eqb_eq.
  destruct (SetRow.weight s); intuition congruence.
Qed.

(** C8.  History index.  [get_last_weight_for_exercise name] returns the
    weight of a set that has the greatest [created_at] among all sets, of all
    sessions, whose weight is present and whose owning session exercise has
    exactly the name [name]; it returns [None] exactly when there is no such
    set. *)
Theorem last_weight_is_most_recent (exercise_name : string) (db : Database) :
  match SessionRepository.get_last_weight_for_exercise exercise_name db with
  | Some w =>
      exists s, recorded_for (working db) exercise_name s
                /\ SetRow.weight s = Some w
                /\ forall s', recorded_for (working db) exercise_name s' ->
                              SetRow.created_at s' <= SetRow.created_at s
  | None => forall s, ~ recorded_for (working db) exercise_name s
  end.
Proof.
  unfold SessionRepository.get_last_weight_for_exercise, cursor.
  pose proof (order_by_desc_head (fun row => SetRow.created_at (fst row))
                (filter (SessionRepository.weight_recorded_for exercise_name)
                   (SessionRepository.join_sets_exercises (working db)))) as H.
  destruct (fetchone _) as [ [s se] | ].
  - destruct H as [Hin Hmax]. apply weight_recorded_for_iff in Hin. cbn in Hin.
    destruct Hin as (Hs & Hse & Hid & Hname & Hw). cbn.
    destruct (SetRow.weight s) as [w | ] eqn:W; [ | congruence ].
    exists s. split; [ | split; [ exact W | ] ].
    + repeat split; [ exact Hs | congruence | ]. now exists se.
    + intros s' (Hs' & Hw' & se' & Hse' & Hid' & Hname').
      apply (Hmax (s', se')). apply weight_recorded_for_iff. cbn. auto.
  - intros s (Hs & Hw & se & Hse & Hid & Hname).
    assert (Hin : In (s, se) (filter (SessionRepository.weight_recorded_for exercise_name)
                               (SessionRepository.join_sets_exercises (working db))))
      by (apply weight_recorded_for_iff; cbn; auto).
    rewrite H in Hin. exact Hin.
Qed.

(** * Upserts of session rows *)

Lemma Forall2_map_right {A : Type} (R : A -> A -> Prop) (g : A -> A) (l : list A) :
  (forall x, R x (g x)) -> Forall2 R l (map g l).
Proof. intros H. induction l; cbn; constructor; auto. Qed.



(** * Migrations *)

Section TxInvariant.
Variable R : Store -> Store -> Prop.
Hypothesis R_refl : forall st, R st st.
Hypothesis R_trans : forall a b c, R a b -> R b c -> R a c.

Lemma execute_respects (stmt : Store -> SqlError + Store) :
  (forall st st', stmt st = inr st' -> R st st') -> tx_respects R (execute stmt).
Proof.
  intros H db db' r. unfold execute. destruct (stmt (working db)) as [ e | st1 ] eqn:E;
    intros X; inversion X; subst; cbn; auto.
Qed.

Lemma execute_create_respects (stmt : Store -> SqlError + Store) :
  (forall st st', stmt st = inr st' -> R st st') -> tx_respects R (execute_create stmt).
Proof.
  intros H db db' r. unfold execute_create.
  destruct (stmt (working db)) as [ e | st1 ] eqn:E; intros X; inversion X; subst; auto.
  destruct (in_transaction db); cbn; auto.
Qed.

Lemma bind_respects {A B : Type} (m : Tx A) (k : A -> Tx B) :
  tx_respects R m -> (forall a, tx_respects R (k a)) -> tx_respects R (tx_bind m k).
Proof.
  intros Hm Hk db db' r. unfold tx_bind.
  destruct (m db) as [db1 [ a | e ]] eqn:E; intros X.
  - eapply R_trans; [ eapply Hm; exact E | eapply Hk; exact X ].
  - inversion X; subst. eapply Hm; exact E.
Qed.

Lemma for_each_respects {A : Type} (l : list A) (body : A -> Tx unit) :
  (forall x, tx_respects R (body x)) -> tx_respects R (for_each l body).
Proof.
  intros H. induction l as [ | x l IH ]; cbn.
  - intros db db' r X. inversion X; subst. apply R_refl.
  - apply bind_respects; [ apply H | intros _; exact IH ].
Qed.

Lemma execute_respects_file (stmt : Store -> SqlError + Store) :
  tx_respects_file R (execute stmt).
Proof.
  intros db db' r. unfold execute. destruct (stmt (working db)); intros [= <- <-] _;
    (split; [ discriminate | apply R_refl ]).
Qed.

Lemma execute_create_respects_file (stmt : Store -> SqlError + Store) :
  (forall st st', stmt st = inr st' -> R st st') ->
  tx_respects_file R (execute_create stmt).
Proof.
  intros H db db' r. unfold execute_create.
  destruct (stmt (working db)) as [ e | st1 ] eqn:E; intros [= <- <-] C; auto.
  unfold coherent in *. destruct (in_transaction db) eqn:T; cbn.
  - rewrite T. split; [ discriminate | apply R_refl ].
  - split; [ reflexivity | ]. rewrite <- (C eq_refl). apply H, E.
Qed.

Lemma bind_respects_file {A B : Type} (m : Tx A) (k : A -> Tx B) :
  tx_respects_file R m -> (forall a, tx_respects_file R (k a)) ->
  tx_respects_file R (tx_bind m k).
Proof.
  intros Hm Hk db db' r. unfold tx_bind.
  destruct (m db) as [db1 [ a | e ]] eqn:E; intros X C.
  - destruct (Hm _ _ _ E C) as [C1 R1]. destruct (Hk a _ _ _ X C1) as [C2 R2].
    split; [ exact C2 | eapply R_trans; eauto ].
  - inversion X; subst. exact (Hm _ _ _ E C).
Qed.

Lemma transaction_respects {A : Type} (m : Tx A) (db db' : Database) (a : A) :
  tx_respects R m ->
  transaction m db = (db', Return a) ->
  R (working db) (working db') /\ clean db'.
Proof.
  intros H. unfold transaction. destruct (m db) as [db1 [ a' | e ]] eqn:E.
  - intros X. inversion X; subst. cbn. split; [ eapply H; exact E | reflexivity ].
  - destruct (is_Exception e); discriminate.
Qed.
End TxInvariant.

Lemma keeps_ledger_refl (st : Store) : keeps_ledger st st.
Proof. split; auto. Qed.

Lemma keeps_ledger_trans (a b c : Store) :
  keeps_ledger a b -> keeps_ledger b c -> keeps_ledger a c.
Proof. intros [E1 H1] [E2 H2]. split; [ congruence | auto ]. Qed.

Lemma find_app_Some {A : Type} (p : A -> bool) (l l' : list A) (x : A) :
  find p l = Some x -> find p (l ++ l') = Some x.
Proof.
  induction l as [ | y l IH ]; cbn; [ discriminate | ].
  destruct (p y); auto.
Qed.

Lemma find_app_None {A : Type} (p : A -> bool) (l l' : list A) :
  find p l = None -> find p (l ++ l') = find p l'.
Proof.
  induction l as [ | y l IH ]; cbn; [ reflexivity | ].
  destruct (p y); [ discriminate | auto ].
Qed.

Lemma catalogued_app (type name : string) (l : list (string * string)) (st : Store) :
  catalogued type name st = true ->
  catalogued type name (with_sqlite_master (sqlite_master st ++ l) st) = true.
Proof. unfold catalogued. cbn. rewrite existsb_app. now intros ->. Qed.

Lemma create_table_keeps_ledger (name : string) (st st' : Store) :
  create_table_if_not_exists name st = inr st' -> keeps_ledger st st'.
Proof.
  unfold create_table_if_not_exists.
  destruct (catalogued "table" name st);
    [ intros X; inversion X; subst; apply keeps_ledger_refl | ].
  destruct (catalogued "index" name st); [ discriminate | ].
  intros X. inversion X; subst. split; [ reflexivity | ]. apply catalogued_app.
Qed.

Lemma create_index_keeps_ledger (name table : string) (st st' : Store) :
  create_index_if_not_exists name table st = inr st' -> keeps_ledger st st'.
Proof.
  unfold create_index_if_not_exists.
  destruct (negb (catalogued "table" table st)); [ discriminate | ].
  destruct (catalogued "table" name st); [ discriminate | ].
  destruct (catalogued "index" name st);
    [ intros X; inversion X; subst; apply keeps_ledger_refl | ].
  intros X. inversion X; subst. split; [ reflexivity | ]. apply catalogued_app.
Qed.

Lemma create_ledger_has_ledger (st st' : Store) :
  create_table_if_not_exists "schema_version" st = inr st' ->
  has_ledger st' /\ schema_version st' = schema_version st
  /\ (has_ledger st -> st' = st).
Proof.
  unfold create_table_if_not_exists, has_ledger.
  destruct (catalogued "table" "schema_version" st) eqn:T.
  - intros X. inversion X; subst. auto.
  - destruct (catalogued "index" "schema_version" st); [ discriminate | ].
    intros X. inversion X; subst. split; [ | split; [ reflexivity | discriminate ] ].
    unfold catalogued. cbn. rewrite existsb_app. cbn. apply orb_true_r.
Qed.

(** A CREATE statement in its own scope. *)
Lemma transaction_execute_create (stmt : Store -> SqlError + Store) (db : Database) :
  transaction (execute_create stmt) db
  = match stmt (working db) with
    | inr st => (mkDatabase st st (S (commits db)) (rollbacks db), Return tt)
    | inl e => (mkDatabase (committed db) (committed db) (commits db) (S (rollbacks db)),
                Raise (Sqlite3Error e))
    end.
Proof.
  unfold transaction, execute_create. destruct (stmt (working db)); [ reflexivity | ].
  destruct (in_transaction db); reflexivity.
Qed.

Lemma migration_001_keeps_ledger (db db' : Database) :
  migration_001_initial_schema db = (db', Return tt) ->
  keeps_ledger (working db) (working db') /\ clean db'.
Proof.
  apply (transaction_respects keeps_ledger).
  repeat (apply (bind_respects keeps_ledger keeps_ledger_trans);
          [ apply (execute_create_respects keeps_ledger keeps_ledger_refl);
            first [ apply create_table_keeps_ledger | apply create_index_keeps_ledger ]
          | intros _ ]).
  apply (execute_create_respects keeps_ledger keeps_ledger_refl); apply create_index_keeps_ledger.
Qed.

Lemma insert_template_keeps_ledger (r : TemplateRow.t) (st st' : Store) :
  insert_template r st = inr st' -> keeps_ledger st st'.
Proof.
  unfold insert_template. destruct (insert_row _ _ _ _); intros X; inversion X; subst.
  split; auto.
Qed.

Lemma insert_exercise_keeps_ledger (r : TemplateExerciseRow.t) (st st' : Store) :
  TemplateRepository.insert_exercise r st = inr st' -> keeps_ledger st st'.
Proof.
  unfold TemplateRepository.insert_exercise. destruct (insert_row _ _ _ _); [ discriminate | ].
  destruct (pk_exists _ _ _); intros X; inversion X; subst. split; auto.
Qed.

Lemma migration_002_keeps_ledger (env : Env) (db db' : Database) :
  migration_002_seed_templates env db = (db', Return tt) ->
  keeps_ledger (working db) (working db') /\ clean db'.
Proof.
  apply (transaction_respects keeps_ledger).
  apply (for_each_respects keeps_ledger keeps_ledger_refl keeps_ledger_trans).
  intros template_data.
  apply (bind_respects keeps_ledger keeps_ledger_trans).
  - apply (execute_respects keeps_ledger keeps_ledger_refl).
    apply insert_template_keeps_ledger.
  - intros _. apply (for_each_respects keeps_ledger keeps_ledger_refl keeps_ledger_trans).
    intros ex. apply (execute_respects keeps_ledger keeps_ledger_refl).
    apply insert_exercise_keeps_ledger.
Qed.

(** Recording a version: the ledger gains that row and nothing else changes. *)
Lemma record_version (version : Z) (applied_at : DateTime) (db db' : Database) :
  transaction (execute (insert_schema_version version applied_at)) db = (db', Return tt) ->
  schema_version (working db') = schema_version (working db) ++ [(version, applied_at)]
  /\ (has_ledger (working db) -> has_ledger (working db'))
  /\ clean db'.
Proof.
  rewrite transaction_execute. unfold insert_schema_version.
  destruct (existsb _ _); [ discriminate | ].
  intros X. inversion X; subst. cbn. repeat split; auto.
Qed.

(** With the ledger table in place, the current version is at least every
    recorded version. *)
Lemma current_version_ge (db : Database) (version : Z) :
  has_ledger (working db) ->
  In version (map fst (schema_version (working db))) ->
  version <= get_current_version db.
Proof.
  intros L I. unfold get_current_version, cursor.
  unfold has_ledger, catalogued in L. apply existsb_exists in L. destruct L as (entry & L & Q).
  destruct (fetchone (filter _ (sqlite_master (working db)))) as [ e | ] eqn:F.
  - pose proof (order_by_desc_head fst (schema_version (working db))) as H.
    apply in_map_iff in I. destruct I as (row & <- & Hrow).
    destruct (fetchone (order_by_desc fst _)) as [ top | ].
    + now apply H.
    + rewrite H in Hrow. contradiction.
  - exfalso.
    assert (I' : In entry
                   (filter (fun e => String.eqb (fst e) "table"
                                     && String.eqb (snd e) "schema_version")
                      (sqlite_master (working db))))
      by (apply filter_In; split; [ exact L | exact Q ]).
    destruct (filter _ _); [ contradiction | discriminate ].
Qed.

Lemma get_current_version_working (db db' : Database) :
  working db' = working db -> get_current_version db' = get_current_version db.
Proof. unfold get_current_version, cursor. now intros ->. Qed.

(** Nothing is pending once the current version has reached 2. *)
Lemma run_pending_up_to_date (env : Env) (db : Database) :
  2 <= get_current_version db ->
  run_pending env (get_current_version db) (MIGRATIONS env) db = (db, [], Return tt).
Proof.
  intros H. cbn.
  destruct (Z.gtb_spec 1 (get_current_version db)); [ lia | ].
  destruct (Z.gtb_spec 2 (get_current_version db)); [ lia | ].
  reflexivity.
Qed.

(** After a successful run the ledger table exists, the current version is
    at least 2 and nothing is left uncommitted. *)
Lemma apply_migrations_reaches_2 (env : Env) (db db1 : Database) (printed : list Printed) :
  apply_migrations env db = (db1, printed, Return tt) ->
  has_ledger (working db1) /\ 2 <= get_current_version db1 /\ clean db1.
Proof.
  unfold apply_migrations. rewrite transaction_execute_create.
  destruct (create_table_if_not_exists "schema_version" (working db)) as [ e | st0 ] eqn:C;
    [ discriminate | ].
  apply create_ledger_has_ledger in C. destruct C as (L0 & _ & _).
  set (dbA := mkDatabase st0 st0 (S (commits db)) (rollbacks db)).
  assert (LA : has_ledger (working dbA)) by exact L0.
  assert (CA : clean dbA) by reflexivity.
  clearbody dbA. clear L0.
  set (c := get_current_version dbA). assert (Ec : c = get_current_version dbA) by reflexivity.
  clearbody c. cbn [run_pending MIGRATIONS].
  destruct (Z.gtb_spec 1 c) as [ G1 | G1 ].
  - (* both migrations are pending *)
    destruct (migration_001_initial_schema dbA) as [dbB [ [] | e ]] eqn:M1; [ | discriminate ].
    apply migration_001_keeps_ledger in M1. destruct M1 as ([_ LB] & _).
    destruct (transaction (execute (insert_schema_version 1 (now env))) dbB)
      as [dbC [ [] | e ]] eqn:V1; [ | discriminate ].
    apply record_version in V1. destruct V1 as (_ & LC & _).
    destruct (Z.gtb_spec 2 c) as [ G2 | G2 ]; [ | lia ].
    destruct (migration_002_seed_templates env dbC) as [dbD [ [] | e ]] eqn:M2;
      [ | discriminate ].
    apply migration_002_keeps_ledger in M2. destruct M2 as ([_ LD] & _).
    destruct (transaction (execute (insert_schema_version 2 (now env))) dbD)
      as [dbE [ [] | e ]] eqn:V2; [ | discriminate ].
    apply record_version in V2. destruct V2 as (SE & LE & CE).
    intros X. inversion X; subst. split; [ auto | ]. split; [ | exact CE ].
    apply current_version_ge; [ auto | ].
    rewrite SE, map_app. apply in_or_app. right. now left.
  - destruct (Z.gtb_spec 2 c) as [ G2 | G2 ].
    + (* only the second migration is pending *)
      destruct (migration_002_seed_templates env dbA) as [dbD [ [] | e ]] eqn:M2;
        [ | discriminate ].
      apply migration_002_keeps_ledger in M2. destruct M2 as ([_ LD] & _).
      destruct (transaction (execute (insert_schema_version 2 (now env))) dbD)
        as [dbE [ [] | e ]] eqn:V2; [ | discriminate ].
      apply record_version in V2. destruct V2 as (SE & LE & CE).
      intros X. inversion X; subst. split; [ auto | ]. split; [ | exact CE ].
      apply current_version_ge; [ auto | ].
      rewrite SE, map_app. apply in_or_app. right. now left.
    + (* the database was up to date already *)
      intros X. inversion X; subst. repeat split; auto; lia.
Qed.

(** C5.  Migration idempotence.  After [apply_migrations] has returned
    once, a second run returns as well, prints nothing (no migration body is
    run again), and leaves the store as it was: the same rows in the
    [schema_version] ledger and the same schema. *)
Theorem apply_migrations_idempotent
  (env1 env2 : Env) (db db1 : Database) (printed1 : list Printed) :
  apply_migrations env1 db = (db1, printed1, Return tt) ->
  exists db2,
    apply_migrations env2 db1 = (db2, [], Return tt)
    /\ working db2 = working db1
    /\ committed db2 = committed db1
    /\ schema_version (working db2) = schema_version (working db1)
    /\ sqlite_master (working db2) = sqlite_master (working db1).
Proof.
  intros First. apply apply_migrations_reaches_2 in First.
  destruct First as (L & V & C).
  unfold apply_migrations. rewrite transaction_execute_create.
  destruct (create_table_if_not_exists "schema_version" (working db1)) as [ e | st ] eqn:E.
  - exfalso. unfold create_table_if_not_exists in E. unfold has_ledger in L.
    rewrite L in E. discriminate.
  - apply create_ledger_has_ledger in E. destruct E as (_ & _ & Same).
    specialize (Same L). subst st.
    set (db2 := mkDatabase (working db1) (working db1) (S (commits db1)) (rollbacks db1)).
    assert (V2 : get_current_version db2 = get_current_version db1)
      by now apply get_current_version_working.
    exists db2. rewrite run_pending_up_to_date by lia.
    repeat split. cbn. exact C.
Qed.

(** * A run of upserts *)

Section UpsertAll.
Context {Row : Type} (pk : Row -> UUID) (upd : Row -> Row -> Row).
Hypothesis upd_pk : forall r old, pk (upd r old) = pk old.

Lemma upsert_row_ids (r : Row) (t : list Row) :
  map pk (upsert_row pk r (upd r) t)
  = if pk_exists pk (pk r) t then map pk t else map pk t ++ [pk r].
Proof.
  unfold upsert_row. destruct (pk_exists pk (pk r) t).
  - apply update_where_map_pk. apply upd_pk.
  - now rewrite map_app.
Qed.

Lemma upsert_row_NoDup (r : Row) (t : list Row) :
  NoDup (map pk t) -> NoDup (map pk (upsert_row pk r (upd r) t)).
Proof.
  intros N. rewrite upsert_row_ids. destruct (pk_exists pk (pk r) t) eqn:E; [ exact N | ].
  apply NoDup_app; [ exact N | repeat constructor; intros [] | ].
  intros k Hk [ <- | [] ].
  apply pk_exists_map_id in Hk. congruence.
Qed.

Lemma upsert_all_cons (r : Row) (rs : list Row) (t : list Row) :
  upsert_all pk upd (r :: rs) t = upsert_all pk upd rs (upsert_row pk r (upd r) t).
Proof. reflexivity. Qed.

Lemma upsert_all_NoDup (rs : list Row) (t : list Row) :
  NoDup (map pk t) -> NoDup (map pk (upsert_all pk upd rs t)).
Proof.
  revert t. induction rs as [ | r rs IH ]; intros t N; [ exact N | ].
  rewrite upsert_all_cons. apply IH. now apply upsert_row_NoDup.
Qed.

Lemma upsert_row_keeps (k : UUID) (r : Row) (t : list Row) :
  pk_exists pk k t = true -> pk_exists pk k (upsert_row pk r (upd r) t) = true.
Proof.
  rewrite !pk_exists_map_id, upsert_row_ids.
  destruct (pk_exists pk (pk r) t); [ auto | ]. intros I. apply in_or_app. now left.
Qed.

(** An upsert whose row agrees with the stored one on the columns it does
    not write leaves exactly that row under its id. *)
Lemma upsert_row_In (r : Row) (t : list Row) (x : Row) :
  (forall old, In old t -> pk old = pk r -> upd r old = r) ->
  In x (upsert_row pk r (upd r) t) <-> (In x t /\ pk x <> pk r) \/ x = r.
Proof.
  intros Agree. unfold upsert_row. destruct (pk_exists pk (pk r) t) eqn:E.
  - unfold update_where. rewrite in_map_iff. split.
    + intros (old & <- & Hold). unfold has_pk.
      destruct (N.eqb_spec (pk old) (pk r)) as [ K | K ]; [ right | left ]; auto.
    + intros [ [Hx K] | -> ].
      * exists x. split; [ | exact Hx ]. unfold has_pk.
        destruct (N.eqb_spec (pk x) (pk r)); [ contradiction | reflexivity ].
      * apply pk_exists_true in E. destruct E as (old & Hold & K).
        exists old. split; [ | exact Hold ]. unfold has_pk.
        rewrite K, N.eqb_refl. now apply Agree.
  - rewrite in_app_iff. cbn. split.
    + intros [ Hx | [ <- | [] ] ]; [ left | now right ].
      split; [ exact Hx | ]. eapply (proj1 (pk_exists_false pk _ _)); eassumption.
    + intros [ [Hx _] | -> ]; auto.
Qed.

Lemma upsert_all_In (rs : list Row) (t : list Row) (x : Row) :
  NoDup (map pk rs) ->
  (forall r old, In r rs -> In old t -> pk old = pk r -> upd r old = r) ->
  In x (upsert_all pk upd rs t) <-> (In x t /\ ~ In (pk x) (map pk rs)) \/ In x rs.
Proof.
  revert t. induction rs as [ | r rs IH ]; intros t N Agree.
  - cbn. tauto.
  - rewrite upsert_all_cons. cbn [map In]. cbn in N.
    inversion N as [ | ? ? Nr Nrs ]; subst.
    assert (A1 : forall old, In old t -> pk old = pk r -> upd r old = r)
      by (intros old Ho K; apply Agree; auto; now left).
    rewrite IH; [ | exact Nrs | ].
    + rewrite (upsert_row_In r t x A1). split.
      * intros [ [ [ [Hx K] | -> ] Hn ] | Hx ]; auto.
        left. split; [ exact Hx | ]. intros [ E | I ]; [ congruence | contradiction ].
      * intros [ [Hx Hn] | [ <- | Hx ] ]; auto.
        left. split; [ | tauto ]. left. split; [ exact Hx | ]. intros E. apply Hn. now left.
    + intros r' old Hr' Hold K. apply (upsert_row_In r t old A1) in Hold.
      destruct Hold as [ [Hold _] | -> ].
      * apply Agree; auto. now right.
      * exfalso. apply Nr. rewrite K. now apply in_map.
Qed.

Lemma upsert_all_app (rs rs' : list Row) (t : list Row) :
  upsert_all pk upd (rs ++ rs') t = upsert_all pk upd rs' (upsert_all pk upd rs t).
Proof. apply fold_left_app. Qed.
End UpsertAll.

(** * Saving and loading sessions *)

Lemma save_sets_ok (ws : list Set_.t) (db : Database) :
  (forall w, In w ws ->
     pk_exists SessionExerciseRow.id (Set_.session_exercise_id w)
       (session_exercises (working db)) = true) ->
  exists db',
    save_each SessionRepository.save_set ws db = (db', Return tt)
    /\ working db' = with_sets (sets_after ws (sets (working db))) (working db).
Proof.
  revert db. induction ws as [ | w ws IH ]; intros db H.
  - exists db. split; [ reflexivity | ]. now destruct (working db).
  - cbn [save_each]. unfold SessionRepository.save_set. rewrite transaction_execute.
    unfold SessionRepository.upsert_set.
    cbn [SessionRepository.set_params SetRow.id SetRow.session_exercise_id].
    rewrite (H w) by now left. rewrite orb_true_r.
    match goal with |- context [ save_each _ ws ?d ] => destruct (IH d) as (db' & S & W) end.
    { intros w' Hw'. cbn. apply H. now right. }
    exists db'. split; [ exact S | ]. rewrite W. reflexivity.
Qed.

Lemma save_exercises_ok (sid : UUID) (exs : list SessionExercise.t) (db : Database) :
  pk_exists SessionRow.id sid (workout_sessions (working db)) = true ->
  (forall e, In e exs -> SessionExercise.session_id e = sid) ->
  (forall e w, In e exs -> In w (SessionExercise.sets e) ->
     Set_.session_exercise_id w = SessionExercise.id e) ->
  exists db',
    save_each save_exercise_and_sets exs db = (db', Return tt)
    /\ working db'
       = with_sets
           (sets_after (flat_map SessionExercise.sets exs) (sets (working db)))
           (with_session_exercises
              (exercises_after exs (session_exercises (working db)))
              (working db)).
Proof.
  revert db. induction exs as [ | e exs IH ]; intros db P O W.
  - exists db. split; [ reflexivity | ]. now destruct (working db).
  - cbn [save_each]. unfold save_exercise_and_sets at 1.
    unfold SessionRepository.save_exercise. rewrite transaction_execute.
    unfold SessionRepository.upsert_exercise.
    cbn [SessionRepository.exercise_params SessionExerciseRow.id
         SessionExerciseRow.session_id].
    rewrite (O e) by now left. rewrite P, orb_true_r.
    match goal with
    | |- context [ save_each SessionRepository.save_set _ ?d ] =>
        destruct (save_sets_ok (SessionExercise.sets e) d) as (db1 & S1 & W1)
    end.
    { intros w Hw. cbn [working session_exercises with_session_exercises].
      rewrite (W e w) by (auto; now left).
      apply (upsert_row_exists SessionExerciseRow.id
               (SessionRepository.exercise_params e)).
      reflexivity. }
    rewrite S1.
    destruct (IH db1) as (db' & S & W').
    { rewrite W1. cbn. exact P. }
    { intros e' He'. apply O. now right. }
    { intros e' w He' Hw. apply W; auto. now right. }
    exists db'. split; [ exact S | ]. rewrite W', W1.
    cbn [working sets session_exercises with_sets with_session_exercises
         sqlite_master schema_version workout_templates template_exercises
         workout_sessions app_state flat_map map].
    unfold sets_after, exercises_after. rewrite map_app, upsert_all_app. reflexivity.
Qed.

Lemma save_session_aggregate_ok (s : WorkoutSession.t) (db : Database) :
  SessionRepository.template_fk_ok (WorkoutSession.template_id s) (working db) = true ->
  (forall e, In e (WorkoutSession.exercises s) ->
     SessionExercise.session_id e = WorkoutSession.id s) ->
  (forall e w, In e (WorkoutSession.exercises s) -> In w (SessionExercise.sets e) ->
     Set_.session_exercise_id w = SessionExercise.id e) ->
  exists db',
    save_session_aggregate s db = (db', Return tt)
    /\ working db' = saved_session_store s (working db).
Proof.
  intros FK O W. unfold save_session_aggregate, SessionRepository.save.
  rewrite transaction_execute. unfold SessionRepository.upsert_session.
  cbn [SessionRepository.session_params SessionRow.template_id]. rewrite FK.
  match goal with
  | |- context [ save_each save_exercise_and_sets _ ?d ] =>
      destruct (save_exercises_ok (WorkoutSession.id s) (WorkoutSession.exercises s) d)
        as (db' & S & W')
  end; auto.
  { cbn [working workout_sessions with_workout_sessions].
    apply (upsert_row_exists SessionRow.id (SessionRepository.session_params s)).
    reflexivity. }
  exists db'. split; [ exact S | ]. rewrite W'. reflexivity.
Qed.

Lemma StronglySorted_map {A B : Type} (key : A -> Z) (key' : B -> Z) (f : A -> B)
  (l : list A) :
  (forall x, key' (f x) = key x) ->
  StronglySorted (fun a b => key a < key b) l ->
  StronglySorted (fun a b => key' a < key' b) (map f l).
Proof.
  intros K. induction 1 as [ | x l S IH F ]; cbn; constructor; [ exact IH | ].
  rewrite Forall_map. eapply Forall_impl; [ | exact F ]. cbn. intros y. now rewrite !K.
Qed.

Lemma NoDup_flat_map_component {A B C : Type} (f : B -> C) (g : A -> list B)
  (l : list A) (e : A) :
  NoDup (map f (flat_map g l)) -> In e l -> NoDup (map f (g e)).
Proof.
  induction l as [ | a l IH ]; cbn; [ contradiction | ].
  rewrite map_app. intros N [ -> | He ].
  - eapply NoDup_app_remove_r. exact N.
  - apply IH; [ | exact He ]. eapply NoDup_app_remove_l. exact N.
Qed.

Section SavedSession.
Variables (st : Store) (s : WorkoutSession.t).
Hypothesis C : session_constructed st s.


Lemma saved_exercise_rows :
  SessionRepository.select_exercises (WorkoutSession.id s) (saved_session_store s st)
  = map SessionRepository.exercise_params (WorkoutSession.exercises s).
Proof.
  destruct C as [c_tpl c_start c_epk c_eids c_eowner c_eorder c_eglobal c_eall
                 c_spk c_sids c_sowner c_sorder c_sglobal c_sall]. unfold SessionRepository.select_exercises.
  apply order_by_strictly_sorted.
  2:{ apply (StronglySorted_map SessionExercise.order_index); [ reflexivity | assumption ]. }
  cbn [session_exercises saved_session_store with_sets with_session_exercises].
  assert (Ids : map SessionExerciseRow.id (map SessionRepository.exercise_params (WorkoutSession.exercises s))
                = map SessionExercise.id (WorkoutSession.exercises s)) by (rewrite map_map; reflexivity).
  apply NoDup_Permutation.
  - apply NoDup_filter. eapply NoDup_map_inv.
    apply upsert_all_NoDup; [ reflexivity | assumption ].
  - eapply NoDup_map_inv. rewrite Ids. assumption.
  - intros x. rewrite filter_In. unfold exercises_after.
    assert (U := upsert_all_In SessionExerciseRow.id SessionRepository.update_exercise
                   (map SessionRepository.exercise_params (WorkoutSession.exercises s)) (session_exercises st) x).
    rewrite Ids in U. rewrite U; clear U.
    + rewrite N.eqb_eq. split.
      * intros [ [ [Hx Hn] | Hx ] K ]; [ | exact Hx ].
        exfalso. apply Hn. now apply c_eall.
      * intros Hx. split; [ now right | ].
        apply in_map_iff in Hx. destruct Hx as (e & <- & He). cbn.
        now apply c_eowner.
    + assumption.
    + intros r old Hr Hold K. apply in_map_iff in Hr. destruct Hr as (e & <- & He).
      cbn in K. unfold SessionRepository.update_exercise, SessionRepository.exercise_params.
      cbn. rewrite K. f_equal.
      rewrite (c_eowner e He). apply c_eglobal; [ exact Hold | ].
      rewrite K. now apply in_map.
Qed.

Lemma saved_set_rows (e : SessionExercise.t) :
  In e (WorkoutSession.exercises s) ->
  SessionRepository.select_sets (SessionExercise.id e) (saved_session_store s st)
  = map SessionRepository.set_params (SessionExercise.sets e).
Proof.
  intros He. destruct C as [c_tpl c_start c_epk c_eids c_eowner c_eorder c_eglobal c_eall
                 c_spk c_sids c_sowner c_sorder c_sglobal c_sall]. unfold SessionRepository.select_sets.
  apply order_by_strictly_sorted.
  2:{ apply (StronglySorted_map Set_.created_at); [ reflexivity | auto ]. }
  cbn [sets saved_session_store with_sets].
  assert (Ids : forall ws, map SetRow.id (map SessionRepository.set_params ws)
                           = map Set_.id ws) by (intros; rewrite map_map; reflexivity).
  assert (Ne : NoDup (map Set_.id (SessionExercise.sets e)))
    by (eapply NoDup_flat_map_component; eassumption).
  apply NoDup_Permutation.
  - apply NoDup_filter. eapply NoDup_map_inv.
    apply upsert_all_NoDup; [ reflexivity | assumption ].
  - eapply NoDup_map_inv. rewrite Ids. exact Ne.
  - intros x. rewrite filter_In. unfold sets_after.
    assert (U := upsert_all_In SetRow.id SessionRepository.update_set
                   (map SessionRepository.set_params (all_sets s)) (sets st) x).
    rewrite Ids in U. rewrite U; clear U.
    + rewrite N.eqb_eq. split.
      * intros [ [ [Hx Hn] | Hx ] K ].
        -- exfalso. apply Hn. unfold all_sets. rewrite flat_map_concat_map, concat_map.
           apply in_concat. exists (map Set_.id (SessionExercise.sets e)).
           split; [ | now apply (c_sall x e) ].
           apply in_map, in_map. exact He.
        -- apply in_map_iff in Hx. destruct Hx as (w & <- & Hw).
           unfold all_sets in Hw. apply in_flat_map in Hw. destruct Hw as (e' & He' & Hw).
           cbn in K. rewrite (c_sowner e' w He' Hw) in K.
           assert (e' = e) as -> .
           { clear - c_eids He He' K.
             induction (WorkoutSession.exercises s) as [ | a l IH ]; [ contradiction | ].
             cbn in c_eids. inversion c_eids as [ | ? ? Na Nl ]; subst.
             destruct He as [ -> | He ], He' as [ -> | He' ]; auto.
             - exfalso. apply Na. rewrite <- K. now apply in_map.
             - exfalso. apply Na. rewrite K. now apply in_map. }
           now apply in_map.
      * intros Hx. apply in_map_iff in Hx. destruct Hx as (w & <- & Hw). split.
        -- right. apply in_map. unfold all_sets. apply in_flat_map. now exists e.
        -- cbn. now apply c_sowner.
    + assumption.
    + intros r old Hr Hold K. apply in_map_iff in Hr. destruct Hr as (w & <- & Hw).
      cbn in K. destruct (c_sglobal old w Hold Hw K) as [E1 E2].
      unfold SessionRepository.update_set, SessionRepository.set_params. cbn.
      now rewrite K, E1, E2.
Qed.

Lemma saved_session_row :
  fetchone (filter (has_pk SessionRow.id (WorkoutSession.id s)) (workout_sessions (saved_session_store s st)))
  = Some (SessionRepository.session_params s).
Proof.
  destruct C as [c_tpl c_start c_epk c_eids c_eowner c_eorder c_eglobal c_eall
                 c_spk c_sids c_sowner c_sorder c_sglobal c_sall].
  cbn [workout_sessions saved_session_store with_sets with_session_exercises
       with_workout_sessions].
  rewrite (fetchone_upsert SessionRow.id (SessionRepository.session_params s))
    by reflexivity.
  destruct (fetchone _) as [ old | ] eqn:F; [ | reflexivity ].
  apply fetchone_filter_Some in F. destruct F as [I K].
  unfold has_pk in K. apply N.eqb_eq in K. cbn in K.
  unfold SessionRepository.update_session, SessionRepository.session_params. cbn.
  now rewrite K, (c_start old I K).
Qed.

Lemma saved_session_loads (db' : Database) :
  working db' = saved_session_store s st ->
  SessionRepository.get_by_id (WorkoutSession.id s) db' = Some s.
Proof.
  intros W. unfold SessionRepository.get_by_id, cursor. rewrite W, saved_session_row.
  cbn [SessionRepository._row_to_session SessionRepository.session_params
       SessionRow.id WorkoutSession.id].
  unfold SessionRepository._load_exercises. rewrite saved_exercise_rows.
  rewrite map_map.
  rewrite (map_ext_in _ (fun e => e)).
  - rewrite map_id. unfold SessionRepository.with_exercises. cbn. now destruct s.
  - intros e He.
    cbn [SessionRepository.exercise_params SessionExerciseRow.id
         SessionExerciseRow.session_id SessionExerciseRow.name
         SessionExerciseRow.order_index SessionExerciseRow.uses_weight].
    rewrite (saved_set_rows e He), map_map, bool_of_int_of_bool.
    rewrite (map_ext _ (fun w => w)) by (now intros []).
    rewrite map_id. now destruct e.
Qed.
End SavedSession.


(** * The round trip *)


(** * The persisted timer snapshot *)

Section Snapshot.
Variable json_loads : string -> option JSON.
Variable fromisoformat : string -> option DateTime.

(** The two parse errors the [except] clause names do fall back to "no
    saved state": text that is not JSON, and an object that lacks a field. *)
Lemma get_timer_state_fallback (db : Database) (value : string) :
  AppStateRepository.get "timer_state" db = Some value ->
  (json_loads value = None
   \/ exists e, AppStateRepository.decode_timer_state json_loads fromisoformat value
                = Raise (KeyError e)) ->
  AppStateRepository.get_timer_state json_loads fromisoformat db = Return None.
Proof.
  intros G H. unfold AppStateRepository.get_timer_state. rewrite G.
  destruct H as [ H | [e H] ].
  - unfold AppStateRepository.decode_timer_state. now rewrite H.
  - now rewrite H.
Qed.

(** C9.  The parse fallback of [get_timer_state] does not cover every text
    that is not a valid snapshot.  When the stored text is JSON but not an
    object, [get_timer_state] raises [TypeError]; when it is an object whose
    [start_time] is a string that is not an ISO timestamp, it raises
    [ValueError].  Neither is caught by
    [except (json.JSONDecodeError, KeyError)]. *)
Theorem get_timer_state_uncaught (db : Database) (value : string) (data : JSON) :
  AppStateRepository.get "timer_state" db = Some value ->
  json_loads value = Some data ->
  (* the text is JSON but not an object *)
  ((forall members, data <> JObject members) ->
   AppStateRepository.get_timer_state json_loads fromisoformat db = Raise TypeError)
  /\
  (* the text is an object whose start_time is not an ISO timestamp *)
  (forall is_running is_paused text,
     getitem data "is_running" = Return is_running ->
     getitem data "is_paused" = Return is_paused ->
     getitem data "start_time" = Return (JString text) ->
     text <> EmptyString ->
     fromisoformat text = None ->
     AppStateRepository.get_timer_state json_loads fromisoformat db = Raise ValueError).
Proof.
  intros G L. unfold AppStateRepository.get_timer_state. rewrite G.
  unfold AppStateRepository.decode_timer_state. rewrite L. split.
  - intros N. destruct data; try reflexivity. now destruct (N members).
  - intros is_running is_paused text R P S T F. rewrite R, P, S.
    unfold outcome_bind, AppStateRepository.parse_time, truthy.
    destruct (String.eqb_spec text EmptyString); [ contradiction | ]. cbn. now rewrite F.
Qed.
End Snapshot.

(** * The theorems on the sample data *)

(** Evaluate a concrete table and go through its rows. *)
Ltac each_row H :=
  vm_compute in H;
  repeat (destruct H as [ <- | H ]; [ | ]); try contradiction.

Ltac by_cases :=
  repeat first
    [ match goal with
      | H : _ \/ _ |- _ => destruct H
      | H : False |- _ => destruct H
      end
    | progress subst
    | progress cbn in *
    | progress unfold bench_sets in * ];
  try discriminate; try reflexivity; try lia; auto.

Lemma full_body_constructed : template_constructed (working initialized_db) full_body.
Proof.
  constructor.
  - cbn. repeat constructor; cbn; intuition discriminate.
  - intros e H. by_cases.
  - cbn. repeat constructor; cbn; lia.
  - intros row H I. each_row H; by_cases.
  - intros row H I. each_row H; by_cases.
Qed.

Lemma bench_session_constructed :
  session_constructed (working (fst (TemplateRepository.save full_body initialized_db)))
    bench_session.
Proof.
  constructor.
  - reflexivity.
  - intros row H I. each_row H; by_cases.
  - vm_compute. constructor.
  - cbn. repeat constructor; cbn; intuition discriminate.
  - intros e H. by_cases.
  - cbn. repeat constructor; cbn; lia.
  - intros row H I. each_row H; by_cases.
  - intros row H I. each_row H; by_cases.
  - vm_compute. constructor.
  - cbn. repeat constructor; cbn; intuition discriminate.
  - intros e w H I. by_cases.
  - intros e H. destruct H as [ <- | [] ]. cbn. repeat constructor; cbn; lia.
  - intros row w H I. each_row H; by_cases.
  - intros row e H I. each_row H; by_cases.
Qed.



Lemma initialized_db_clean : clean initialized_db.
Proof. vm_compute. reflexivity. Qed.

(** The second INSERT of the same template fails on the PRIMARY KEY, and the
    first is undone with it. *)
Lemma transaction_atomicity_witness :
  exists db',
    transaction
      (for_each [Statement (insert_template sample_template_row);
                 Statement (insert_template sample_template_row)] step)
      initialized_db
    = (db', Raise (Sqlite3Error
                     (IntegrityError "UNIQUE constraint failed: workout_templates.id")))
    /\ working db' = working initialized_db
    /\ committed db' = committed initialized_db
    /\ commits db' = commits initialized_db
    /\ rollbacks db' = S (rollbacks initialized_db)
    /\ in_transaction db' = false.
Proof.
  assert (H := transaction_atomicity
                 [Statement (insert_template sample_template_row);
                  Statement (insert_template sample_template_row)]
                 initialized_db initialized_db_clean).
  destruct (run_steps _ (working initialized_db)) as [st [e | ]] eqn:E;
    vm_compute in E; [ | discriminate E ].
  injection E as _ <-. exact (H eq_refl).
Defined.

(** C4 as the specification states it fails in three ways.  A scope that
    creates tables keeps what it has created when a later statement raises:
    on a file that holds an index named [sets], [migration_001_initial_schema]
    raises at its fifth statement, and the four tables of the statements
    before it are in the file.  A scope whose body raises
    [KeyboardInterrupt] is not rolled back: the row that the body has
    inserted is still there.  And on the connection that such a scope has
    left with that row pending, the rollback of the next scope that fails
    undoes the row as well, so the store is not what it was when that scope
    was entered. *)
Lemma transaction_atomicity_counterexample :
  (let db := connect foreign_store in
   clean db
   /\ snd (migration_001_initial_schema db)
      = Raise (Sqlite3Error (OperationalError "there is already an index named sets"))
   /\ committed (fst (migration_001_initial_schema db)) <> committed db
   /\ sqlite_master (committed (fst (migration_001_initial_schema db)))
      = sqlite_master foreign_store
        ++ [ ("table", "workout_templates"); ("table", "template_exercises");
             ("table", "workout_sessions"); ("table", "session_exercises") ]%string)
  /\ (let steps :=
        [Statement (insert_template sample_template_row); Raises KeyboardInterrupt] in
      clean initialized_db
      /\ snd (transaction (for_each steps step) initialized_db) = Raise KeyboardInterrupt
      /\ working (fst (transaction (for_each steps step) initialized_db))
         <> working initialized_db
      /\ In sample_template_row
           (workout_templates
              (working (fst (transaction (for_each steps step) initialized_db)))))
  /\ (let interrupted :=
        fst (transaction
               (for_each [Statement (insert_template sample_template_row);
                          Raises KeyboardInterrupt] step)
               initialized_db) in
      let again := [Statement (insert_template sample_template_row)] in
      snd (transaction (for_each again step) interrupted)
      = Raise (Sqlite3Error
                 (IntegrityError "UNIQUE constraint failed: workout_templates.id"))
      /\ working (fst (transaction (for_each again step) interrupted))
         <> working interrupted).
Proof.
  split; [ | split ]; cbv zeta.
  - split; [ reflexivity | ]. split; [ vm_compute; reflexivity | ].
    split; [ | vm_compute; reflexivity ].
    intros H. apply (f_equal sqlite_master) in H. vm_compute in H. discriminate H.
  - split; [ exact initialized_db_clean | ]. split; [ vm_compute; reflexivity | ].
    split.
    + intros H. apply (f_equal (fun st => List.length (workout_templates st))) in H.
      vm_compute in H. discriminate H.
    + vm_compute. do 3 right. left. reflexivity.
  - split; [ vm_compute; reflexivity | ].
    intros H. apply (f_equal (fun st => List.length (workout_templates st))) in H.
    vm_compute in H. discriminate H.
Qed.

Lemma apply_migrations_idempotent_witness :
  exists db2,
    apply_migrations sample_env initialized_db = (db2, [], Return tt)
    /\ working db2 = working initialized_db
    /\ committed db2 = committed initialized_db
    /\ schema_version (working db2) = schema_version (working initialized_db)
    /\ sqlite_master (working db2) = sqlite_master (working initialized_db).
Proof.
  apply (apply_migrations_idempotent sample_env sample_env (connect empty_store)
           initialized_db
           [Applying 1 "initial_schema"; AppliedSuccessfully 1;
            Applying 2 "seed_templates"; AppliedSuccessfully 2]).
  vm_compute. reflexivity.
Defined.

Lemma template_save_replaces_children_witness :
  exists db' reloaded,
    TemplateRepository.save
      (template_with_exercises (drop_nth 1 (WorkoutTemplate.exercises full_body)) full_body)
      sample_db = (db', Return tt)
    /\ TemplateRepository.get_by_id 2 db' = Some (template_with_exercises reloaded full_body)
    /\ ~ In 11%N (map TemplateExerciseRow.id (template_exercises (working db')))
    /\ ~ In 11%N (map TemplateExercise.id reloaded)
    /\ Permutation reloaded (drop_nth 1 (WorkoutTemplate.exercises full_body))
    /\ forall e, In e (drop_nth 1 (WorkoutTemplate.exercises full_body)) ->
         count_occ UUID_eq_dec
           (map TemplateExerciseRow.id (template_exercises (working db')))
           (TemplateExercise.id e) = 1%nat
         /\ count_occ UUID_eq_dec (map TemplateExercise.id reloaded)
              (TemplateExercise.id e) = 1%nat.
Proof.
  apply (template_save_replaces_children sample_db 2 full_body 1
           (TemplateExercise.mk 11 2 "Bench Press" 1 true)).
  - vm_compute. repeat constructor; cbn; intuition discriminate.
  - vm_compute. reflexivity.
  - reflexivity.
Defined.



Lemma get_timer_state_uncaught_witness :
  AppStateRepository.get_timer_state sample_json_loads sample_fromisoformat
    (fst (AppStateRepository.set "timer_state" "null" initialized_db))
  = Raise TypeError
  /\ AppStateRepository.get_timer_state sample_json_loads sample_fromisoformat
       (fst (AppStateRepository.set "timer_state" bad_snapshot initialized_db))
     = Raise ValueError.
Proof.
  split.
  - apply (proj1 (get_timer_state_uncaught sample_json_loads sample_fromisoformat
                    (fst (AppStateRepository.set "timer_state" "null" initialized_db))
                    "null" JNull eq_refl eq_refl)).
    intros members. discriminate.
  - apply (proj2 (get_timer_state_uncaught sample_json_loads sample_fromisoformat
                    (fst (AppStateRepository.set "timer_state" bad_snapshot initialized_db))
                    bad_snapshot
                    (JObject [ ("is_running"%string, JBool true);
                               ("is_paused"%string, JBool false);
                               ("start_time"%string, JString "yesterday");
                               ("pause_time"%string, JNull);
                               ("accumulated_seconds"%string, JNumber (0 # 1)) ])
                    eq_refl eq_refl)
             (JBool true) (JBool false) "yesterday"%string);
      try reflexivity.
    discriminate.
Defined.

(** * The scenarios of the specification, run on the model *)

(** Sets with weights 135, 155, 175 saved in that order for "Squats". *)
Example last_weight_squats :
  SessionRepository.get_last_weight_for_exercise "Squats"
    (fst (save_session_aggregate squat_session sample_db))
  = Some (175 # 1).
Proof. vm_compute. reflexivity. Qed.

(** A name that differs in case is another exercise. *)
Example last_weight_exact_name :
  SessionRepository.get_last_weight_for_exercise "squats"
    (fst (save_session_aggregate squat_session sample_db))
  = None.
Proof. vm_compute. reflexivity. Qed.

(** The session with two sets, reloaded, then ended after 5400 seconds. *)
Example end_session_scenario :
  let ended := fst (SessionRepository.end_session 9000 3 5400 sample_db) in
  SessionRepository.get_by_id 3 sample_db = Some bench_session
  /\ option_map (fun s => (WorkoutSession.ended_at s, WorkoutSession.duration_seconds s,
                           WorkoutSession.is_active s, WorkoutSession.exercises s))
       (SessionRepository.get_by_id 3 ended)
     = Some (Some 9000, Some 5400, false, WorkoutSession.exercises bench_session).
Proof. vm_compute. split; reflexivity. Qed.


(** A session whose template has been deleted in the meantime cannot be
    saved with the reference to it: the FOREIGN KEY fails and nothing is
    written. *)
Example save_session_of_deleted_template :
  let db := fst (TemplateRepository.delete 2 sample_db) in
  let session := WorkoutSession.mk 5 (Some 2%N) (Some "Full Body"%string) 6600 None None None [] in
  snd (SessionRepository.save session db) = Raise (Sqlite3Error fk_failed)
  /\ working (fst (SessionRepository.save session db)) = working db.
Proof. vm_compute. split; reflexivity. Qed.

(** * The timer as a state machine *)

Lemma py_int_le (x y : Q) : (x <= y)%Q -> py_int x <= py_int y.
Proof.
  unfold Qle, py_int. destruct x as [n1 d1], y as [n2 d2]. cbn. intros H.
  rewrite <- (Z.quot_mul_cancel_r n1 (Z.pos d1) (Z.pos d2)) by lia.
  rewrite <- (Z.quot_mul_cancel_r n2 (Z.pos d2) (Z.pos d1)) by lia.
  rewrite (Z.mul_comm (Z.pos d2) (Z.pos d1)).
  apply Z.quot_le_mono; lia.
Qed.

Lemma run_app (l l' : list (DateTime * Call)) (self : Timer) :
  run (l ++ l') self = run l' (run l self).
Proof. apply fold_left_app. Qed.

Lemma call_well_formed (c : DateTime * Call) (self : Timer) :
  well_formed (_state self) -> well_formed (_state (call c self)).
Proof.
  destruct c as [t []], self as [[r p st pt a] n]; unfold well_formed, call, phase; cbn;
    destruct r, p; cbn; intros W; try exact W; try reflexivity;
    repeat split; try discriminate; eauto; try tauto.
  all: try (destruct W as (? & ? & ?); eauto).
Qed.

Lemma run_well_formed (calls : list (DateTime * Call)) (self : Timer) :
  well_formed (_state self) -> well_formed (_state (run calls self)).
Proof.
  revert self. induction calls as [|c calls IH]; intros self W; [exact W|].
  apply IH, call_well_formed, W.
Qed.

(** X2.  Every state that a new [Timer] reaches by calls of
    [start], [pause], [resume] and [stop] is well formed: a stopped state is
    [TimerState.initial()]; a running state has a [start_time], no
    [pause_time] and [is_paused] false; a paused state has a [start_time]
    and a [pause_time]. *)
Theorem timer_states_well_formed (calls : list (DateTime * Call)) :
  well_formed (_state (run calls Timer_init)).
Proof. apply run_well_formed. reflexivity. Qed.

(** X1.  The timer is the state machine Stopped -start-> Running
    -pause-> Paused -resume-> Running, with [stop()] leading to Stopped from
    every phase.  For a timer reached from a new [Timer] by any calls: the
    phase after one more call is the one the machine gives; a [start()],
    [pause()] or [resume()] that is no edge of the machine leaves the timer
    as it is and notifies nobody; every edge, and every [stop()], passes the
    new state to [on_state_change] exactly once. *)
Theorem timer_state_machine (calls : list (DateTime * Call)) (c : DateTime * Call) :
  let self := run calls Timer_init in
  phase (_state (call c self)) = next_phase (phase (_state self)) (snd c)
  /\ (snd c <> CallStop ->
      next_phase (phase (_state self)) (snd c) = phase (_state self) ->
      call c self = self)
  /\ (snd c = CallStop \/ next_phase (phase (_state self)) (snd c) <> phase (_state self) ->
      notified (call c self) = notified self ++ [_state (call c self)]).
Proof.
  intros self. assert (W : well_formed (_state self)) by (apply run_well_formed; reflexivity).
  destruct c as [t k], self as [[r p st pt a] n].
  unfold well_formed, phase in W. unfold call, phase.
  destruct k, r, p; cbn in *; repeat split; intros; try reflexivity; try congruence;
    try tauto; try (destruct W; discriminate); try discriminate W;
    try (match goal with H : _ \/ _ |- _ => destruct H; congruence end).
Qed.

Lemma last_snoc {A : Type} (l : list A) (x d : A) : last (l ++ [x]) d = x.
Proof. induction l as [|y [|z l] IH]; cbn in *; auto. Qed.

Lemma call_last_snapshot (c : DateTime * Call) (self : Timer) :
  _state self = last (notified self) TimerState_initial ->
  _state (call c self) = last (notified (call c self)) TimerState_initial.
Proof.
  destruct c as [t k], self as [[r p st pt a] n]; unfold call; cbn.
  destruct k, r, p; cbn; intros E; try exact E; rewrite last_snoc; reflexivity.
Qed.

Lemma run_last_snapshot (calls : list (DateTime * Call)) (self : Timer) :
  _state self = last (notified self) TimerState_initial ->
  _state (run calls self) = last (notified (run calls self)) TimerState_initial.
Proof.
  revert self. induction calls as [|c calls IH]; intros self E; [exact E|].
  apply IH, call_last_snapshot, E.
Qed.

(** X5.  A new [Timer] that is restored from the last state passed
    to [on_state_change] ([TimerState.initial()] when none was passed) has
    the state of the timer that sent it, so it shows the same
    [elapsed_seconds] and [formatted_time] at every moment; [restore()]
    itself notifies nobody. *)
Theorem last_snapshot_restores_timer (calls : list (DateTime * Call)) (now : DateTime) :
  let self := run calls Timer_init in
  let restored := restore (last (notified self) TimerState_initial) Timer_init in
  _state restored = _state self
  /\ elapsed_seconds now restored = elapsed_seconds now self
  /\ formatted_time now restored = formatted_time now self
  /\ notified restored = [].
Proof.
  intros self restored.
  assert (E : _state restored = _state self).
  { unfold restored, restore. cbn. symmetry. apply run_last_snapshot. reflexivity. }
  unfold formatted_time, elapsed_seconds. cbn in *. rewrite E. auto.
Qed.

Lemma segments_not_nil (segment_start : DateTime) (cycles : list (DateTime * DateTime))
  (now : DateTime) : segments segment_start cycles now <> [].
Proof. destruct cycles; discriminate. Qed.

(** Two running timers with the same time banked and the same segments
    ahead of them read the same. *)
Lemma pause_resume_segments (cycles cycles' : list (DateTime * DateTime))
  (segment_start segment_start' : DateTime) (banked : Q)
  (pause_time pause_time' : option DateTime) (n n' : list TimerState) (now now' : DateTime) :
  segments segment_start cycles now = segments segment_start' cycles' now' ->
  let self := mkTimer (mkTimerState true false (Some segment_start) pause_time banked) n in
  let self' :=
    mkTimer (mkTimerState true false (Some segment_start') pause_time' banked) n' in
  phase (_state (pause_resume cycles self)) = Running
  /\ phase (_state (pause_resume cycles' self')) = Running
  /\ _calculate_elapsed now (pause_resume cycles self)
     = _calculate_elapsed now' (pause_resume cycles' self').
Proof.
  revert cycles' segment_start segment_start' banked pause_time pause_time' n n'.
  induction cycles as [|[p r] cycles IH]; intros [|[p' r'] cycles'] s s' banked pt pt' n n' E;
    cbn [segments fst snd] in E.
  - injection E as E. cbn. unfold Timer_calculate_elapsed. cbn. rewrite E. auto.
  - injection E as _ E. symmetry in E. destruct (segments_not_nil _ _ _ E).
  - injection E as _ E. destruct (segments_not_nil _ _ _ E).
  - injection E as E1 E2. cbn [pause_resume fst snd].
    unfold pause, resume, _notify_state_change. cbn. unfold Timer_calculate_elapsed. cbn.
    rewrite E1. apply IH. exact E2.
Qed.

(** X3.  The time between a [pause()] and the [resume()] that
    follows it is never counted.  Two timers, each started from the stopped
    state and taken through rounds of [pause()] and [resume()], that have
    run in segments of the same lengths read the same, whenever they were
    started and however long their pauses lasted: the same
    [elapsed_seconds] and [formatted_time], the same value at every later
    time once they are paused, and the same result of [stop()]. *)
Theorem pauses_are_not_counted (t0 t0' : DateTime) (timer timer' : Timer)
  (cycles cycles' : list (DateTime * DateTime)) (now now' : DateTime) :
  timer_is_stopped timer = true ->
  timer_is_stopped timer' = true ->
  segments t0 cycles now = segments t0' cycles' now' ->
  let running := pause_resume cycles (start t0 timer) in
  let running' := pause_resume cycles' (start t0' timer') in
  elapsed_seconds now running = elapsed_seconds now' running'
  /\ formatted_time now running = formatted_time now' running'
  /\ (forall later later',
        elapsed_seconds later (pause now running)
        = elapsed_seconds later' (pause now' running'))
  /\ fst (stop now running) = fst (stop now' running').
Proof.
  intros S S' E running running'.
  destruct timer as [[r p st pt a] n], timer' as [[r' p' st' pt' a'] n'].
  cbn in S, S'. destruct r; [discriminate|]. destruct r'; [discriminate|].
  unfold running, running', start, _notify_state_change. cbn.
  set (m := n ++ _). set (m' := n' ++ _).
  destruct (pause_resume_segments cycles cycles' t0 t0' (0 # 1) None None m m' now now' E)
    as (Ph & Ph' & C).
  cbn in Ph, Ph', C.
  assert (X : elapsed_seconds now
                (pause_resume cycles (mkTimer (mkTimerState true false (Some t0) None (0 # 1)) m))
              = elapsed_seconds now'
                  (pause_resume cycles'
                     (mkTimer (mkTimerState true false (Some t0') None (0 # 1)) m'))).
  { unfold elapsed_seconds. cbn. rewrite C. reflexivity. }
  split; [exact X|]. split; [unfold formatted_time; rewrite X; reflexivity|].
  split; [|exact X].
  intros later later'. unfold elapsed_seconds, pause. cbn.
  unfold phase in Ph, Ph'. cbn in Ph, Ph'.
  destruct (is_running (timer_state (pause_resume cycles _))); [|discriminate].
  destruct (is_paused (timer_state (pause_resume cycles _))); [discriminate|].
  destruct (is_running (timer_state (pause_resume cycles' _))); [|discriminate].
  destruct (is_paused (timer_state (pause_resume cycles' _))); [discriminate|].
  cbn. rewrite C. reflexivity.
Qed.

Lemma total_seconds_nonneg (d : Z) : 0 <= d -> (0 <= total_seconds d)%Q.
Proof. unfold total_seconds, Qle. cbn. lia. Qed.

Lemma last_cons {A : Type} (l : list A) (x d : A) : last (x :: l) d = last l x.
Proof.
  revert x d. induction l as [|y l IH]; intros x d; [reflexivity|].
  change (last (x :: y :: l) d) with (last (y :: l) d). rewrite (IH y d), (IH y x). reflexivity.
Qed.

Lemma call_clock_bounded (t : DateTime) (c : DateTime * Call) (self : Timer) :
  clock_bounded t (_state self) -> t <= fst c ->
  clock_bounded (fst c) (_state (call c self)).
Proof.
  destruct c as [t' k], self as [[r p st pt a] n]; unfold call, clock_bounded, phase; cbn.
  intros [A S] L.
  destruct k, r, p; cbn in *; (split; [ try exact A; try apply Qle_refl | ]);
    try (intros st' ? E; try discriminate; try (injection E as <-); try lia;
         try (specialize (S _ eq_refl E); lia)).
  destruct st as [st|]; [|exact A].
  rewrite <- (Qplus_0_r 0). apply Qplus_le_compat; [exact A|].
  apply total_seconds_nonneg. specialize (S st eq_refl eq_refl). lia.
Qed.

Lemma run_clock_bounded (calls : list (DateTime * Call)) (t now : DateTime) (self : Timer) :
  clock_bounded t (_state self) ->
  StronglySorted Z.le (t :: map fst calls ++ [now]) ->
  clock_bounded now (_state (run calls self)).
Proof.
  revert t self. induction calls as [|c calls IH]; intros t self B S;
    inversion S as [|? ? S' F]; subst; inversion F as [|? ? L _]; subst.
  - destruct B as [A B]. split; [exact A|]. intros st P E. specialize (B st P E). lia.
  - exact (IH (fst c) (call c self) (call_clock_bounded t c self B L) S').
Qed.

Lemma elapsed_at_clock (now later : DateTime) (self : Timer) :
  clock_bounded now (_state self) -> now <= later ->
  0 <= elapsed_seconds now self /\ elapsed_seconds now self <= elapsed_seconds later self.
Proof.
  destruct self as [[r p st pt a] n]. unfold clock_bounded, elapsed_seconds, phase. cbn.
  intros [A B] L. unfold Timer_calculate_elapsed. cbn.
  assert (Z0 : 0 <= py_int a) by (change 0 with (py_int 0); apply py_int_le, A).
  destruct r; cbn; [|lia]. destruct p; cbn; [lia|]. destruct st as [st|]; [|lia].
  specialize (B st eq_refl eq_refl). split.
  - change 0 with (py_int 0). apply py_int_le.
    rewrite <- (Qplus_0_r 0). apply Qplus_le_compat; [exact A|].
    apply total_seconds_nonneg. lia.
  - apply py_int_le, Qplus_le_compat; [apply Qle_refl|].
    unfold total_seconds, Qle. cbn. lia.
Qed.

(** X4.  When the clock does not run backwards between the calls,
    [elapsed_seconds] of a timer driven from a new [Timer] is never negative
    and never decreases as time goes on. *)
Theorem elapsed_never_negative (calls : list (DateTime * Call)) (now later : DateTime) :
  StronglySorted Z.le (map fst calls ++ [now]) ->
  now <= later ->
  0 <= elapsed_seconds now (run calls Timer_init)
  /\ elapsed_seconds now (run calls Timer_init) <= elapsed_seconds later (run calls Timer_init).
Proof.
  intros S L. apply elapsed_at_clock; [|exact L].
  destruct calls as [|c calls].
  - split; [apply Qle_refl|]. discriminate.
  - cbn [run fold_left]. apply (run_clock_bounded calls (fst c)); [|exact S].
    apply (call_clock_bounded (fst c)); [|lia].
    split; [apply Qle_refl|]. discriminate.
Qed.

(** * Texts of durations *)

Lemma no_colon_app (s s' : string) : no_colon s -> no_colon s' -> no_colon (s ++ s').
Proof. induction s; cbn; tauto. Qed.

Lemma split_at_colon (a b x y : string) :
  no_colon a -> no_colon b ->
  (a ++ String ":" x = b ++ String ":" y)%string -> a = b /\ x = y.
Proof.
  revert b. induction a as [|c a IH]; intros [|c' b]; cbn; intros Na Nb E.
  - injection E as ->. auto.
  - injection E as <- _. tauto.
  - injection E as -> _. tauto.
  - injection E as -> E. destruct (IH b) as [-> ->]; tauto.
Qed.

Lemma colon_not_in (a x s : string) :
  no_colon s -> (a ++ String ":" x)%string <> s.
Proof.
  revert s. induction a as [|c a IH]; intros [|c' s]; cbn; intros N E; try discriminate.
  - injection E as <- _. tauto.
  - injection E as _ E. apply (IH s); tauto.
Qed.

Lemma string_of_uint_no_colon (d : Decimal.uint) : no_colon (NilEmpty.string_of_uint d).
Proof. induction d; cbn; auto; split; auto; discriminate. Qed.

Lemma format_d_no_colon (n : Z) : no_colon (format_d n).
Proof.
  unfold format_d, NilZero.string_of_int, NilZero.string_of_uint.
  destruct (Z.to_int n) as [d|d]; destruct d; cbn; repeat split; try discriminate;
    apply string_of_uint_no_colon.
Qed.

Lemma format_02d_no_colon (n : Z) : no_colon (format_02d n).
Proof.
  unfold format_02d. destruct (_ <? _)%nat; cbn; [split; [discriminate|]|];
    apply format_d_no_colon.
Qed.

Lemma format_d_injective (a b : Z) : format_d a = format_d b -> a = b.
Proof.
  unfold format_d. intros E. apply DecimalZ.to_int_inj.
  assert (N : forall n, Z.to_int n <> Decimal.Pos Decimal.Nil
                        /\ Z.to_int n <> Decimal.Neg Decimal.Nil).
  { intros [|p|p]; cbn; split; try discriminate; intros C; injection C as C;
      exact (Unsigned.to_uint_nonnil p C). }
  assert (Ea := NilZero.isi (Z.to_int a) (proj1 (N a)) (proj2 (N a))).
  assert (Eb := NilZero.isi (Z.to_int b) (proj1 (N b)) (proj2 (N b))).
  rewrite E in Ea. congruence.
Qed.

Lemma format_02d_injective (a b : Z) :
  0 <= a < 60 -> 0 <= b < 60 -> format_02d a = format_02d b -> a = b.
Proof.
  set (decode := fun s => match NilZero.int_of_string s with
                          | Some d => Z.of_int d
                          | None => 0
                          end).
  assert (D : forall n : nat, (n < 60)%nat -> decode (format_02d (Z.of_nat n)) = Z.of_nat n).
  { intros n L. do 60 (destruct n as [|n]; [reflexivity|]). lia. }
  intros Ha Hb E.
  rewrite <- (Z2Nat.id a), <- (Z2Nat.id b) by lia.
  rewrite <- (D (Z.to_nat a)), <- (D (Z.to_nat b)) by lia.
  rewrite !Z2Nat.id by lia. rewrite E. reflexivity.
Qed.

(** X6.  [format_duration] gives different texts for different
    non-negative numbers of seconds: a duration can be read back from its
    [mm:ss] or [h:mm:ss] form. *)
Theorem format_duration_injective (a b : Z) :
  0 <= a -> 0 <= b -> format_duration a = format_duration b -> a = b.
Proof.
  intros Ha Hb. unfold format_duration.
  assert (Ma := Z.mod_pos_bound a 3600 ltac:(lia)).
  assert (Mb := Z.mod_pos_bound b 3600 ltac:(lia)).
  assert (Ca := Z.mod_pos_bound a 60 ltac:(lia)).
  assert (Cb := Z.mod_pos_bound b 60 ltac:(lia)).
  assert (Da := Z.div_mod a 3600 ltac:(lia)).
  assert (Db := Z.div_mod b 3600 ltac:(lia)).
  assert (Ra := Z.div_mod (a mod 3600) 60 ltac:(lia)).
  assert (Rb := Z.div_mod (b mod 3600) 60 ltac:(lia)).
  assert (Sa : (a mod 3600) mod 60 = a mod 60).
  { apply Z.mod_mod_divide. exists 60. reflexivity. }
  assert (Sb : (b mod 3600) mod 60 = b mod 60).
  { apply Z.mod_mod_divide. exists 60. reflexivity. }
  assert (Qa : 0 <= (a mod 3600) / 60 < 60) by (split; [apply Z.div_pos; lia | apply Z.div_lt_upper_bound; lia]).
  assert (Qb : 0 <= (b mod 3600) / 60 < 60) by (split; [apply Z.div_pos; lia | apply Z.div_lt_upper_bound; lia]).
  destruct (a / 3600 >? 0) eqn:Ga, (b / 3600 >? 0) eqn:Gb; cbn; intros E.
  - apply split_at_colon in E; try apply format_d_no_colon. destruct E as [Eh E].
    apply split_at_colon in E; try apply format_02d_no_colon. destruct E as [Em Es].
    apply format_d_injective in Eh. apply format_02d_injective in Em, Es; try lia.
  - apply split_at_colon in E; try apply format_d_no_colon. destruct E as [_ E].
    exfalso. revert E. apply colon_not_in, format_02d_no_colon.
  - apply split_at_colon in E; try apply format_d_no_colon. destruct E as [_ E].
    exfalso. symmetry in E. revert E. apply colon_not_in, format_02d_no_colon.
  - apply split_at_colon in E; try apply format_d_no_colon. destruct E as [Em Es].
    apply format_d_injective in Em. apply format_02d_injective in Es; try lia.
Qed.

(** * The constraints of the schema *)

Lemma execute_keeps (stmt : Store -> SqlError + Store) :
  (forall st st', stmt st = inr st' -> store_ok st -> store_ok st') ->
  tx_keeps (execute stmt).
Proof.
  intros K db db' r. unfold execute. destruct (stmt (working db)) eqn:E; intros [= <- <-].
  - cbn. split; auto.
  - cbn. split; [eauto|exact I].
Qed.

Lemma execute_binding_keeps (n : Z) (stmt : Store -> SqlError + Store) :
  (forall st st', stmt st = inr st' -> store_ok st -> store_ok st') ->
  tx_keeps (execute_binding n stmt).
Proof.
  intros K db db' r. unfold execute_binding. destruct (fits_sqlite_integer n).
  - apply execute_keeps, K.
  - intros [= <- <-]. cbn. split; auto.
Qed.

Lemma execute_create_keeps (stmt : Store -> SqlError + Store) :
  (forall st st', stmt st = inr st' -> store_ok st -> store_ok st') ->
  tx_keeps (execute_create stmt).
Proof.
  intros K db db' r. unfold execute_create.
  destruct (stmt (working db)) eqn:E; intros [= <- <-].
  - split; auto.
  - split; [|exact I]. intros O1 O2. destruct (in_transaction db); cbn; eauto.
Qed.

Lemma bind_keeps {A B : Type} (m : Tx A) (k : A -> Tx B) :
  tx_keeps m -> (forall a, tx_keeps (k a)) -> tx_keeps (tx_bind m k).
Proof.
  intros Km Kk db db' r. unfold tx_bind. destruct (m db) as [db1 [a|e]] eqn:E.
  - intros E'. destruct (Km _ _ _ E) as [K1 _]. destruct (Kk a _ _ _ E') as [K2 R].
    split; [|exact R]. intros O1 O2. destruct (K1 O1 O2). auto.
  - intros [= <- <-]. exact (Km _ _ _ E).
Qed.

Lemma for_each_keeps {A : Type} (l : list A) (body : A -> Tx unit) :
  (forall x, tx_keeps (body x)) -> tx_keeps (for_each l body).
Proof.
  intros K. induction l as [|x l IH]; cbn [for_each].
  - intros db db' r [= <- <-]. split; auto.
  - apply bind_keeps; auto.
Qed.

Lemma transaction_keeps {A : Type} (m : Tx A) : tx_keeps m -> db_keeps (transaction m).
Proof.
  intros K db C O. unfold transaction. destruct (m db) as [db1 [a|e]] eqn:E;
    destruct (K _ _ _ E) as [K1 K2]; destruct K1 as [O1 O2]; try (rewrite <- C); auto.
  - cbn. split; [reflexivity|auto].
  - rewrite K2. cbn. split; [reflexivity|exact O2].
Qed.

Lemma In_delete_where {Row : Type} (p : Row -> bool) (t : list Row) (x : Row) :
  In x (delete_where p t) <-> In x t /\ p x = false.
Proof.
  unfold delete_where. rewrite filter_In. destruct (p x); cbn; intuition congruence.
Qed.

Section MoreTableFacts.
Context {Row : Type} (pk : Row -> UUID).

Lemma In_update_where (p : Row -> bool) (f : Row -> Row) (t : list Row) (x : Row) :
  In x (update_where p f t) ->
  exists r, In r t /\ ((p r = true /\ x = f r) \/ (p r = false /\ x = r)).
Proof.
  unfold update_where. rewrite in_map_iff. intros (r & <- & I). exists r. split; [exact I|].
  destruct (p r); auto.
Qed.

Lemma In_upsert_row (r : Row) (f : Row -> Row) (t : list Row) (x : Row) :
  In x (upsert_row pk r f t) ->
  In x t
  \/ (x = r /\ pk_exists pk (pk r) t = false)
  \/ (exists old, In old t /\ pk old = pk r /\ x = f old).
Proof.
  unfold upsert_row. destruct (pk_exists pk (pk r) t) eqn:E.
  - intros I. apply In_update_where in I. destruct I as (old & I & [[P ->]|[_ ->]]); auto.
    right. right. exists old. unfold has_pk in P. apply N.eqb_eq in P. auto.
  - rewrite in_app_iff. cbn. intros [I|[<-|[]]]; auto.
Qed.

Lemma pk_exists_update_where (k : UUID) (p : Row -> bool) (f : Row -> Row) (t : list Row) :
  (forall r, pk (f r) = pk r) ->
  pk_exists pk k (update_where p f t) = pk_exists pk k t.
Proof.
  intros F. unfold pk_exists, update_where. induction t as [|r t IH]; cbn; [reflexivity|].
  rewrite IH. unfold has_pk. destruct (p r); [rewrite F|]; reflexivity.
Qed.

Lemma pk_exists_delete_where (k : UUID) (p : Row -> bool) (t : list Row) :
  pk_exists pk k t = true ->
  (forall r, In r t -> pk r = k -> p r = false) ->
  pk_exists pk k (delete_where p t) = true.
Proof.
  intros E P. apply pk_exists_true in E. destruct E as (r & I & Er).
  apply pk_exists_true. exists r. split; [|exact Er].
  unfold delete_where. apply filter_In. split; [exact I|]. rewrite (P r I Er). reflexivity.
Qed.

Lemma NoDup_delete_where (p : Row -> bool) (t : list Row) :
  NoDup (map pk t) -> NoDup (map pk (delete_where p t)).
Proof. apply where_keeps_ids_distinct. Qed.

Lemma NoDup_update_where (p : Row -> bool) (f : Row -> Row) (t : list Row) :
  (forall r, pk (f r) = pk r) ->
  NoDup (map pk t) -> NoDup (map pk (update_where p f t)).
Proof. intros F N. rewrite update_where_map_pk; assumption. Qed.

Lemma NoDup_upsert_row (r : Row) (f : Row -> Row) (t : list Row) :
  (forall old, pk (f old) = pk old) ->
  NoDup (map pk t) -> NoDup (map pk (upsert_row pk r f t)).
Proof.
  intros F N. exact (upsert_row_NoDup pk (fun _ => f) (fun _ => F) r t N).
Qed.

Lemma pk_exists_upsert_row (k : UUID) (r : Row) (f : Row -> Row) (t : list Row) :
  (forall old, pk (f old) = pk old) ->
  pk_exists pk k t = true -> pk_exists pk k (upsert_row pk r f t) = true.
Proof.
  intros F E. exact (upsert_row_keeps pk (fun _ => f) (fun _ => F) k r t E).
Qed.

(** the rows [WHERE id = k] selects *)
Lemma pk_exists_selected (k k' : UUID) (t : list Row) :
  pk_exists pk k' (filter (has_pk pk k) t) = true <-> k' = k /\ pk_exists pk k t = true.
Proof.
  rewrite !pk_exists_true. split.
  - intros (r & I & E). apply filter_In in I. destruct I as [I P].
    unfold has_pk in P. apply N.eqb_eq in P. split; [congruence|]. exists r. auto.
  - intros (-> & r & I & E). exists r. split; [|exact E]. apply filter_In. split; [exact I|].
    unfold has_pk. apply N.eqb_eq, E.
Qed.
End MoreTableFacts.

Ltac ok_fields O :=
  destruct O as [O1 O2 O3 O4 O5 O6 O7 O8 O9 O10 O11]; constructor; cbn -[pk_exists]; auto;
  try (intros r I; specialize (O9 r I); destruct (SessionRow.template_id r); exact O9).

Lemma template_fk_ok_tables (t : option UUID) (st st' : Store) :
  (forall k, pk_exists TemplateRow.id k (workout_templates st) = true ->
             pk_exists TemplateRow.id k (workout_templates st') = true) ->
  SessionRepository.template_fk_ok t st = true ->
  SessionRepository.template_fk_ok t st' = true.
Proof. destruct t; cbn; auto. Qed.

Lemma upsert_template_ok (id : UUID) (name : string) (created_at : DateTime) (st st' : Store) :
  TemplateRepository.upsert_template id name created_at st = inr st' ->
  store_ok st -> store_ok st'.
Proof.
  intros [= <-] O. ok_fields O.
  - apply NoDup_upsert_row; auto.
  - intros r I. apply pk_exists_upsert_row; auto.
  - intros r I. apply (template_fk_ok_tables _ st); auto.
    intros k. apply pk_exists_upsert_row; auto.
Qed.

Lemma delete_exercises_ok (template_id : UUID) (st st' : Store) :
  TemplateRepository.delete_exercises template_id st = inr st' ->
  store_ok st -> store_ok st'.
Proof.
  intros [= <-] O. ok_fields O.
  - apply NoDup_delete_where; auto.
  - intros r I. apply In_delete_where in I. apply O8, (proj1 I).
Qed.

Lemma NoDup_insert_row {Row : Type} (pk : Row -> UUID) (table : string) (r : Row)
  (t t' : list Row) :
  insert_row pk table r t = inr t' -> NoDup (map pk t) ->
  t' = t ++ [r] /\ NoDup (map pk t').
Proof.
  unfold insert_row. destruct (pk_exists pk (pk r) t) eqn:E; intros [= <-] N.
  split; [reflexivity|]. rewrite map_app. cbn.
  apply NoDup_app; [exact N|repeat constructor; intros []| ].
  intros k I [<-|[]]. apply pk_exists_map_id in I. congruence.
Qed.

Lemma insert_exercise_ok (r : TemplateExerciseRow.t) (st st' : Store) :
  TemplateRepository.insert_exercise r st = inr st' ->
  store_ok st -> store_ok st'.
Proof.
  unfold TemplateRepository.insert_exercise.
  destruct (insert_row _ _ _ _) as [|rows] eqn:E; [discriminate|].
  destruct (pk_exists TemplateRow.id _ _) eqn:F; intros [= <-] O.
  destruct (NoDup_insert_row _ _ _ _ _ E (ok_template_exercises _ O)) as [-> N].
  ok_fields O.
  intros x I. apply in_app_iff in I. destruct I as [I|[<-|[]]]; auto.
Qed.

Lemma template_save_keeps (template : WorkoutTemplate.t) :
  tx_keeps (TemplateRepository.save_body template).
Proof.
  unfold TemplateRepository.save_body.
  apply bind_keeps; [apply execute_keeps, upsert_template_ok|intros _].
  apply bind_keeps; [apply execute_keeps, delete_exercises_ok|intros _].
  apply for_each_keeps. intros x. apply execute_keeps, insert_exercise_ok.
Qed.

Lemma delete_template_ok (template_id : UUID) (st st' : Store) :
  TemplateRepository.delete_template template_id st = inr st' ->
  store_ok st -> store_ok st'.
Proof.
  intros [= <-] O. ok_fields O.
  - apply NoDup_delete_where; auto.
  - apply NoDup_delete_where; auto.
  - apply NoDup_update_where; auto.
  - intros r I. apply In_delete_where in I. destruct I as [I D].
    apply pk_exists_delete_where; [auto|].
    intros x Ix Ex. destruct (has_pk TemplateRow.id template_id x) eqn:P; [|reflexivity].
    assert (T : pk_exists TemplateRow.id (TemplateExerciseRow.template_id r)
                  (filter (has_pk TemplateRow.id template_id) (workout_templates st)) = true).
    { apply pk_exists_true. exists x. split; [|exact Ex]. apply filter_In. auto. }
    congruence.
  - intros r I. apply In_update_where in I.
    destruct I as (old & I & [[P ->]|[P ->]]); [reflexivity|].
    specialize (O9 old I). destruct (SessionRow.template_id old) as [t|]; [|reflexivity].
    cbn in *. apply pk_exists_delete_where; [auto|].
    intros x Ix Ex. destruct (has_pk TemplateRow.id template_id x) eqn:Q; [|reflexivity].
    assert (T : pk_exists TemplateRow.id t
                  (filter (has_pk TemplateRow.id template_id) (workout_templates st)) = true).
    { apply pk_exists_true. exists x. split; [|exact Ex]. apply filter_In. auto. }
    congruence.
  - intros r I. rewrite pk_exists_update_where; auto.
Qed.

Lemma upsert_session_ok (r : SessionRow.t) (st st' : Store) :
  SessionRepository.upsert_session r st = inr st' -> store_ok st -> store_ok st'.
Proof.
  unfold SessionRepository.upsert_session.
  destruct (SessionRepository.template_fk_ok _ _) eqn:F; intros [= <-] O.
  ok_fields O.
  - apply NoDup_upsert_row; auto.
  - intros x I. apply In_upsert_row in I.
    destruct I as [I|[[-> _]|(old & I & E & ->)]].
    + specialize (O9 x I). destruct (SessionRow.template_id x); auto.
    + destruct (SessionRow.template_id r); auto.
    + cbn. destruct (SessionRow.template_id r); auto.
  - intros x I. apply pk_exists_upsert_row; auto.
Qed.

Lemma upsert_exercise_ok (r : SessionExerciseRow.t) (st st' : Store) :
  SessionRepository.upsert_exercise r st = inr st' -> store_ok st -> store_ok st'.
Proof.
  unfold SessionRepository.upsert_exercise.
  destruct (_ || _)%bool eqn:F; intros [= <-] O.
  ok_fields O.
  - apply NoDup_upsert_row; auto.
  - intros x I. apply In_upsert_row in I.
    destruct I as [I|[[-> N]|(old & I & E & ->)]]; auto.
    + rewrite N in F. exact F.
    + cbn. auto.
  - intros x I. apply pk_exists_upsert_row; auto.
Qed.

Lemma upsert_set_ok (r : SetRow.t) (st st' : Store) :
  SessionRepository.upsert_set r st = inr st' -> store_ok st -> store_ok st'.
Proof.
  unfold SessionRepository.upsert_set.
  destruct (_ || _)%bool eqn:F; intros [= <-] O.
  ok_fields O.
  - apply NoDup_upsert_row; auto.
  - intros x I. apply In_upsert_row in I.
    destruct I as [I|[[-> N]|(old & I & E & ->)]]; auto.
    + rewrite N in F. exact F.
    + cbn. auto.
Qed.

Lemma delete_exercise_row_ok (exercise_id : UUID) (st st' : Store) :
  SessionRepository.delete_exercise_row exercise_id st = inr st' ->
  store_ok st -> store_ok st'.
Proof.
  intros [= <-] O. ok_fields O.
  - apply NoDup_delete_where; auto.
  - apply NoDup_delete_where; auto.
  - intros r I. apply In_delete_where in I. apply O10, (proj1 I).
  - intros r I. apply In_delete_where in I. destruct I as [I D].
    apply pk_exists_delete_where; [auto|].
    intros x Ix Ex.
    destruct (has_pk SessionExerciseRow.id exercise_id x) eqn:P; [|reflexivity].
    assert (T : pk_exists SessionExerciseRow.id (SetRow.session_exercise_id r)
                  (filter (has_pk SessionExerciseRow.id exercise_id) (session_exercises st))
                = true).
    { apply pk_exists_true. exists x. split; [|exact Ex]. apply filter_In. auto. }
    congruence.
Qed.

Lemma delete_session_ok (session_id : UUID) (st st' : Store) :
  SessionRepository.delete_session session_id st = inr st' ->
  store_ok st -> store_ok st'.
Proof.
  intros [= <-] O. ok_fields O.
  - apply NoDup_delete_where; auto.
  - apply NoDup_delete_where; auto.
  - apply NoDup_delete_where; auto.
  - intros r I. apply In_delete_where in I. specialize (O9 r (proj1 I)).
    destruct (SessionRow.template_id r); auto.
  - intros r I. apply In_delete_where in I. destruct I as [I D].
    apply pk_exists_delete_where; [auto|].
    intros x Ix Ex. destruct (has_pk SessionRow.id session_id x) eqn:P; [|reflexivity].
    assert (T : pk_exists SessionRow.id (SessionExerciseRow.session_id r)
                  (filter (has_pk SessionRow.id session_id) (workout_sessions st)) = true).
    { apply pk_exists_true. exists x. split; [|exact Ex]. apply filter_In. auto. }
    congruence.
  - intros r I. apply In_delete_where in I. destruct I as [I D].
    apply pk_exists_delete_where; [auto|].
    intros x Ix Ex.
    destruct (pk_exists SessionRow.id (SessionExerciseRow.session_id x) _) eqn:P;
      [|reflexivity].
    assert (T : pk_exists SessionExerciseRow.id (SetRow.session_exercise_id r)
                  (filter
                     (fun e => pk_exists SessionRow.id (SessionExerciseRow.session_id e)
                                 (filter (has_pk SessionRow.id session_id)
                                    (workout_sessions st)))
                     (session_exercises st)) = true).
    { apply pk_exists_true. exists x. split; [|exact Ex]. apply filter_In. auto. }
    congruence.
Qed.

Lemma NoDup_keys_filter {V : Type} (p : string * V -> bool) (l : list (string * V)) :
  NoDup (map fst l) -> NoDup (map fst (filter p l)).
Proof. apply where_keeps_ids_distinct. Qed.

Lemma create_table_ok (name : string) (st st' : Store) :
  create_table_if_not_exists name st = inr st' -> store_ok st -> store_ok st'.
Proof.
  unfold create_table_if_not_exists. destruct (catalogued "table" name st).
  - intros [= <-]; auto.
  - destruct (catalogued "index" name st); [discriminate|]. intros [= <-] O. ok_fields O.
Qed.

Lemma create_index_ok (name table : string) (st st' : Store) :
  create_index_if_not_exists name table st = inr st' -> store_ok st -> store_ok st'.
Proof.
  unfold create_index_if_not_exists.
  destruct (negb (catalogued "table" table st)); [discriminate|].
  destruct (catalogued "table" name st); [discriminate|].
  destruct (catalogued "index" name st).
  - intros [= <-]; auto.
  - intros [= <-] O. ok_fields O.
Qed.

Lemma insert_template_ok (r : TemplateRow.t) (st st' : Store) :
  insert_template r st = inr st' -> store_ok st -> store_ok st'.
Proof.
  unfold insert_template. destruct (insert_row _ _ _ _) as [|rows] eqn:E; intros [= <-] O.
  destruct (NoDup_insert_row _ _ _ _ _ E (ok_templates _ O)) as [-> N].
  ok_fields O.
  - intros x I. rewrite pk_exists_app, O8; auto.
  - intros x I. specialize (O9 x I). destruct (SessionRow.template_id x); auto.
    cbn -[pk_exists] in *. rewrite pk_exists_app, O9. reflexivity.
Qed.

Lemma insert_schema_version_ok (version : Z) (applied_at : DateTime) (st st' : Store) :
  insert_schema_version version applied_at st = inr st' -> store_ok st -> store_ok st'.
Proof.
  unfold insert_schema_version. destruct (existsb _ _) eqn:E; intros [= <-] O.
  ok_fields O.
  - rewrite map_app. cbn. apply NoDup_app; [exact O7|repeat constructor; intros []|].
    intros k I [<-|[]]. apply in_map_iff in I. destruct I as (row & Er & I).
    assert (T : existsb (fun row => fst row =? version) (schema_version st) = true).
    { apply existsb_exists. exists row. split; [exact I|]. apply Z.eqb_eq, Er. }
    congruence.
Qed.

Lemma app_state_set_ok (key value : string) (db : Database) :
  clean db -> store_ok (working db) ->
  clean (fst (AppStateRepository.set key value db))
  /\ store_ok (working (fst (AppStateRepository.set key value db))).
Proof.
  apply transaction_keeps, execute_keeps. intros st st' [= <-] O. ok_fields O.
  destruct (existsb _ _) eqn:E.
  - rewrite map_map.
    erewrite map_ext; [exact O6|]. intros r. destruct (String.eqb _ _); reflexivity.
  - rewrite map_app. cbn. apply NoDup_app; [exact O6|repeat constructor; intros []|].
    intros k I [<-|[]]. apply in_map_iff in I. destruct I as (row & Er & I).
    assert (T : existsb (fun r => String.eqb (fst r) key) (app_state st) = true).
    { apply existsb_exists. exists row. split; [exact I|]. apply String.eqb_eq, Er. }
    congruence.
Qed.

Lemma app_state_delete_ok (key : string) (db : Database) :
  clean db -> store_ok (working db) ->
  clean (fst (AppStateRepository.delete key db))
  /\ store_ok (working (fst (AppStateRepository.delete key db))).
Proof.
  apply transaction_keeps, execute_keeps. intros st st' [= <-] O. ok_fields O.
  apply NoDup_keys_filter, O6.
Qed.

Lemma run_pending_keeps (env : Env) (current_version : Z)
  (migrations : list (Z * string * Migration)) :
  Forall (fun m => db_keeps (snd m)) migrations ->
  forall db, clean db -> store_ok (working db) ->
    clean (fst (fst (run_pending env current_version migrations db)))
    /\ store_ok (working (fst (fst (run_pending env current_version migrations db)))).
Proof.
  induction 1 as [|[[version name] migration_fn] rest K _ IH]; intros db C O; cbn.
  - auto.
  - destruct (version >? current_version); [|auto].
    destruct (K db C O) as [C1 O1]. cbn in C1, O1.
    destruct (migration_fn db) as [db1 [[]|e]]; cbn in *; [|auto].
    assert (K2 : db_keeps (transaction (execute (insert_schema_version version (now env))))).
    { apply transaction_keeps, execute_keeps, insert_schema_version_ok. }
    destruct (K2 db1 C1 O1) as [C2 O2].
    destruct (transaction _ db1) as [db2 [[]|e]]; cbn in *; [|auto].
    specialize (IH db2 C2 O2).
    destruct (run_pending env current_version rest db2) as [[db3 printed] r]. exact IH.
Qed.

Lemma migration_001_keeps : db_keeps migration_001_initial_schema.
Proof.
  apply transaction_keeps.
  repeat (apply bind_keeps;
          [apply execute_create_keeps; first [apply create_table_ok|apply create_index_ok]
          |intros _]).
  apply execute_create_keeps, create_index_ok.
Qed.

Lemma migration_002_keeps (env : Env) : db_keeps (migration_002_seed_templates env).
Proof.
  apply transaction_keeps, for_each_keeps. intros template_data.
  apply bind_keeps; [apply execute_keeps, insert_template_ok|intros _].
  apply for_each_keeps. intros ex. apply execute_keeps, insert_exercise_ok.
Qed.

Lemma apply_migrations_keeps (env : Env) (db : Database) :
  clean db -> store_ok (working db) ->
  clean (fst (fst (apply_migrations env db)))
  /\ store_ok (working (fst (fst (apply_migrations env db)))).
Proof.
  intros C O. unfold apply_migrations.
  assert (K : db_keeps (transaction
                          (execute_create (create_table_if_not_exists "schema_version")))).
  { apply transaction_keeps, execute_create_keeps, create_table_ok. }
  destruct (K db C O) as [C1 O1].
  destruct (transaction _ db) as [db1 [[]|e]]; cbn [fst snd] in *; [|auto].
  apply run_pending_keeps; auto.
  unfold MIGRATIONS.
  apply Forall_cons; [apply migration_001_keeps|].
  apply Forall_cons; [apply migration_002_keeps|apply Forall_nil].
Qed.

Lemma perform_keeps (w : Write) (db : Database) :
  clean db -> store_ok (working db) ->
  clean (perform db w) /\ store_ok (working (perform db w)).
Proof.
  intros C O. destruct w; cbn [perform].
  - apply apply_migrations_keeps; assumption.
  - apply (transaction_keeps _ (template_save_keeps template)); assumption.
  - apply (transaction_keeps _ (execute_keeps _ (delete_template_ok template_id))); assumption.
  - unfold TemplateRepository.duplicate.
    destruct (TemplateRepository.get_by_id template_id db); [|auto].
    match goal with |- context [TemplateRepository.save ?t db] =>
      destruct (transaction_keeps _ (template_save_keeps t) db C O) as [C1 O1];
      unfold TemplateRepository.save;
      destruct (transaction (TemplateRepository.save_body t) db) as [db1 [[]|e]]
    end; auto.
  - apply (transaction_keeps _ (execute_keeps _ (upsert_session_ok _))); assumption.
  - apply (transaction_keeps _ (execute_keeps _ (upsert_exercise_ok _))); assumption.
  - apply (transaction_keeps _ (execute_keeps _ (delete_exercise_row_ok _))); assumption.
  - apply (transaction_keeps _ (execute_keeps _ (upsert_set_ok _))); assumption.
  - apply transaction_keeps; [|assumption|assumption]. apply execute_keeps.
    intros st st' [= <-] O'. ok_fields O'.
    + apply NoDup_delete_where; auto.
    + intros r I. apply In_delete_where in I. apply O11, (proj1 I).
  - apply transaction_keeps; [|assumption|assumption]. apply execute_binding_keeps.
    intros st st' [= <-] O'. ok_fields O'.
    + apply NoDup_update_where; auto.
    + intros r I. apply In_update_where in I.
      destruct I as (old & I & [[P ->]|[P ->]]); specialize (O9 old I);
        destruct (SessionRow.template_id old); auto.
    + intros r I. rewrite pk_exists_update_where; auto.
  - apply (transaction_keeps _ (execute_keeps _ (delete_session_ok _))); assumption.
  - apply app_state_set_ok; assumption.
  - apply app_state_delete_ok; assumption.
  - apply transaction_keeps; [|assumption|assumption]. apply execute_keeps.
    intros st st' [= <-] O'. ok_fields O'. constructor.
Qed.

Lemma empty_store_ok : store_ok empty_store.
Proof. constructor; cbn; try constructor; intros r []. Qed.

Lemma performs_keep (writes : list Write) (db : Database) :
  clean db -> store_ok (working db) ->
  clean (fold_left perform writes db) /\ store_ok (working (fold_left perform writes db)).
Proof.
  revert db. induction writes as [|w writes IH]; intros db C O; cbn; [auto|].
  destruct (perform_keeps w db C O). auto.
Qed.

(** X11.  After any sequence of [Database.initialize] and of the
    writing methods of the three repositories on a new database, whether the
    calls return or raise, the rows satisfy the constraints of the schema
    (every PRIMARY KEY and the four FOREIGN KEYs) and nothing is left
    uncommitted. *)
Theorem schema_constraints_hold (writes : list Write) :
  let db := fold_left perform writes (connect empty_store) in
  store_ok (working db) /\ working db = committed db.
Proof.
  destruct (performs_keep writes (connect empty_store) eq_refl empty_store_ok). auto.
Qed.

(** * The app state *)

Lemma app_state_get_updated (key value k : string) (t : list (string * option string)) :
  match fetchone (filter (fun r => String.eqb (fst r) k)
                    (map (fun r => if String.eqb (fst r) key then (fst r, Some value) else r) t))
  with Some row => snd row | None => None end
  = if String.eqb k key
    then (if existsb (fun r => String.eqb (fst r) key) t then Some value else None)
    else match fetchone (filter (fun r => String.eqb (fst r) k) t)
         with Some row => snd row | None => None end.
Proof.
  induction t as [|[k' v] t IH]; cbn [map filter existsb fst snd].
  - destruct (String.eqb k key); reflexivity.
  - destruct (String.eqb_spec k' key) as [->|N]; cbn [fst snd orb].
    + destruct (String.eqb_spec key k) as [<-|N'].
      * rewrite String.eqb_refl. reflexivity.
      * rewrite IH. destruct (String.eqb_spec k key); [congruence|reflexivity].
    + destruct (String.eqb_spec k' k) as [->|N'].
      * destruct (String.eqb_spec k key); [congruence|reflexivity].
      * exact IH.
Qed.

Lemma app_state_get_appended (key value k : string) (t : list (string * option string)) :
  existsb (fun r => String.eqb (fst r) key) t = false ->
  match fetchone (filter (fun r => String.eqb (fst r) k) (t ++ [(key, Some value)]))
  with Some row => snd row | None => None end
  = if String.eqb k key then Some value
    else match fetchone (filter (fun r => String.eqb (fst r) k) t)
         with Some row => snd row | None => None end.
Proof.
  induction t as [|[k' v] t IH]; cbn [app filter existsb fst snd]; intros E.
  - rewrite String.eqb_sym. destruct (String.eqb k key); reflexivity.
  - apply orb_false_elim in E. destruct E as [E1 E2].
    destruct (String.eqb_spec k' k) as [->|N'].
    + rewrite E1. reflexivity.
    + apply IH, E2.
Qed.

Lemma app_state_get_set (key value k : string) (db : Database) :
  AppStateRepository.get k (fst (AppStateRepository.set key value db))
  = if String.eqb k key then Some value else AppStateRepository.get k db.
Proof.
  unfold AppStateRepository.get, AppStateRepository.set, cursor.
  rewrite transaction_execute. cbn [fst working app_state with_app_state].
  destruct (existsb _ (app_state (working db))) eqn:E.
  - rewrite app_state_get_updated, E. reflexivity.
  - apply app_state_get_appended, E.
Qed.

Lemma app_state_get_delete (key k : string) (db : Database) :
  AppStateRepository.get k (fst (AppStateRepository.delete key db))
  = if String.eqb k key then None else AppStateRepository.get k db.
Proof.
  unfold AppStateRepository.get, AppStateRepository.delete, cursor.
  rewrite transaction_execute. cbn.
  induction (app_state (working db)) as [|[k' v] t IH]; cbn.
  - destruct (String.eqb k key); reflexivity.
  - destruct (String.eqb_spec k' key) as [->|N]; cbn.
    + rewrite IH. destruct (String.eqb_spec key k) as [->|N']; cbn.
      * rewrite String.eqb_refl. reflexivity.
      * reflexivity.
    + destruct (String.eqb_spec k' k) as [->|N']; cbn; [|exact IH].
      destruct (String.eqb_spec k key); [congruence|reflexivity].
Qed.

(** X25.  The app state behaves as a map from keys to values: after
    [set(key, value)], [get(key)] is the value and [get] of every other key
    is as before; after [delete(key)], [get(key)] is [None] and the other
    keys are as before; after [clear_all()] every [get] is [None].  None of
    the three raises. *)
Theorem app_state_is_a_map (key value k : string) (db : Database) :
  (snd (AppStateRepository.set key value db) = Return tt
   /\ AppStateRepository.get k (fst (AppStateRepository.set key value db))
      = if String.eqb k key then Some value else AppStateRepository.get k db)
  /\ (snd (AppStateRepository.delete key db) = Return tt
      /\ AppStateRepository.get k (fst (AppStateRepository.delete key db))
         = if String.eqb k key then None else AppStateRepository.get k db)
  /\ (snd (AppStateRepository.clear_all db) = Return tt
      /\ AppStateRepository.get k (fst (AppStateRepository.clear_all db)) = None).
Proof.
  repeat split.
  - apply app_state_get_set.
  - apply app_state_get_delete.
Qed.

Section StoredIdentifiers.
Variable uuid_str : UUID -> string.
Variable uuid_parse : string -> option UUID.

(** X26.  The ids kept in the app state.  For an id [u] that
    [UUID(str(u))] gives back, [get_active_session_id] after
    [set_active_session_id(u)] returns [u], and after
    [set_active_session_id(None)] it returns [None]; the same holds of
    [get_last_template_id] and [set_last_template_id]; and setting one of the
    two ids leaves the other as it was. *)
Theorem stored_identifier_round_trip (u : UUID) (db : Database) :
  uuid_parse (uuid_str u) = Some u ->
  uuid_str u <> EmptyString ->
  AppStateRepository.get_active_session_id uuid_parse
    (fst (AppStateRepository.set_active_session_id uuid_str (Some u) db)) = Return (Some u)
  /\ AppStateRepository.get_active_session_id uuid_parse
       (fst (AppStateRepository.set_active_session_id uuid_str None db)) = Return None
  /\ AppStateRepository.get_last_template_id uuid_parse
       (fst (AppStateRepository.set_last_template_id uuid_str (Some u) db)) = Return (Some u)
  /\ AppStateRepository.get_last_template_id uuid_parse
       (fst (AppStateRepository.set_last_template_id uuid_str None db)) = Return None
  /\ (forall v,
        AppStateRepository.get_last_template_id uuid_parse
          (fst (AppStateRepository.set_active_session_id uuid_str v db))
        = AppStateRepository.get_last_template_id uuid_parse db)
  /\ (forall v,
        AppStateRepository.get_active_session_id uuid_parse
          (fst (AppStateRepository.set_last_template_id uuid_str v db))
        = AppStateRepository.get_active_session_id uuid_parse db).
Proof.
  intros P N.
  unfold AppStateRepository.get_active_session_id, AppStateRepository.get_last_template_id,
    AppStateRepository.set_active_session_id, AppStateRepository.set_last_template_id.
  assert (E : String.eqb (uuid_str u) EmptyString = false) by (apply String.eqb_neq, N).
  repeat split; try (intros [v|]);
    rewrite ?app_state_get_set, ?app_state_get_delete; cbn; rewrite ?E, ?P; reflexivity.
Qed.
End StoredIdentifiers.

Section TimerSnapshotRoundTrip.
Variable json_dumps : JSON -> string.
Variable json_loads : string -> option JSON.
Variable isoformat : DateTime -> string.
Variable fromisoformat : string -> option DateTime.

Lemma parse_time_isoformat (t : option DateTime) :
  (forall t', t = Some t' ->
     fromisoformat (isoformat t') = Some t' /\ isoformat t' <> EmptyString) ->
  AppStateRepository.parse_time fromisoformat (AppStateRepository.isoformat_or_none isoformat t)
  = Return t.
Proof.
  intros F. destruct t as [t|]; [|reflexivity]. destruct (F t eq_refl) as [P N].
  unfold AppStateRepository.parse_time, AppStateRepository.isoformat_or_none, truthy.
  destruct (String.eqb_spec (isoformat t) EmptyString) as [E|_]; [destruct (N E)|].
  cbn [negb]. rewrite P. reflexivity.
Qed.

(** X27.  The timer state kept in the app state.  When [json.loads]
    reads back what [json.dumps] wrote and [fromisoformat] reads back the
    [isoformat] of the times of the state, [get_timer_state] after
    [set_timer_state(state)] returns a state with the five fields of
    [state]; after [set_timer_state(None)] it returns [None]. *)
Theorem timer_state_round_trip (state : TimerState) (db : Database) :
  json_loads (json_dumps (AppStateRepository.timer_state_data isoformat state))
  = Some (AppStateRepository.timer_state_data isoformat state) ->
  (forall t, start_time state = Some t \/ pause_time state = Some t ->
     fromisoformat (isoformat t) = Some t /\ isoformat t <> EmptyString) ->
  AppStateRepository.get_timer_state json_loads fromisoformat
    (fst (AppStateRepository.set_timer_state json_dumps isoformat (Some state) db))
  = Return (Some (mkLoadedTimerState
                    (JBool (is_running state)) (JBool (is_paused state))
                    (start_time state) (pause_time state)
                    (JNumber (accumulated_seconds state))))
  /\ AppStateRepository.get_timer_state json_loads fromisoformat
       (fst (AppStateRepository.set_timer_state json_dumps isoformat None db))
     = Return None.
Proof.
  intros J F.
  unfold AppStateRepository.get_timer_state, AppStateRepository.set_timer_state.
  rewrite app_state_get_set, app_state_get_delete. cbn [String.eqb Ascii.eqb Bool.eqb].
  split; [|reflexivity].
  unfold AppStateRepository.decode_timer_state. rewrite J.
  cbn [AppStateRepository.timer_state_data getitem find fst snd String.eqb Ascii.eqb Bool.eqb
       outcome_bind].
  rewrite !parse_time_isoformat by (intros t E; apply F; auto). reflexivity.
Qed.
End TimerSnapshotRoundTrip.

(** * Deleting sets, exercises and sessions, ending sessions *)

Lemma insert_sorted_least {A : Type} (key : A -> Z) (x : A) (l : list A) :
  (forall z, In z l -> key x <= key z) -> insert_sorted key x l = x :: l.
Proof.
  destruct l as [|y l]; cbn; [reflexivity|]. intros L.
  destruct (Z.leb_spec (key x) (key y)); [reflexivity|].
  specialize (L y (or_introl eq_refl)). lia.
Qed.

Lemma insert_sorted_filter {A : Type} (key : A -> Z) (p : A -> bool) (x : A) (l : list A) :
  StronglySorted (fun a b => key a <= key b) l ->
  filter p (insert_sorted key x l)
  = if p x then insert_sorted key x (filter p l) else filter p l.
Proof.
  induction 1 as [|y l S IH F]; cbn.
  - destruct (p x); reflexivity.
  - destruct (Z.leb_spec (key x) (key y)) as [L|L]; cbn.
    + destruct (p x) eqn:Px; [|reflexivity]. destruct (p y) eqn:Py; cbn.
      * destruct (Z.leb_spec (key x) (key y)); [reflexivity|lia].
      * symmetry. apply insert_sorted_least. intros z I. apply filter_In in I.
        rewrite Forall_forall in F. specialize (F z (proj1 I)). lia.
    + rewrite IH. destruct (p x), (p y); cbn; try reflexivity.
      destruct (Z.leb_spec (key x) (key y)); [lia|reflexivity].
Qed.

Lemma order_by_filter {A : Type} (key : A -> Z) (p : A -> bool) (l : list A) :
  order_by key (filter p l) = filter p (order_by key l).
Proof.
  induction l as [|x l IH]; [reflexivity|].
  change (order_by key (x :: l)) with (insert_sorted key x (order_by key l)).
  rewrite insert_sorted_filter by apply order_by_sorted. cbn [filter].
  destruct (p x); [|exact IH].
  change (order_by key (x :: filter p l)) with (insert_sorted key x (order_by key (filter p l))).
  rewrite IH. reflexivity.
Qed.

Lemma filter_filter_comm {A : Type} (p q : A -> bool) (l : list A) :
  filter p (filter q l) = filter q (filter p l).
Proof.
  induction l as [|x l IH]; cbn; [reflexivity|].
  destruct (p x) eqn:P, (q x) eqn:Q; cbn; rewrite ?P, ?Q, IH; reflexivity.
Qed.

Lemma filter_map_comm {A B : Type} (f : A -> B) (p : A -> bool) (q : B -> bool) (l : list A) :
  (forall x, q (f x) = p x) -> map f (filter p l) = filter q (map f l).
Proof.
  intros E. induction l as [|x l IH]; cbn; [reflexivity|].
  rewrite E. destruct (p x); cbn; rewrite IH; reflexivity.
Qed.

Lemma filter_ext_In {A : Type} (p q : A -> bool) (l : list A) :
  (forall x, In x l -> p x = q x) -> filter p l = filter q l.
Proof.
  induction l as [|x l IH]; cbn; intros E; [reflexivity|].
  rewrite (E x (or_introl eq_refl)), IH; auto.
Qed.

Lemma filter_all {A : Type} (p : A -> bool) (l : list A) :
  (forall x, In x l -> p x = true) -> filter p l = l.
Proof.
  induction l as [|x l IH]; cbn; intros E; [reflexivity|].
  rewrite (E x (or_introl eq_refl)), IH; auto.
Qed.

Lemma filter_none {A : Type} (p : A -> bool) (l : list A) :
  (forall x, In x l -> p x = false) -> filter p l = [].
Proof.
  induction l as [|x l IH]; cbn; intros E; [reflexivity|].
  rewrite (E x (or_introl eq_refl)), IH; auto.
Qed.

Lemma session_get_by_id_loaded (sid : UUID) (db : Database) :
  SessionRepository.get_by_id sid db
  = option_map (loaded_session (working db))
      (fetchone (filter (has_pk SessionRow.id sid) (workout_sessions (working db)))).
Proof.
  unfold SessionRepository.get_by_id, cursor. destruct (fetchone _); reflexivity.
Qed.

(** X23.  [delete_set] returns without an error; afterwards every
    session loads as before, with the same exercises, but without the set of
    that id, and no set of that id is left in the store. *)
Theorem delete_set_removes_the_set (set_id sid : UUID) (db : Database) :
  let db' := fst (SessionRepository.delete_set set_id db) in
  snd (SessionRepository.delete_set set_id db) = Return tt
  /\ SessionRepository.get_by_id sid db'
     = option_map (without_set set_id) (SessionRepository.get_by_id sid db)
  /\ (forall w, In w (sets (working db')) -> SetRow.id w <> set_id).
Proof.
  unfold SessionRepository.delete_set. rewrite transaction_execute. cbn [fst snd].
  split; [reflexivity|]. split.
  - rewrite !session_get_by_id_loaded. cbn [working workout_sessions with_sets].
    destruct (fetchone _) as [row|]; [|reflexivity]. cbn [option_map]. f_equal.
    unfold loaded_session, without_set, SessionRepository.with_exercises. cbn.
    f_equal. unfold SessionRepository._load_exercises. rewrite map_map.
    unfold SessionRepository.select_exercises. cbn [session_exercises with_sets].
    apply map_ext. intros e. unfold exercise_without_set. cbn. f_equal.
    unfold SessionRepository.select_sets. cbn [sets with_sets]. unfold delete_where.
    rewrite <- (filter_map_comm SessionRepository.set_of_row
                  (fun r => negb (has_pk SetRow.id set_id r))) by reflexivity.
    f_equal. rewrite <- order_by_filter. unfold order_by. f_equal. apply filter_filter_comm.
  - cbn. intros w I. apply In_delete_where in I. destruct I as [_ P].
    unfold has_pk in P. apply N.eqb_neq, P.
Qed.

Lemma select_sets_after_cascade (exercise_id : UUID) (deleted : list SessionExerciseRow.t)
  (st st' : Store) :
  sets st'
  = delete_where
      (fun w => pk_exists SessionExerciseRow.id (SetRow.session_exercise_id w) deleted)
      (sets st) ->
  pk_exists SessionExerciseRow.id exercise_id deleted = false ->
  SessionRepository.select_sets exercise_id st' = SessionRepository.select_sets exercise_id st.
Proof.
  intros E D. unfold SessionRepository.select_sets. rewrite E. unfold delete_where.
  rewrite filter_filter_comm. f_equal. apply filter_all. intros w I.
  apply filter_In in I. destruct I as [_ P]. apply N.eqb_eq in P. rewrite P, D. reflexivity.
Qed.

(** X22.  [delete_exercise] returns without an error; afterwards
    every session loads as before but without the exercise of that id, no
    set of the exercise is left in the store (ON DELETE CASCADE), and the
    session rows are as they were. *)
Theorem delete_exercise_cascades (exercise_id sid : UUID) (db : Database) :
  store_ok (working db) ->
  let db' := fst (SessionRepository.delete_exercise exercise_id db) in
  snd (SessionRepository.delete_exercise exercise_id db) = Return tt
  /\ SessionRepository.get_by_id sid db'
     = option_map (without_exercise exercise_id) (SessionRepository.get_by_id sid db)
  /\ (forall e, In e (session_exercises (working db')) ->
        SessionExerciseRow.id e <> exercise_id)
  /\ (forall w, In w (sets (working db')) -> SetRow.session_exercise_id w <> exercise_id)
  /\ workout_sessions (working db') = workout_sessions (working db).
Proof.
  intros O. unfold SessionRepository.delete_exercise. rewrite transaction_execute.
  cbn [fst snd SessionRepository.delete_exercise_row working].
  set (deleted := filter (has_pk SessionExerciseRow.id exercise_id)
                    (session_exercises (working db))).
  set (st' := with_sets _ _).
  split; [reflexivity|]. split; [|split; [|split]].
  - rewrite !session_get_by_id_loaded. cbn [working workout_sessions with_sets st'
      with_session_exercises].
    destruct (fetchone _) as [row|]; [|reflexivity]. cbn [option_map]. f_equal.
    unfold loaded_session, without_exercise, SessionRepository.with_exercises,
      SessionRepository._row_to_session.
    cbn [WorkoutSession.id WorkoutSession.template_id WorkoutSession.template_name
         WorkoutSession.started_at WorkoutSession.ended_at WorkoutSession.duration_seconds
         WorkoutSession.notes WorkoutSession.exercises].
    f_equal. unfold SessionRepository._load_exercises.
    assert (E : SessionRepository.select_exercises (SessionRow.id row) st'
                = filter (fun r => negb (has_pk SessionExerciseRow.id exercise_id r))
                    (SessionRepository.select_exercises (SessionRow.id row) (working db))).
    { unfold SessionRepository.select_exercises. cbn [st' session_exercises with_sets
        with_session_exercises]. unfold delete_where.
      rewrite <- order_by_filter. unfold order_by. f_equal. apply filter_filter_comm. }
    rewrite E.
    erewrite <- (filter_map_comm _ (fun r => negb (has_pk SessionExerciseRow.id exercise_id r)));
      [|intros x; reflexivity].
    apply map_ext_in. intros e I. f_equal.
    apply filter_In in I. destruct I as [_ P].
    f_equal. apply (select_sets_after_cascade _ deleted); [reflexivity|].
    destruct (pk_exists SessionExerciseRow.id (SessionExerciseRow.id e) deleted) eqn:D;
      [|reflexivity].
    apply pk_exists_selected in D. destruct D as [D _]. unfold has_pk in P.
    apply negb_true_iff, N.eqb_neq in P. contradiction.
  - cbn. intros e I. apply In_delete_where in I. destruct I as [_ P].
    unfold has_pk in P. apply N.eqb_neq, P.
  - cbn. intros w I E. apply In_delete_where in I. destruct I as [I P].
    assert (F := ok_exercise_of_set _ O w I). rewrite E in *.
    assert (D : pk_exists SessionExerciseRow.id exercise_id deleted = true)
      by (apply pk_exists_selected; auto).
    congruence.
  - reflexivity.
Qed.

Lemma loaded_session_unchanged (st st' : Store) (row : SessionRow.t) :
  SessionRepository.select_exercises (SessionRow.id row) st'
  = SessionRepository.select_exercises (SessionRow.id row) st ->
  (forall e, In e (SessionRepository.select_exercises (SessionRow.id row) st) ->
     SessionRepository.select_sets (SessionExerciseRow.id e) st'
     = SessionRepository.select_sets (SessionExerciseRow.id e) st) ->
  loaded_session st' row = loaded_session st row.
Proof.
  intros E S. unfold loaded_session, SessionRepository.with_exercises,
    SessionRepository._row_to_session, SessionRepository._load_exercises.
  cbn [WorkoutSession.id WorkoutSession.template_id WorkoutSession.template_name
       WorkoutSession.started_at WorkoutSession.ended_at WorkoutSession.duration_seconds
       WorkoutSession.notes WorkoutSession.exercises].
  f_equal. rewrite E. apply map_ext_in. intros e I. rewrite (S e I). reflexivity.
Qed.

Lemma session_select_exercises_In (sid : UUID) (st : Store) (e : SessionExerciseRow.t) :
  In e (SessionRepository.select_exercises sid st)
  <-> In e (session_exercises st) /\ SessionExerciseRow.session_id e = sid.
Proof.
  unfold SessionRepository.select_exercises. rewrite order_by_In, filter_In, N.eqb_eq.
  reflexivity.
Qed.

(** X24.  [SessionRepository.delete] returns without an error;
    afterwards [get_by_id] of the id returns [None], no exercise of the
    session and no set of such an exercise is left in the store, and every
    other session loads as before. *)
Theorem session_delete_cascades (session_id : UUID) (db : Database) :
  store_ok (working db) ->
  let db' := fst (SessionRepository.delete session_id db) in
  snd (SessionRepository.delete session_id db) = Return tt
  /\ SessionRepository.get_by_id session_id db' = None
  /\ (forall other, other <> session_id ->
        SessionRepository.get_by_id other db' = SessionRepository.get_by_id other db)
  /\ (forall e, In e (session_exercises (working db')) ->
        SessionExerciseRow.session_id e <> session_id)
  /\ (forall w e, In w (sets (working db')) -> In e (session_exercises (working db)) ->
        SessionExerciseRow.id e = SetRow.session_exercise_id w ->
        SessionExerciseRow.session_id e <> session_id).
Proof.
  intros O. unfold SessionRepository.delete. rewrite transaction_execute.
  cbn [fst snd SessionRepository.delete_session working].
  set (deleted := filter (has_pk SessionRow.id session_id) (workout_sessions (working db))).
  set (deleted_exercises := filter _ (session_exercises (working db))).
  set (st' := with_sets _ _).
  assert (DE : forall e, In e (session_exercises (working db)) ->
                 pk_exists SessionRow.id (SessionExerciseRow.session_id e) deleted
                 = N.eqb (SessionExerciseRow.session_id e) session_id).
  { intros e I. assert (F := ok_session_of_exercise _ O e I).
    destruct (N.eqb_spec (SessionExerciseRow.session_id e) session_id) as [E|E].
    - apply pk_exists_selected. rewrite <- E. auto.
    - destruct (pk_exists SessionRow.id _ deleted) eqn:D; [|reflexivity].
      apply pk_exists_selected in D. tauto. }
  split; [reflexivity|]. split; [|split; [|split]].
  - rewrite session_get_by_id_loaded. cbn [working st' workout_sessions with_sets
      with_session_exercises with_workout_sessions]. unfold delete_where.
    rewrite filter_none; [reflexivity|].
    intros r I. apply filter_In in I. destruct I as [_ P]. apply negb_true_iff, P.
  - intros other N. rewrite !session_get_by_id_loaded.
    cbn [working st' workout_sessions with_sets with_session_exercises with_workout_sessions].
    unfold delete_where. rewrite filter_filter_comm.
    rewrite (filter_all (fun r => negb (has_pk SessionRow.id session_id r))).
    2:{ intros r I. apply filter_In in I. destruct I as [_ P]. unfold has_pk in *.
        apply N.eqb_eq in P. apply negb_true_iff, N.eqb_neq. congruence. }
    destruct (fetchone _) as [row|] eqn:F; [|reflexivity]. cbn [option_map]. f_equal.
    apply fetchone_filter_Some in F. destruct F as [Ir Pr]. unfold has_pk in Pr.
    apply N.eqb_eq in Pr.
    assert (SE : SessionRepository.select_exercises (SessionRow.id row) st'
                 = SessionRepository.select_exercises (SessionRow.id row) (working db)).
    { unfold SessionRepository.select_exercises. cbn [st' session_exercises with_sets
        with_session_exercises]. unfold delete_where. rewrite filter_filter_comm.
      f_equal. apply filter_all. intros e I. apply filter_In in I. destruct I as [I P].
      apply N.eqb_eq in P. rewrite (DE e I), P, Pr.
      apply negb_true_iff, N.eqb_neq, N. }
    apply loaded_session_unchanged; [exact SE|].
    intros e I. apply (select_sets_after_cascade _ deleted_exercises); [reflexivity|].
    apply session_select_exercises_In in I. destruct I as [I S].
    apply pk_exists_false. intros x Ix Ex.
    apply filter_In in Ix. destruct Ix as [Ix Dx]. rewrite (DE x Ix) in Dx.
    apply N.eqb_eq in Dx.
    assert (x = e).
    { apply (NoDup_map_injective SessionExerciseRow.id (session_exercises (working db)));
        auto. apply (ok_session_exercises _ O). }
    subst x. congruence.
  - cbn. intros e I. apply In_delete_where in I. destruct I as [I P].
    rewrite (DE e I) in P. apply N.eqb_neq, P.
  - cbn. intros w e I Ie E S. apply In_delete_where in I. destruct I as [I P].
    assert (D : pk_exists SessionExerciseRow.id (SetRow.session_exercise_id w)
                  deleted_exercises = true).
    { apply pk_exists_true. exists e. split; [|exact E]. apply filter_In. split; [exact Ie|].
      rewrite (DE e Ie). apply N.eqb_eq, S. }
    congruence.
Qed.

Lemma fetchone_update_where {Row : Type} (p : Row -> bool) (f : Row -> Row) (t : list Row) :
  fetchone (update_where p f t) = option_map (fun r => if p r then f r else r) (fetchone t).
Proof. destruct t; reflexivity. Qed.

(** X20.  [end_session] with a duration that an SQLite INTEGER can
    hold (a signed 64-bit integer) returns without an error, also for an id
    that is not stored.  Afterwards the session of that id, if stored, loads
    with [ended_at] the present time and the given [duration_seconds], all
    else as before; it is no longer active, its [formatted_duration] is
    [format_duration] of the duration, and [get_active] never returns it.
    Every other session loads as before.  With a duration outside that range
    [end_session] raises [OverflowError] and the scope is rolled back: on a
    connection without pending work every session loads as before. *)
Theorem end_session_marks_ended (now : DateTime) (session_id : UUID) (duration_seconds : Z)
  (sid : UUID) (db : Database) :
  let db' := fst (SessionRepository.end_session now session_id duration_seconds db) in
  if fits_sqlite_integer duration_seconds
  then
    snd (SessionRepository.end_session now session_id duration_seconds db) = Return tt
    /\ SessionRepository.get_by_id sid db'
       = (if N.eqb sid session_id
          then option_map (ended now duration_seconds) (SessionRepository.get_by_id sid db)
          else SessionRepository.get_by_id sid db)
    /\ (forall s, SessionRepository.get_by_id session_id db' = Some s ->
          WorkoutSession.is_active s = false
          /\ WorkoutSession.ended_at s = Some now
          /\ WorkoutSession.duration_seconds s = Some duration_seconds
          /\ WorkoutSession.formatted_duration s = format_duration duration_seconds)
    /\ (forall s, SessionRepository.get_active db' = Some s ->
          WorkoutSession.id s <> session_id)
  else
    snd (SessionRepository.end_session now session_id duration_seconds db)
    = Raise OverflowError
    /\ working db' = committed db
    /\ committed db' = committed db
    /\ commits db' = commits db
    /\ (clean db ->
        SessionRepository.get_by_id sid db' = SessionRepository.get_by_id sid db
        /\ SessionRepository.get_active db' = SessionRepository.get_active db).
Proof.
  unfold SessionRepository.end_session. rewrite transaction_execute_binding.
  destruct (fits_sqlite_integer duration_seconds).
  2:{ cbn. repeat (split; [reflexivity|]). intros C.
      unfold SessionRepository.get_by_id, SessionRepository.get_active, cursor. cbn.
      rewrite C. split; reflexivity. }
  rewrite transaction_execute. cbn [fst snd].
  set (st' := with_workout_sessions _ _).
  assert (G : forall k, SessionRepository.get_by_id k (mkDatabase st' st' (S (commits db)) (rollbacks db))
              = (if N.eqb k session_id
                 then option_map (ended now duration_seconds) (SessionRepository.get_by_id k db)
                 else SessionRepository.get_by_id k db)).
  { intros k. rewrite !session_get_by_id_loaded. cbn [working st' workout_sessions
      with_workout_sessions].
    rewrite update_where_filter by reflexivity. rewrite fetchone_update_where.
    destruct (fetchone _) as [row|] eqn:F; [|destruct (N.eqb k session_id); reflexivity].
    apply fetchone_filter_Some in F. destruct F as [_ P]. unfold has_pk in P.
    apply N.eqb_eq in P. cbn [option_map]. unfold has_pk. rewrite P. subst k.
    destruct (N.eqb (SessionRow.id row) session_id); reflexivity. }
  split; [reflexivity|]. split; [apply G|]. split.
  - intros s. rewrite G, N.eqb_refl. destruct (SessionRepository.get_by_id session_id db);
      [|discriminate]. intros [= <-]. cbn. auto.
  - intros s. unfold SessionRepository.get_active, cursor.
    cbn [working st' workout_sessions with_workout_sessions].
    destruct (fetchone _) as [row|] eqn:F; [|discriminate]. intros [= <-]. cbn.
    unfold sql_limit in F. cbn in F.
    assert (I : In row (filter (fun r => match SessionRow.ended_at r with
                                         | None => true | Some _ => false end)
                          (update_where (has_pk SessionRow.id session_id)
                             (fun old => SessionRow.mk (SessionRow.id old)
                                (SessionRow.template_id old) (SessionRow.template_name old)
                                (SessionRow.started_at old) (Some now) (Some duration_seconds)
                                (SessionRow.notes old))
                             (workout_sessions (working db))))).
    { destruct (order_by_desc _ _) as [|r l] eqn:E; [discriminate|].
      cbn in F. injection F as ->.
      apply (order_by_In (fun r => - SessionRow.started_at r)).
      unfold order_by_desc in E. rewrite E. left. reflexivity. }
    apply filter_In in I. destruct I as [I A]. apply In_update_where in I.
    destruct I as (old & _ & [[P ->]|[P ->]]); [discriminate|].
    unfold has_pk in P. apply N.eqb_neq, P.
Qed.

(** * Listing sessions and templates *)

Lemma fetchone_by_pk {Row : Type} (pk : Row -> UUID) (t : list Row) (r : Row) :
  NoDup (map pk t) -> In r t -> fetchone (filter (has_pk pk (pk r)) t) = Some r.
Proof.
  induction t as [|x t IH]; cbn; intros N I; [destruct I|].
  inversion N as [|? ? NI N']; subst. unfold has_pk at 1.
  destruct I as [->|I].
  - rewrite N.eqb_refl. reflexivity.
  - destruct (N.eqb_spec (pk x) (pk r)) as [E|E]; [|auto].
    exfalso. apply NI. rewrite E. apply in_map, I.
Qed.

Lemma fetchone_limit_1 {A : Type} (l : list A) : fetchone (sql_limit 1 l) = fetchone l.
Proof. destruct l; reflexivity. Qed.

(** X19.  [SessionRepository.get_active] returns [None] exactly when
    every stored session has ended; otherwise it returns a stored session
    that has not ended, loaded with its exercises, and no session that has
    not ended started later. *)
Theorem get_active_is_latest_unended (db : Database) :
  match SessionRepository.get_active db with
  | Some s =>
      WorkoutSession.is_active s = true
      /\ (exists row, In row (workout_sessions (working db))
                      /\ s = loaded_session (working db) row)
      /\ (forall row, In row (workout_sessions (working db)) ->
            SessionRow.ended_at row = None ->
            SessionRow.started_at row <= WorkoutSession.started_at s)
      /\ (NoDup (map SessionRow.id (workout_sessions (working db))) ->
          SessionRepository.get_by_id (WorkoutSession.id s) db = Some s)
  | None =>
      forall row, In row (workout_sessions (working db)) -> SessionRow.ended_at row <> None
  end.
Proof.
  unfold SessionRepository.get_active, cursor. rewrite fetchone_limit_1.
  set (unended := fun r => match SessionRow.ended_at r with None => true | Some _ => false end).
  assert (H := order_by_desc_head SessionRow.started_at
                 (filter unended (workout_sessions (working db)))).
  destruct (fetchone _) as [row|].
  - destruct H as [I M]. apply filter_In in I. destruct I as [I U].
    split; [|split; [|split]].
    + unfold unended in U. cbn. unfold WorkoutSession.is_active. cbn. 
      destruct (SessionRow.ended_at row); [discriminate|reflexivity].
    + exists row. split; [exact I|reflexivity].
    + intros row' I' E'. cbn. apply M. apply filter_In. split; [exact I'|].
      unfold unended. rewrite E'. reflexivity.
    + intros N. rewrite session_get_by_id_loaded. cbn.
      rewrite (fetchone_by_pk SessionRow.id _ row N I). reflexivity.
  - intros row I E. assert (I' : In row (filter unended (workout_sessions (working db)))).
    { apply filter_In. split; [exact I|]. unfold unended. rewrite E. reflexivity. }
    rewrite H in I'. destruct I'.
Qed.

Lemma StronglySorted_map_rel {A B : Type} (R : B -> B -> Prop) (f : A -> B) (l : list A) :
  StronglySorted (fun a b => R (f a) (f b)) l -> StronglySorted R (map f l).
Proof.
  induction 1 as [|x l S IH F]; cbn; constructor; [exact IH|].
  apply Forall_map. exact F.
Qed.

Lemma firstn_incl {A : Type} (n : nat) (l : list A) (y : A) :
  In y (firstn n l) -> In y l.
Proof.
  revert n. induction l as [|x l IH]; intros [|n]; cbn; try tauto.
  intros [->|I]; eauto.
Qed.

Lemma StronglySorted_firstn {A : Type} (R : A -> A -> Prop) (n : nat) (l : list A) :
  StronglySorted R l -> StronglySorted R (firstn n l).
Proof.
  intros S. revert n. induction S as [|x l S IH F]; intros [|n]; cbn; try constructor.
  - apply IH.
  - rewrite Forall_forall in *. intros y I. apply F. eapply firstn_incl, I.
Qed.

Lemma sql_limit_incl {A : Type} (n : Z) (l : list A) (y : A) :
  In y (sql_limit n l) -> In y l.
Proof. unfold sql_limit. destruct (n <? 0); [auto|apply firstn_incl]. Qed.

Lemma order_by_desc_sorted {A : Type} (key : A -> Z) (l : list A) :
  StronglySorted (fun a b => key b <= key a) (order_by_desc key l).
Proof.
  unfold order_by_desc.
  assert (S := order_by_sorted (fun r => - key r) l).
  induction S as [|x l' S IH F]; constructor; [exact IH|].
  rewrite Forall_forall in *. intros y I. specialize (F y I). cbn in F. lia.
Qed.


Lemma ascii_compare_trans (a b c : ascii) :
  Ascii.compare a b <> Gt -> Ascii.compare b c <> Gt -> Ascii.compare a c <> Gt.
Proof.
  unfold Ascii.compare. rewrite !N.compare_le_iff.
  intros H1 H2. unfold N.le in *.
  destruct (N.compare_spec (N_of_ascii a) (N_of_ascii b)),
           (N.compare_spec (N_of_ascii b) (N_of_ascii c)),
           (N.compare_spec (N_of_ascii a) (N_of_ascii c)); try congruence; lia.
Qed.

Lemma string_leb_trans (a b c : string) :
  String.leb a b = true -> String.leb b c = true -> String.leb a c = true.
Proof.
  unfold String.leb. revert b c.
  induction a as [|x a IH]; intros [|y b] [|z c]; cbn; try congruence.
  unfold Ascii.compare.
  destruct (N.compare_spec (N_of_ascii x) (N_of_ascii y)) as [E1|L1|L1];
    destruct (N.compare_spec (N_of_ascii y) (N_of_ascii z)) as [E2|L2|L2];
    destruct (N.compare_spec (N_of_ascii x) (N_of_ascii z)) as [E3|L3|L3];
    try congruence; try lia; try (intros; reflexivity).
  apply IH.
Qed.

Lemma insert_sorted_text_In {A : Type} (key : A -> string) (x y : A) (l : list A) :
  In y (insert_sorted_text key x l) <-> y = x \/ In y l.
Proof.
  induction l as [|z l IH]; cbn; [intuition|].
  destruct (String.leb (key x) (key z)); cbn; rewrite ?IH; intuition.
Qed.

Lemma order_by_text_Permutation {A : Type} (key : A -> string) (l : list A) :
  Permutation (order_by_text key l) l.
Proof.
  induction l as [|x l IH]; [constructor|].
  change (order_by_text key (x :: l)) with (insert_sorted_text key x (order_by_text key l)).
  transitivity (x :: order_by_text key l); [|constructor; exact IH].
  generalize (order_by_text key l) as s. clear. induction s as [|z s IH]; cbn; [reflexivity|].
  destruct (String.leb (key x) (key z)); [reflexivity|].
  rewrite IH. apply perm_swap.
Qed.

Lemma order_by_text_sorted {A : Type} (key : A -> string) (l : list A) :
  StronglySorted (fun a b => String.leb (key a) (key b) = true) (order_by_text key l).
Proof.
  induction l as [|x l IH]; [constructor|].
  change (order_by_text key (x :: l)) with (insert_sorted_text key x (order_by_text key l)).
  revert IH. generalize (order_by_text key l) as s. clear.
  induction s as [|z s IHs]; cbn; intros S.
  - repeat constructor.
  - inversion S as [|? ? S' F]; subst.
    destruct (String.leb (key x) (key z)) eqn:L.
    + constructor; [exact S|]. constructor; [exact L|].
      rewrite Forall_forall in *. intros y I. eapply string_leb_trans; eauto.
    + constructor; [auto|]. rewrite Forall_forall in *. intros y I.
      apply insert_sorted_text_In in I. destruct I as [->|I]; [|auto].
      destruct (String.leb_total (key x) (key z)); congruence.
Qed.

Lemma template_get_by_id_loaded (tid : UUID) (db : Database) :
  TemplateRepository.get_by_id tid db
  = option_map
      (fun row => WorkoutTemplate.mk (TemplateRow.id row) (TemplateRow.name row)
                    (TemplateRow.created_at row)
                    (map TemplateRepository.exercise_of_row
                       (TemplateRepository.select_exercises tid (working db))))
      (fetchone (filter (has_pk TemplateRow.id tid) (workout_templates (working db)))).
Proof.
  unfold TemplateRepository.get_by_id, cursor. destruct (fetchone _); reflexivity.
Qed.

(** X12.  [TemplateRepository.get_all] returns every stored template
    once, with its exercises, in ascending order of the names; when the ids
    of the rows are distinct, a template is in the list exactly when
    [get_by_id] of its id returns it. *)
Theorem template_get_all_by_name (db : Database) :
  let listed := TemplateRepository.get_all db in
  StronglySorted
    (fun a b => String.leb (WorkoutTemplate.name a) (WorkoutTemplate.name b) = true) listed
  /\ Permutation listed (map (loaded_template (working db)) (workout_templates (working db)))
  /\ (NoDup (map TemplateRow.id (workout_templates (working db))) ->
      forall t, In t listed <-> TemplateRepository.get_by_id (WorkoutTemplate.id t) db = Some t).
Proof.
  unfold TemplateRepository.get_all, cursor.
  change (fun row : TemplateRow.t =>
            WorkoutTemplate.mk (TemplateRow.id row) (TemplateRow.name row)
              (TemplateRow.created_at row)
              (map TemplateRepository.exercise_of_row
                 (TemplateRepository.select_exercises (TemplateRow.id row) (working db))))
    with (loaded_template (working db)).
  cbv zeta. split; [|split].
  - apply StronglySorted_map_rel. apply order_by_text_sorted.
  - apply Permutation_map, order_by_text_Permutation.
  - intros N t. rewrite template_get_by_id_loaded. split.
    + intros I. apply in_map_iff in I. destruct I as (row & <- & I).
      apply (Permutation_in _ (order_by_text_Permutation _ _)) in I.
      replace (WorkoutTemplate.id _) with (TemplateRow.id row) by reflexivity.
      rewrite (fetchone_by_pk TemplateRow.id _ row N I). reflexivity.
    + destruct (fetchone _) as [row|] eqn:F; [|discriminate]. intros [= <-].
      apply fetchone_filter_Some in F. destruct F as [I P]. unfold has_pk in P.
      apply N.eqb_eq in P. cbn [WorkoutTemplate.id]. 
      apply in_map_iff. exists row. split.
      * unfold loaded_template. rewrite P. reflexivity.
      * apply (Permutation_in _ (Permutation_sym (order_by_text_Permutation _ _))), I.
Qed.

(** * Deleting templates *)

Lemma template_select_exercises_ext (tid : UUID) (st st' : Store) :
  filter (fun r => N.eqb (TemplateExerciseRow.template_id r) tid) (template_exercises st')
  = filter (fun r => N.eqb (TemplateExerciseRow.template_id r) tid) (template_exercises st) ->
  TemplateRepository.select_exercises tid st' = TemplateRepository.select_exercises tid st.
Proof. unfold TemplateRepository.select_exercises. intros ->. reflexivity. Qed.

(** X13.  [TemplateRepository.delete] returns without an error,
    also for an id that is not stored; afterwards [get_by_id] of the id
    returns [None], no exercise row of the template is left, and every other
    template loads as before. *)
Theorem template_delete_cascades (template_id : UUID) (db : Database) :
  store_ok (working db) ->
  let db' := fst (TemplateRepository.delete template_id db) in
  snd (TemplateRepository.delete template_id db) = Return tt
  /\ TemplateRepository.get_by_id template_id db' = None
  /\ (forall r, In r (template_exercises (working db')) ->
        TemplateExerciseRow.template_id r <> template_id)
  /\ (forall other, other <> template_id ->
        TemplateRepository.get_by_id other db' = TemplateRepository.get_by_id other db).
Proof.
  intros O. unfold TemplateRepository.delete. rewrite transaction_execute.
  cbn [fst snd TemplateRepository.delete_template working].
  set (deleted := filter (has_pk TemplateRow.id template_id) (workout_templates (working db))).
  set (st' := with_workout_sessions _ _).
  split; [reflexivity|]. split; [|split].
  - rewrite template_get_by_id_loaded.
    cbn [working st' workout_templates with_workout_sessions with_template_exercises
         with_workout_templates].
    unfold delete_where. rewrite filter_none; [reflexivity|].
    intros r I. apply filter_In in I. destruct I as [_ P]. apply negb_true_iff, P.
  - cbn. intros r I E. apply In_delete_where in I. destruct I as [I P].
    assert (F := ok_template_of_exercise _ O r I). rewrite E in *.
    assert (D : pk_exists TemplateRow.id template_id deleted = true)
      by (apply pk_exists_selected; auto).
    congruence.
  - intros other N. rewrite !template_get_by_id_loaded.
    cbn [working st' workout_templates with_workout_sessions with_template_exercises
         with_workout_templates].
    unfold delete_where at 1. rewrite filter_filter_comm.
    rewrite (filter_all (fun r => negb (has_pk TemplateRow.id template_id r))).
    2:{ intros r I. apply filter_In in I. destruct I as [_ P]. unfold has_pk in *.
        apply N.eqb_eq in P. apply negb_true_iff, N.eqb_neq. congruence. }
    rewrite (template_select_exercises_ext other (working db) st'); [reflexivity|].
    cbn [st' template_exercises with_workout_sessions with_template_exercises].
    unfold delete_where. rewrite filter_filter_comm. apply filter_all.
    intros r I. apply filter_In in I. destruct I as [_ P]. apply N.eqb_eq in P.
    rewrite P. apply negb_true_iff.
    destruct (pk_exists TemplateRow.id other deleted) eqn:D; [|reflexivity].
    apply pk_exists_selected in D. tauto.
Qed.

(** X14.  Deleting a template deletes no session: every session loads
    as before, with its [template_name], its exercises and its sets, except
    that a [template_id] that referred to the deleted template is now
    [None] (ON DELETE SET NULL). *)
Theorem template_delete_keeps_sessions (template_id sid : UUID) (db : Database) :
  store_ok (working db) ->
  let db' := fst (TemplateRepository.delete template_id db) in
  SessionRepository.get_by_id sid db'
  = option_map (without_template template_id) (SessionRepository.get_by_id sid db)
  /\ (forall s, In s (workout_sessions (working db')) ->
        SessionRow.template_id s <> Some template_id)
  /\ map SessionRow.id (workout_sessions (working db'))
     = map SessionRow.id (workout_sessions (working db)).
Proof.
  intros O. unfold TemplateRepository.delete. rewrite transaction_execute.
  cbn [fst snd TemplateRepository.delete_template working].
  set (deleted := filter (has_pk TemplateRow.id template_id) (workout_templates (working db))).
  set (st' := with_workout_sessions _ _).
  assert (DS : forall s t, In s (workout_sessions (working db)) ->
                 SessionRow.template_id s = Some t ->
                 pk_exists TemplateRow.id t deleted = N.eqb t template_id).
  { intros s t I E. assert (F := ok_template_of_session _ O s I). rewrite E in F. cbn in F.
    destruct (N.eqb_spec t template_id) as [->|N].
    - apply pk_exists_selected. auto.
    - destruct (pk_exists TemplateRow.id t deleted) eqn:D; [|reflexivity].
      apply pk_exists_selected in D. tauto. }
  split; [|split].
  - rewrite !session_get_by_id_loaded.
    cbn [working st' workout_sessions with_workout_sessions].
    rewrite update_where_filter by reflexivity. rewrite fetchone_update_where.
    destruct (fetchone _) as [row|] eqn:F; [|reflexivity].
    apply fetchone_filter_Some in F. destruct F as [I _]. cbn [option_map]. f_equal.
    unfold without_template, loaded_session, SessionRepository.with_exercises,
      SessionRepository._row_to_session. cbn.
    destruct (SessionRow.template_id row) as [t|] eqn:E; cbn.
    + rewrite (DS row t I E). destruct (N.eqb t template_id); cbn; rewrite ?E; reflexivity.
    + rewrite E. reflexivity.
  - cbn. intros s I E. apply In_update_where in I.
    destruct I as (old & I & [[P ->]|[P ->]]); [discriminate|].
    rewrite E in P. rewrite (DS old template_id I E), N.eqb_refl in P. discriminate.
  - cbn. apply update_where_map_pk. reflexivity.
Qed.

(** * Duplicating templates *)

Lemma copy_exercises_ids (uuid4 : nat -> UUID) (call : nat) (tid : UUID)
  (l : list TemplateExercise.t) :
  map TemplateExercise.id (TemplateRepository.copy_exercises uuid4 call tid l)
  = map uuid4 (seq call (List.length l)).
Proof.
  revert call. induction l as [|e l IH]; intros call; cbn; [reflexivity|].
  rewrite IH. reflexivity.
Qed.

Lemma copy_exercises_copy_of (uuid4 : nat -> UUID) (call : nat) (tid : UUID)
  (l : list TemplateExercise.t) :
  Forall2 (copy_of tid) l (TemplateRepository.copy_exercises uuid4 call tid l).
Proof.
  revert call. induction l as [|e l IH]; intros call; cbn; constructor; [|apply IH].
  repeat split.
Qed.

Lemma copy_exercises_order (uuid4 : nat -> UUID) (call : nat) (tid : UUID)
  (l : list TemplateExercise.t) :
  map TemplateExercise.order_index (TemplateRepository.copy_exercises uuid4 call tid l)
  = map TemplateExercise.order_index l.
Proof.
  revert call. induction l as [|e l IH]; intros call; cbn; [reflexivity|].
  rewrite IH. reflexivity.
Qed.

Lemma sorted_by_keys {A B : Type} (key : A -> Z) (key' : B -> Z) (l : list A) (l' : list B) :
  map key l = map key' l' ->
  StronglySorted (fun a b => key a <= key b) l ->
  StronglySorted (fun a b => key' a <= key' b) l'.
Proof.
  intros E S. revert l' E. induction S as [|x l S IH F]; intros [|y l'] E; try discriminate;
    constructor; injection E as Ex E.
  - apply IH, E.
  - rewrite Forall_forall in *. intros z I.
    apply (in_map key') in I. rewrite <- E in I. apply in_map_iff in I.
    destruct I as (w & Ew & Iw). specialize (F w Iw). lia.
Qed.

Lemma NoDup_map_seq (uuid4 : nat -> UUID) (call n : nat) :
  (forall i j, uuid4 (S i) = uuid4 (S j) -> i = j) ->
  NoDup (map uuid4 (seq (S call) n)).
Proof.
  intros Inj. revert call. induction n as [|n IH]; intros call; cbn; constructor; [|apply IH].
  intros I. apply in_map_iff in I. destruct I as (j & E & I). apply in_seq in I.
  destruct j as [|j]; [lia|]. apply Inj in E. lia.
Qed.

(** X15.  [TemplateRepository.duplicate] of an id that is not stored
    returns [None] and writes nothing.  Of a stored template, when the ids it
    draws are new and distinct, it returns a template with a new id, the new
    name and the present time, whose exercises copy the name, the order index
    and the weight flag of the original's one by one under new ids; the copy
    is stored as returned and the original loads as before. *)
Theorem duplicate_copies_template (uuid4 : nat -> UUID) (now : DateTime)
  (template_id : UUID) (new_name : string) (db : Database) :
  pk_exists TemplateRow.id (uuid4 0%nat) (workout_templates (working db)) = false ->
  (forall j, pk_exists TemplateExerciseRow.id (uuid4 (S j))
               (template_exercises (working db)) = false) ->
  (forall i j, uuid4 (S i) = uuid4 (S j) -> i = j) ->
  match TemplateRepository.get_by_id template_id db with
  | None =>
      TemplateRepository.duplicate uuid4 now template_id new_name db = (db, Return None)
  | Some original =>
      exists db' copy,
        TemplateRepository.duplicate uuid4 now template_id new_name db
        = (db', Return (Some copy))
        /\ WorkoutTemplate.id copy = uuid4 0%nat
        /\ WorkoutTemplate.name copy = new_name
        /\ WorkoutTemplate.created_at copy = now
        /\ Forall2 (copy_of (uuid4 0%nat))
             (WorkoutTemplate.exercises original) (WorkoutTemplate.exercises copy)
        /\ TemplateRepository.get_by_id (uuid4 0%nat) db' = Some copy
        /\ TemplateRepository.get_by_id template_id db' = Some original
  end.
Proof.
  intros Ft Fe Inj. unfold TemplateRepository.duplicate.
  destruct (TemplateRepository.get_by_id template_id db) as [original|] eqn:G; [|reflexivity].
  cbn [WorkoutTemplate.create WorkoutTemplate.id WorkoutTemplate.name
       WorkoutTemplate.created_at WorkoutTemplate.exercises app].
  set (copy := WorkoutTemplate.mk (uuid4 0%nat) new_name now
                 (TemplateRepository.copy_exercises uuid4 1 (uuid4 0%nat)
                    (WorkoutTemplate.exercises original))).
  assert (S : TemplateRepository.save copy db
              = (mkDatabase (saved_template_store copy (working db))
                   (saved_template_store copy (working db)) (S (commits db)) (rollbacks db),
                 Return tt)).
  { apply template_save_ok.
    - cbn [copy WorkoutTemplate.exercises]. rewrite copy_exercises_ids.
      apply NoDup_map_seq, Inj.
    - intros row I J. exfalso. cbn [copy WorkoutTemplate.exercises] in J.
      rewrite copy_exercises_ids in J. apply in_map_iff in J.
      destruct J as (j & E & J). apply in_seq in J. destruct j as [|j]; [lia|].
      specialize (Fe j).
      assert (T : pk_exists TemplateExerciseRow.id (uuid4 (Datatypes.S j))
                    (template_exercises (working db)) = true).
      { apply pk_exists_true. exists row. auto. }
      congruence. }
  rewrite S. eexists _, copy. split; [reflexivity|].
  repeat (split; [reflexivity|]).
  split; [apply copy_exercises_copy_of|].
  apply template_get_by_id_Some in G. destruct G as (row & F & Erow & Eorig).
  assert (Nid : template_id <> uuid4 0%nat).
  { intros E. apply fetchone_filter_Some in F. destruct F as [I P].
    rewrite E in *.
    assert (T : pk_exists TemplateRow.id (uuid4 0%nat) (workout_templates (working db)) = true).
    { apply pk_exists_true. exists row. auto. }
    congruence. }
  split.
  - refine (eq_trans (template_get_saved copy (mkDatabase _ _ _ _) (working db) eq_refl) _).
    unfold copy.
    cbn [WorkoutTemplate.id WorkoutTemplate.name WorkoutTemplate.created_at
         WorkoutTemplate.exercises].
    rewrite (filter_has_pk_absent TemplateRow.id _ _ Ft). cbn [fetchone hd_error].
    f_equal. f_equal. fold copy.
    rewrite (order_by_map TemplateExercise.order_index TemplateExerciseRow.order_index)
      by reflexivity.
    rewrite order_by_of_sorted.
    + rewrite map_map.
      etransitivity; [|apply map_id].
      apply map_ext_in. intros e I. apply exercise_of_params.
      assert (C := copy_exercises_copy_of uuid4 1 (uuid4 0%nat)
                     (WorkoutTemplate.exercises original)).
      clear - C I. induction C as [|o c l l' H C IH]; [destruct I|].
      destruct I as [<-|I]; [apply H|auto].
    + apply (sorted_by_keys TemplateExerciseRow.order_index TemplateExercise.order_index
               (TemplateRepository.select_exercises template_id (working db))).
      * rewrite copy_exercises_order, Eorig. cbn [WorkoutTemplate.exercises].
        rewrite map_map. reflexivity.
      * apply order_by_sorted.
  - rewrite template_get_by_id_loaded. cbn [working].
    unfold saved_template_store. cbn [workout_templates with_template_exercises
      with_workout_templates].
    rewrite upsert_row_other by (cbn; auto).
    rewrite F. cbn [option_map]. rewrite Eorig, Erow. do 3 f_equal.
    apply template_select_exercises_ext.
    unfold saved_template_store. cbn [template_exercises with_template_exercises].
    rewrite filter_app. unfold delete_where. rewrite filter_filter_comm.
    rewrite (filter_all (fun r => negb _)).
    2:{ intros r I. apply filter_In in I. destruct I as [_ P]. apply N.eqb_eq in P.
        rewrite P. apply negb_true_iff, N.eqb_neq. cbn. exact Nid. }
    rewrite (filter_none _ (map _ _)); [apply app_nil_r|].
    intros r I. apply in_map_iff in I. destruct I as (e & <- & _). cbn.
    apply N.eqb_neq. auto.
Qed.

(** * Conflicts and interrupted scopes *)


Lemma insert_exercise_appends (r : TemplateExerciseRow.t) (st st' : Store) :
  TemplateRepository.insert_exercise r st = inr st' ->
  template_exercises st' = template_exercises st ++ [r].
Proof.
  unfold TemplateRepository.insert_exercise, insert_row.
  destruct (pk_exists TemplateExerciseRow.id _ _); [discriminate|].
  destruct (pk_exists TemplateRow.id _ _); [|discriminate]. intros [= <-]. reflexivity.
Qed.

Lemma insert_exercise_raises (r : TemplateExerciseRow.t) (st : Store) (e : SqlError) :
  TemplateRepository.insert_exercise r st = inl e -> exists msg, e = IntegrityError msg.
Proof.
  unfold TemplateRepository.insert_exercise, insert_row, fk_failed.
  destruct (pk_exists TemplateExerciseRow.id _ _); [intros [= <-]; eauto|].
  destruct (pk_exists TemplateRow.id _ _); [discriminate|]. intros [= <-]. eauto.
Qed.

Lemma insert_exercises_conflict (rows : list TemplateExerciseRow.t) (db : Database)
  (r : TemplateExerciseRow.t) :
  In r rows ->
  pk_exists TemplateExerciseRow.id (TemplateExerciseRow.id r)
    (template_exercises (working db)) = true ->
  exists partial msg,
    for_each rows (fun r => execute (TemplateRepository.insert_exercise r)) db
    = (partial, Raise (Sqlite3Error (IntegrityError msg))).
Proof.
  revert db. induction rows as [|x rows IH]; intros db I P; [destruct I|].
  cbn [for_each]. unfold tx_bind, execute at 1.
  destruct (TemplateRepository.insert_exercise x (working db)) as [e|st1] eqn:E.
  - apply insert_exercise_raises in E. destruct E as [msg ->]. eauto.
  - destruct I as [->|I].
    + exfalso. unfold TemplateRepository.insert_exercise, insert_row in E. rewrite P in E.
      discriminate.
    + apply (IH _ I). cbn [working with_working].
      rewrite (insert_exercise_appends _ _ _ E), pk_exists_app, P.
      reflexivity.
Qed.


(** X8.  [Database.transaction] catches [Exception] only.  When the
    body of a scope that writes with INSERT, UPDATE and DELETE raises
    [KeyboardInterrupt], the scope neither commits nor rolls back: the
    exception leaves the scope, what the body has written stays pending on
    the connection, and the next scope that succeeds commits it together
    with its own writes. *)
Theorem interrupt_escapes_rollback (steps next : list Step) (db : Database)
  (pending after : Store) :
  run_steps steps (working db) = (pending, Some KeyboardInterrupt) ->
  run_steps next pending = (after, None) ->
  let db1 := fst (transaction (for_each steps step) db) in
  snd (transaction (for_each steps step) db) = Raise KeyboardInterrupt
  /\ working db1 = pending
  /\ committed db1 = committed db
  /\ commits db1 = commits db
  /\ rollbacks db1 = rollbacks db
  /\ transaction (for_each next step) db1
     = (mkDatabase after after (S (commits db)) (rollbacks db), Return tt).
Proof.
  intros E1 E2. cbv zeta.
  destruct (for_each_step steps db) as [t F]. rewrite E1 in F. cbn [fst snd] in F.
  assert (T : transaction (for_each steps step) db
              = (mkConnection (committed db) pending t (commits db) (rollbacks db),
                 Raise KeyboardInterrupt)).
  { unfold transaction. rewrite F. reflexivity. }
  rewrite T. cbn [fst snd working committed commits rollbacks].
  repeat (split; [reflexivity|]).
  destruct (for_each_step next
              (mkConnection (committed db) pending t (commits db) (rollbacks db)))
    as [t' G].
  cbn [working committed commits rollbacks] in G. rewrite E2 in G. cbn [fst snd] in G.
  unfold transaction. rewrite G. reflexivity.
Qed.

(** * Failing migrations *)

Lemma execute_sql_only (stmt : Store -> SqlError + Store) : sql_only (execute stmt).
Proof.
  intros db db' e. unfold execute. destruct (stmt (working db)); intros [= _ <-]. eauto.
Qed.

Lemma execute_create_sql_only (stmt : Store -> SqlError + Store) :
  sql_only (execute_create stmt).
Proof.
  intros db db' e. unfold execute_create. destruct (stmt (working db)); intros [= _ <-].
  eauto.
Qed.

Lemma bind_sql_only {A B : Type} (m : Tx A) (k : A -> Tx B) :
  sql_only m -> (forall a, sql_only (k a)) -> sql_only (tx_bind m k).
Proof.
  intros Hm Hk db db' e. unfold tx_bind. destruct (m db) as [db1 [a|e1]] eqn:E.
  - apply Hk.
  - intros [= _ <-]. exact (Hm _ _ _ E).
Qed.

Lemma for_each_sql_only {A : Type} (l : list A) (body : A -> Tx unit) :
  (forall x, sql_only (body x)) -> sql_only (for_each l body).
Proof.
  intros H. induction l as [|x l IH]; cbn [for_each].
  - intros db db' e [=].
  - apply bind_sql_only; auto.
Qed.

(** A scope that raises: what it raises, and that the connection then sees
    what the file held when the body stopped. *)
Lemma transaction_sql_raise {A : Type} (m : Tx A) (db db' : Database) (e : PyExc) :
  sql_only m ->
  transaction m db = (db', Raise e) ->
  is_Exception e = true /\ clean db'
  /\ exists db1 r, m db = (db1, r) /\ working db' = committed db1.
Proof.
  intros S. unfold transaction. destruct (m db) as [db1 [a|e1]] eqn:E; [discriminate|].
  destruct (S _ _ _ E) as [err ->]. cbn. intros [= <- <-]. cbn.
  repeat split. eauto.
Qed.

Lemma same_data_refl (st : Store) : same_data st st.
Proof. reflexivity. Qed.

Lemma same_data_trans (a b c : Store) : same_data a b -> same_data b c -> same_data a c.
Proof. unfold same_data. congruence. Qed.

Lemma create_table_same_data (name : string) (st st' : Store) :
  create_table_if_not_exists name st = inr st' -> same_data st st'.
Proof.
  unfold create_table_if_not_exists.
  destruct (catalogued "table" name st); [|destruct (catalogued "index" name st)];
    intros [= <-]; reflexivity.
Qed.

Lemma create_index_same_data (name table : string) (st st' : Store) :
  create_index_if_not_exists name table st = inr st' -> same_data st st'.
Proof.
  unfold create_index_if_not_exists.
  destruct (negb _); [discriminate|]. destruct (catalogued "table" name st); [discriminate|].
  destruct (catalogued "index" name st); intros [= <-]; reflexivity.
Qed.

Lemma clean_coherent (db : Database) : clean db -> coherent db.
Proof. intros C _. exact C. Qed.

(** the statements of [migration_001_initial_schema] create tables and
    indexes only *)
Lemma migration_001_body_respects (R : Store -> Store -> Prop) :
  (forall st, R st st) -> (forall a b c, R a b -> R b c -> R a c) ->
  (forall name st st', create_table_if_not_exists name st = inr st' -> R st st') ->
  (forall name table st st', create_index_if_not_exists name table st = inr st' -> R st st') ->
  forall db db' r,
    migration_001_initial_schema db = (db', r) -> clean db ->
    R (working db) (working db').
Proof.
  intros Rr Rt RT RI db db' r E C. unfold migration_001_initial_schema in E.
  match type of E with transaction ?m _ = _ =>
    assert (W : tx_respects R m);
    [ | assert (F : tx_respects_file R m) ]
  end.
  { repeat (apply (bind_respects R Rt);
            [ apply (execute_create_respects R Rr); first [ apply RT | apply RI ]
            | intros _ ]).
    apply (execute_create_respects R Rr), RI. }
  { repeat (apply (bind_respects_file R Rt);
            [ apply (execute_create_respects_file R Rr); first [ apply RT | apply RI ]
            | intros _ ]).
    apply (execute_create_respects_file R Rr), RI. }
  unfold transaction in E.
  destruct (tx_bind _ _ db) as [db1 [a|e]] eqn:B.
  - injection E as <- <-. cbn. exact (W _ _ _ B).
  - destruct (F _ _ _ B (clean_coherent db C)) as [_ H].
    destruct (is_Exception e); injection E as <- <-; cbn.
    + rewrite C. exact H.
    + exact (W _ _ _ B).
Qed.

Lemma migration_001_outcome (db db' : Database) (r : Outcome unit) :
  clean db ->
  migration_001_initial_schema db = (db', r) ->
  clean db'
  /\ same_data (working db) (working db')
  /\ keeps_ledger (working db) (working db')
  /\ (forall e, r = Raise e -> is_Exception e = true).
Proof.
  intros C E.
  assert (D : same_data (working db) (working db')).
  { apply (migration_001_body_respects same_data same_data_refl same_data_trans
             create_table_same_data create_index_same_data db db' r E C). }
  assert (K : keeps_ledger (working db) (working db')).
  { apply (migration_001_body_respects keeps_ledger keeps_ledger_refl keeps_ledger_trans
             create_table_keeps_ledger create_index_keeps_ledger db db' r E C). }
  destruct r as [[]|e].
  - destruct (migration_001_keeps_ledger _ _ E) as [_ C'].
    split; [exact C'|]. split; [exact D|]. split; [exact K|]. discriminate.
  - unfold migration_001_initial_schema in E.
    match type of E with transaction ?m _ = _ => assert (S : sql_only m) end.
    { repeat (apply bind_sql_only; [apply execute_create_sql_only|intros _]).
      apply execute_create_sql_only. }
    destruct (transaction_sql_raise _ db db' e S E) as (X & C' & _).
    split; [exact C'|]. split; [exact D|]. split; [exact K|]. intros e' [= <-]. exact X.
Qed.

Lemma migration_002_outcome (env : Env) (db db' : Database) (r : Outcome unit) :
  clean db ->
  migration_002_seed_templates env db = (db', r) ->
  clean db'
  /\ keeps_ledger (working db) (working db')
  /\ (forall e, r = Raise e -> is_Exception e = true /\ working db' = working db).
Proof.
  intros C E. destruct r as [[]|e].
  - destruct (migration_002_keeps_ledger _ _ _ E) as [K C'].
    split; [exact C'|]. split; [exact K|discriminate].
  - unfold migration_002_seed_templates in E.
    match type of E with transaction ?m _ = _ => assert (S : sql_only m) end.
    { apply for_each_sql_only; intros x.
      apply bind_sql_only; [apply execute_sql_only|intros _].
      apply for_each_sql_only; intros y; apply execute_sql_only. }
    destruct (transaction_sql_raise _ db db' e S E) as (X & C' & db1 & r1 & B & W).
    assert (F : keeps_file (for_each (enumerate_from 0 seed_templates) (fun template_data =>
                  let k := fst template_data in
                  let template_id := uuid4 env (6 * k)%nat in
                  (execute (insert_template
                              (TemplateRow.mk template_id (fst (snd template_data)) (now env))) ;;
                   for_each (enumerate_from 0 (snd (snd template_data))) (fun ex =>
                     let order_idx := fst ex in
                     let exercise_id := uuid4 env (6 * k + 1 + order_idx)%nat in
                     execute (TemplateRepository.insert_exercise
                                (TemplateExerciseRow.mk exercise_id template_id (fst (snd ex))
                                   (Z.of_nat order_idx) (int_of_bool (snd (snd ex)))))))%tx))).
    { apply for_each_keeps_file; intros x.
      apply bind_keeps_file; [apply execute_keeps_file|intros _].
      apply for_each_keeps_file; intros y; apply execute_keeps_file. }
    destruct (F _ _ _ B) as (F1 & _ & _).
    assert (Same : working db' = working db) by (rewrite W, F1; symmetry; exact C).
    rewrite Same. split; [exact C'|]. split; [apply keeps_ledger_refl|].
    intros e' [= <-]. auto.
Qed.

Lemma ledger_insert_outcome (version : Z) (applied_at : DateTime) (db db' : Database)
  (r : Outcome unit) :
  clean db ->
  transaction (execute (insert_schema_version version applied_at)) db = (db', r) ->
  clean db'
  /\ same_data (working db) (working db')
  /\ (has_ledger (working db) -> has_ledger (working db'))
  /\ match r with
     | Return _ =>
         schema_version (working db') = schema_version (working db) ++ [(version, applied_at)]
     | Raise e =>
         is_Exception e = true /\ working db' = working db
         /\ In version (map fst (schema_version (working db)))
     end.
Proof.
  intros C. rewrite transaction_execute. unfold insert_schema_version.
  destruct (existsb _ _) eqn:X; intros [= <- <-]; cbn.
  - repeat split; auto.
    + rewrite C. reflexivity.
    + rewrite C. auto.
    + apply existsb_exists in X. destruct X as (row & I & E). apply Z.eqb_eq in E.
      rewrite <- E. apply in_map, I.
  - repeat split; auto.
Qed.

Lemma ledger_versions_le (db : Database) (version : Z) :
  has_ledger (working db) ->
  get_current_version db < version ->
  ~ In version (map fst (schema_version (working db))).
Proof.
  intros L G I. assert (H := current_version_ge db version L I). lia.
Qed.

Lemma run_pending_cons (env : Env) (current_version version : Z) (name : string)
  (migration_fn : Migration) (rest : list (Z * string * Migration)) (db : Database) :
  run_pending env current_version ((version, name, migration_fn) :: rest) db
  = if version >? current_version then
      match migration_fn db with
      | (db1, Raise e) => (db1, Applying version name :: report_failure version e, Raise e)
      | (db1, Return _) =>
          match transaction (execute (insert_schema_version version (now env))) db1 with
          | (db2, Raise e) =>
              (db2, Applying version name :: report_failure version e, Raise e)
          | (db2, Return _) =>
              match run_pending env current_version rest db2 with
              | (db3, printed, r) =>
                  (db3, Applying version name :: AppliedSuccessfully version :: printed, r)
              end
          end
      end
    else run_pending env current_version rest db.
Proof. reflexivity. Qed.

(** the part of the loop of [apply_migrations] that runs the migration 2 *)
Lemma seed_step_fails (env : Env) (current_version : Z) (dbA dbB : Database)
  (printedB : list Printed) (e : PyExc) :
  clean dbA ->
  ~ In 2 (map fst (schema_version (working dbA))) ->
  run_pending env current_version
    [(2, "seed_templates"%string, migration_002_seed_templates env)] dbA
  = (dbB, printedB, Raise e) ->
  is_Exception e = true /\ clean dbB
  /\ working dbB = working dbA
  /\ printedB = [Applying 2 "seed_templates"; MigrationFailed 2 e].
Proof.
  intros CA N2. rewrite run_pending_cons. cbn [run_pending].
  destruct (2 >? current_version); [|discriminate].
  destruct (migration_002_seed_templates env dbA) as [dbm [[]|e1]] eqn:E2.
  - destruct (migration_002_outcome _ _ _ _ CA E2) as (Cm & Km & _).
    destruct (transaction _ dbm) as [dbn [[]|e2]] eqn:E3; [discriminate|].
    destruct (ledger_insert_outcome _ _ _ _ _ Cm E3) as (_ & _ & _ & _ & _ & I).
    exfalso. apply N2. destruct Km as [Km _]. rewrite <- Km. exact I.
  - intros [= <- <- <-].
    destruct (migration_002_outcome _ _ _ _ CA E2) as (Cm & Km & R).
    destruct (R e1 eq_refl) as [X W]. unfold report_failure. rewrite X. auto.
Qed.

(** X10.  When [apply_migrations] raises on a connection with
    nothing pending, what it raises is an [Exception], nothing is left
    pending, the data tables hold the rows they held before, the ledger has
    gained exactly the versions that were reported as applied, and the
    output is empty or ends with the two messages of the migration that
    failed. *)
Theorem failed_migrations_leave_no_rows (env : Env) (db db' : Database)
  (printed : list Printed) (e : PyExc) :
  clean db ->
  apply_migrations env db = (db', printed, Raise e) ->
  is_Exception e = true
  /\ clean db'
  /\ user_data (working db') = user_data (working db)
  /\ schema_version (working db')
     = schema_version (working db) ++ map (fun version => (version, now env)) (applied printed)
  /\ (printed = []
      \/ exists before version name,
           printed = before ++ [Applying version name; MigrationFailed version e]).
Proof.
  intros C. unfold apply_migrations.
  destruct (transaction (execute_create (create_table_if_not_exists "schema_version")) db)
    as [db1 [[]|e0]] eqn:E0.
  2:{ intros [= <- <- <-]. rewrite transaction_execute_create in E0.
      destruct (create_table_if_not_exists "schema_version" (working db)); [|discriminate].
      injection E0 as <- <-. cbn. rewrite <- C, app_nil_r.
      split; [reflexivity|]. split; [reflexivity|]. auto. }
  assert (C1 : clean db1 /\ same_data (working db) (working db1)
               /\ has_ledger (working db1)
               /\ schema_version (working db1) = schema_version (working db)).
  { rewrite transaction_execute_create in E0.
    destruct (create_table_if_not_exists "schema_version" (working db)) as [|st1] eqn:E;
      [discriminate|]. injection E0 as <-. cbn.
    destruct (create_ledger_has_ledger _ _ E) as (L & V & _).
    repeat split; auto. apply (create_table_same_data _ _ _ E). }
  destruct C1 as (C1 & D1 & L1 & V1). clear E0.
  assert (Hcv : forall version, get_current_version db1 < version ->
                  ~ In version (map fst (schema_version (working db1)))).
  { intros version. apply ledger_versions_le, L1. }
  generalize dependent (get_current_version db1). intros cv Hcv.
  unfold MIGRATIONS. rewrite run_pending_cons.
  destruct (Z.gtb_spec 1 cv) as [G1|G1].
  - destruct (migration_001_initial_schema db1) as [dbm [[]|e1]] eqn:E1.
    + destruct (migration_001_outcome _ _ _ C1 E1) as (Cm & Dm & Km & _).
      destruct (transaction _ dbm) as [dbn [[]|e2]] eqn:E2.
      * destruct (ledger_insert_outcome _ _ _ _ _ Cm E2) as (Cn & Dn & Ln & Vn).
        destruct (run_pending env cv _ dbn) as [[db3 printed3] r3] eqn:E3.
        intros [= <- <- ->].
        apply seed_step_fails in E3; [|exact Cn|].
        -- destruct E3 as (X & C3 & W3 & ->). rewrite W3.
           split; [exact X|]. split; [exact C3|]. split; [|split].
           ++ unfold same_data in *. congruence.
           ++ rewrite Vn. destruct Km as [Km _]. rewrite Km, V1. reflexivity.
           ++ right. exists [Applying 1 "initial_schema"; AppliedSuccessfully 1], 2,
                "seed_templates"%string. reflexivity.
        -- rewrite Vn. destruct Km as [Km _]. rewrite Km, map_app, in_app_iff. cbn.
           intros [I|[I|[]]]; [|discriminate]. revert I. apply Hcv. lia.
      * intros [= <- <- <-].
        destruct (ledger_insert_outcome _ _ _ _ _ Cm E2) as (Cn & Dn & Ln & X & Wn & _).
        rewrite Wn. unfold report_failure. rewrite X.
        split; [reflexivity|]. split; [exact Cn|]. split; [|split].
        -- unfold same_data in *. congruence.
        -- destruct Km as [Km _]. rewrite Km, V1. cbn. rewrite app_nil_r. reflexivity.
        -- right. exists [], 1, "initial_schema"%string. reflexivity.
    + intros [= <- <- <-].
      destruct (migration_001_outcome _ _ _ C1 E1) as (Cm & Dm & Km & X).
      specialize (X e1 eq_refl). unfold report_failure. rewrite X.
      split; [reflexivity|]. split; [exact Cm|]. split; [|split].
      * unfold same_data in *. congruence.
      * destruct Km as [Km _]. rewrite Km, V1. cbn. rewrite app_nil_r. reflexivity.
      * right. exists [], 1, "initial_schema"%string. reflexivity.
  - intros E3. apply seed_step_fails in E3; [|exact C1|apply Hcv].
    + destruct E3 as (X & C3 & W3 & ->). rewrite W3.
      split; [exact X|]. split; [exact C3|]. split; [|split].
      * exact D1.
      * rewrite V1. cbn. rewrite app_nil_r. reflexivity.
      * right. exists [], 2, "seed_templates"%string. reflexivity.
    + destruct (Z.gtb_spec 2 cv); [lia|].
      exfalso. revert E3. rewrite run_pending_cons.
      destruct (Z.gtb_spec 2 cv); [lia|]. cbn. discriminate.
Qed.

(** * The first run of the migrations *)

Lemma uuid4_distinct (env : Env) (i j : nat) :
  (forall i j, (i < 18)%nat -> (j < 18)%nat -> uuid4 env i = uuid4 env j -> i = j) ->
  (i < 18)%nat -> (j < 18)%nat -> i <> j -> N.eqb (uuid4 env i) (uuid4 env j) = false.
Proof. intros Inj Hi Hj N. apply N.eqb_neq. intros E. apply N, Inj; assumption. Qed.

(** evaluate, deciding the comparisons of [uuid4] results by [D] *)
Ltac seed_eval D :=
  repeat (progress (cbv -[N.eqb uuid4 now]; rewrite ?N.eqb_refl; rewrite ?D by lia)).

Lemma fresh_database_run (env : Env) :
  (forall i j, (i < 18)%nat -> (j < 18)%nat -> uuid4 env i = uuid4 env j -> i = j) ->
  apply_migrations env (connect empty_store)
  = (mkDatabase (seeded_store env) (seeded_store env) 5 0,
     [ Applying 1 "initial_schema"; AppliedSuccessfully 1;
       Applying 2 "seed_templates"; AppliedSuccessfully 2 ], Return tt).
Proof.
  intros Inj.
  assert (D : forall i j, (i < 18)%nat -> (j < 18)%nat -> i <> j ->
                N.eqb (uuid4 env i) (uuid4 env j) = false)
    by (intros; apply uuid4_distinct; assumption).
  unfold apply_migrations. seed_eval D. reflexivity.
Qed.

Lemma seeded_template_loads (env : Env) (k : nat) (template_data : string * list (string * bool))
  (commits rollbacks : nat) :
  (forall i j, (i < 18)%nat -> (j < 18)%nat -> uuid4 env i = uuid4 env j -> i = j) ->
  nth_error seed_templates k = Some template_data ->
  TemplateRepository.get_by_id (uuid4 env (6 * k)%nat)
    (mkDatabase (seeded_store env) (seeded_store env) commits rollbacks)
  = Some (seeded_template env k template_data).
Proof.
  intros Inj E.
  assert (D : forall i j, (i < 18)%nat -> (j < 18)%nat -> i <> j ->
                N.eqb (uuid4 env i) (uuid4 env j) = false)
    by (intros; apply uuid4_distinct; assumption).
  destruct k as [|[|[|k]]]; cbn in E; try (injection E as <-).
  - seed_eval D. reflexivity.
  - seed_eval D. reflexivity.
  - seed_eval D. reflexivity.
  - destruct k; discriminate.
Qed.

(** X9.  On a new, empty database, when the 18 ids that [uuid4()]
    returns differ from each other, [apply_migrations] applies both
    migrations without an error and prints their four messages; the version
    is then 2, the store holds the schema, the two ledger rows, the three
    seed templates with their exercises and nothing else, all of it
    committed, and [get_by_id] loads each seed template with its exercises
    in the order of the seed list. *)
Theorem fresh_database_is_seeded (env : Env) :
  (forall i j, (i < 18)%nat -> (j < 18)%nat -> uuid4 env i = uuid4 env j -> i = j) ->
  exists db,
    apply_migrations env (connect empty_store)
    = (db, [ Applying 1 "initial_schema"; AppliedSuccessfully 1;
             Applying 2 "seed_templates"; AppliedSuccessfully 2 ], Return tt)
    /\ get_current_version db = 2
    /\ working db = seeded_store env
    /\ committed db = seeded_store env
    /\ (forall k template_data, nth_error seed_templates k = Some template_data ->
          TemplateRepository.get_by_id (uuid4 env (6 * k)%nat) db
          = Some (seeded_template env k template_data)).
Proof.
  intros Inj. eexists. split; [apply fresh_database_run, Inj|].
  repeat split. intros k td E. apply seeded_template_loads; assumption.
Qed.

(** * Totals and new sessions *)

Lemma fold_left_Zadd {A : Type} (f : A -> Z) (l : list A) (acc : Z) :
  fold_left (fun total x => total + f x) l acc = acc + fold_right Z.add 0 (map f l).
Proof.
  revert acc. induction l as [|x l IH]; intros acc; cbn; [lia|]. rewrite IH. lia.
Qed.

Lemma fold_left_weighted (l : list Set_.t) (acc : Q) :
  fold_left (fun total w =>
               match Set_.weight w with
               | Some weight => (total + weight * inject_Z (Set_.reps w))%Q
               | None => total
               end) l acc
  = fold_left (fun total p => (total + fst p * inject_Z (snd p))%Q)
      (flat_map (fun w => match Set_.weight w with
                          | Some weight => [(weight, Set_.reps w)]
                          | None => []
                          end) l)
      acc.
Proof.
  revert acc. induction l as [|w l IH]; intros acc; cbn; [reflexivity|].
  rewrite IH. destruct (Set_.weight w); reflexivity.
Qed.

(** [total_volume] adds up the weighted sets from left to right. *)
Lemma total_volume_weighted (s : WorkoutSession.t) :
  WorkoutSession.total_volume s
  = fold_left (fun total p => (total + fst p * inject_Z (snd p))%Q) (weighted_sets s) (0 # 1).
Proof.
  unfold WorkoutSession.total_volume, weighted_sets, all_sets.
  generalize (0 # 1). induction (WorkoutSession.exercises s) as [|e l IH]; intros acc; cbn.
  - reflexivity.
  - rewrite IH, fold_left_weighted, flat_map_app, fold_left_app. reflexivity.
Qed.

Lemma fold_left_weighted_nonneg (l : list (Q * Z)) (acc : Q) :
  (0 <= acc)%Q ->
  (forall p, In p l -> (0 <= fst p)%Q /\ 0 <= snd p) ->
  (0 <= fold_left (fun total p => (total + fst p * inject_Z (snd p))%Q) l acc)%Q.
Proof.
  revert acc. induction l as [|p l IH]; intros acc A H; cbn; [exact A|].
  apply IH; [|intros q I; apply H; right; exact I].
  destruct (H p (or_introl eq_refl)) as [W R].
  apply (Qle_trans _ (0 + 0)); [discriminate|]. apply Qplus_le_compat; [exact A|].
  apply Qmult_le_0_compat; [exact W|]. unfold Qle. cbn. lia.
Qed.

(** X7.  The totals of a session over the sets of all its exercises:
    [total_sets] is their number and [total_reps] the sum of their reps;
    [total_volume] depends only on the weights and the reps of the sets that
    have a weight, in the order of the session, so a bodyweight set adds
    nothing and the grouping of the sets into exercises does not matter;
    with no negative reps or weight, [total_reps] and [total_volume] are not
    negative. *)
Theorem session_totals (s : WorkoutSession.t) :
  WorkoutSession.total_sets s = Z.of_nat (List.length (all_sets s))
  /\ WorkoutSession.total_reps s = fold_right Z.add 0 (map Set_.reps (all_sets s))
  /\ (forall s', weighted_sets s' = weighted_sets s ->
        WorkoutSession.total_volume s' = WorkoutSession.total_volume s)
  /\ ((forall w, In w (all_sets s) ->
         0 <= Set_.reps w /\ forall weight, Set_.weight w = Some weight -> (0 <= weight)%Q) ->
      0 <= WorkoutSession.total_reps s /\ (0 <= WorkoutSession.total_volume s)%Q).
Proof.
  assert (S : WorkoutSession.total_sets s = Z.of_nat (List.length (all_sets s))).
  { unfold WorkoutSession.total_sets, all_sets.
    rewrite (fold_left_Zadd (fun ex => Z.of_nat (List.length (SessionExercise.sets ex)))).
    induction (WorkoutSession.exercises s) as [|e l IH]; cbn in *; [reflexivity|].
    rewrite length_app, Nat2Z.inj_add. lia. }
  assert (R : WorkoutSession.total_reps s
              = fold_right Z.add 0 (map Set_.reps (all_sets s))).
  { unfold WorkoutSession.total_reps, all_sets. rewrite fold_left_Zadd. lia. }
  split; [exact S|]. split; [exact R|]. split.
  { intros s' E. rewrite !total_volume_weighted, E. reflexivity. }
  intros H. split.
  - rewrite R. clear S R. revert H.
    induction (all_sets s) as [|w l IH]; intros H; cbn; [lia|].
    destruct (H w (or_introl eq_refl)) as [P _].
    assert (0 <= fold_right Z.add 0 (map Set_.reps l))
      by (apply IH; intros; apply H; right; assumption).
    lia.
  - rewrite total_volume_weighted. apply fold_left_weighted_nonneg; [discriminate|].
    intros p I. unfold weighted_sets in I. apply in_flat_map in I.
    destruct I as (w & Iw & Ip). destruct (H w Iw) as [P W].
    destruct (Set_.weight w) as [x|] eqn:Ew; [|destruct Ip].
    destruct Ip as [<-|[]]. cbn. split; [apply W; reflexivity|exact P].
Qed.

(** X17.  A session made by [WorkoutSession.create] under a new id,
    with no template or a stored one, is saved without an error and loaded
    by [get_by_id] as it was made: active, with no exercises, no sets and the
    duration shown as [--:--]; every other session loads as before. *)
Theorem created_session_round_trip (id : UUID) (now : DateTime) (template_id : option UUID)
  (template_name : option string) (db : Database) :
  store_ok (working db) ->
  pk_exists SessionRow.id id (workout_sessions (working db)) = false ->
  SessionRepository.template_fk_ok template_id (working db) = true ->
  let session := WorkoutSession.create id now template_id template_name in
  let db' := fst (SessionRepository.save session db) in
  snd (SessionRepository.save session db) = Return tt
  /\ SessionRepository.get_by_id id db' = Some session
  /\ WorkoutSession.is_active session = true
  /\ WorkoutSession.total_sets session = 0
  /\ WorkoutSession.formatted_duration session = "--:--"%string
  /\ (forall other, other <> id ->
        SessionRepository.get_by_id other db' = SessionRepository.get_by_id other db).
Proof.
  intros O P F. cbv zeta. unfold SessionRepository.save. rewrite transaction_execute.
  unfold SessionRepository.upsert_session.
  cbn [SessionRepository.session_params WorkoutSession.create WorkoutSession.template_id
       SessionRow.template_id].
  rewrite F. cbn [fst snd].
  split; [reflexivity|]. split; [|split; [reflexivity|split; [reflexivity|split; [reflexivity|]]]].
  - rewrite session_get_by_id_loaded. cbn [working workout_sessions with_workout_sessions].
    unfold upsert_row.
    cbn [SessionRow.id WorkoutSession.id SessionRepository.session_params
         WorkoutSession.create].
    rewrite P.
    rewrite filter_app, (filter_has_pk_absent SessionRow.id _ _ P). cbn [app filter has_pk
      SessionRow.id].
    unfold has_pk, SessionRepository.session_params, WorkoutSession.create.
    cbn [SessionRow.id WorkoutSession.id]. rewrite N.eqb_refl. cbn [fetchone hd_error option_map]. f_equal.
    unfold loaded_session, SessionRepository.with_exercises, SessionRepository._row_to_session,
      SessionRepository._load_exercises, SessionRepository.select_exercises.
    cbn [WorkoutSession.id WorkoutSession.template_id WorkoutSession.template_name
         WorkoutSession.started_at WorkoutSession.ended_at WorkoutSession.duration_seconds
         WorkoutSession.notes SessionRow.id SessionRow.template_id SessionRow.template_name
         SessionRow.started_at SessionRow.ended_at SessionRow.duration_seconds
         SessionRow.notes session_exercises with_workout_sessions].
    rewrite filter_none; [reflexivity|].
    intros e I. apply N.eqb_neq. intros E.
    assert (T := ok_session_of_exercise _ O e I). rewrite E in T. congruence.
  - intros other N. rewrite !session_get_by_id_loaded.
    cbn [working workout_sessions with_workout_sessions].
    rewrite upsert_row_other by (cbn; auto).
    destruct (fetchone _) as [row|]; reflexivity.
Qed.

(** * The further theorems on the sample data *)

Ltac rows_distinct :=
  vm_compute;
  repeat (constructor;
          [ let H := fresh in
            intro H; repeat (destruct H as [H|H]; [discriminate H|]); exact H | ]);
  constructor.

Ltac each_reference :=
  let r := fresh in let I := fresh in
  intros r I; vm_compute in I;
  repeat (destruct I as [<-|I]; [reflexivity|]); destruct I.

Lemma sample_db_ok : store_ok (working sample_db).
Proof. constructor; first [rows_distinct | each_reference]. Qed.

Lemma sample_db_clean : clean sample_db.
Proof. vm_compute. reflexivity. Qed.

Lemma started_db_ok : store_ok (working started_db).
Proof. constructor; first [rows_distinct | each_reference]. Qed.

Lemma pauses_are_not_counted_witness :
  elapsed_seconds (seconds 70)
    (pause_resume [(seconds 30, seconds 40)] (start 0 Timer_init))
  = elapsed_seconds (seconds 530)
      (pause_resume [(seconds 130, seconds 500)] (start (seconds 100) Timer_init)).
Proof.
  exact (proj1 (pauses_are_not_counted 0 (seconds 100) Timer_init Timer_init
                  [(seconds 30, seconds 40)] [(seconds 130, seconds 500)]
                  (seconds 70) (seconds 530) eq_refl eq_refl eq_refl)).
Defined.

Lemma elapsed_never_negative_witness :
  0 <= elapsed_seconds (seconds 45) (run [(0, CallStart); (seconds 30, CallPause)] Timer_init)
  /\ elapsed_seconds (seconds 45) (run [(0, CallStart); (seconds 30, CallPause)] Timer_init)
     <= elapsed_seconds (seconds 60) (run [(0, CallStart); (seconds 30, CallPause)] Timer_init).
Proof.
  apply elapsed_never_negative.
  - cbn [map app fst].
    repeat match goal with
           | |- StronglySorted _ [] => apply SSorted_nil
           | |- StronglySorted _ (_ :: _) => apply SSorted_cons
           | |- Forall _ [] => apply Forall_nil
           | |- Forall _ (_ :: _) => apply Forall_cons
           | |- _ <= _ => unfold seconds, MICROSECOND; lia
           end.
  - unfold seconds, MICROSECOND; lia.
Defined.

Lemma format_duration_injective_witness : 5445 = 90 * 60 + 45.
Proof. apply format_duration_injective; [lia | lia | reflexivity]. Defined.

Lemma interrupt_escapes_rollback_witness :
  let steps := [Statement (insert_template sample_template_row); Raises KeyboardInterrupt] in
  let pending :=
    with_workout_templates
      (workout_templates (working initialized_db) ++ [sample_template_row])
      (working initialized_db) in
  let db1 := fst (transaction (for_each steps step) initialized_db) in
  snd (transaction (for_each steps step) initialized_db) = Raise KeyboardInterrupt
  /\ working db1 = pending
  /\ committed db1 = committed initialized_db
  /\ commits db1 = commits initialized_db
  /\ rollbacks db1 = rollbacks initialized_db
  /\ transaction (for_each [] step) db1
     = (mkDatabase pending pending (S (commits initialized_db)) (rollbacks initialized_db),
        Return tt).
Proof.
  refine (interrupt_escapes_rollback
            [Statement (insert_template sample_template_row); Raises KeyboardInterrupt] []
            initialized_db
            (with_workout_templates
               (workout_templates (working initialized_db) ++ [sample_template_row])
               (working initialized_db))
            (with_workout_templates
               (workout_templates (working initialized_db) ++ [sample_template_row])
               (working initialized_db)) _ _).
  - vm_compute. reflexivity.
  - reflexivity.
Defined.

Lemma fresh_database_is_seeded_witness :
  exists db,
    apply_migrations sample_env (connect empty_store)
    = (db, [ Applying 1 "initial_schema"; AppliedSuccessfully 1;
             Applying 2 "seed_templates"; AppliedSuccessfully 2 ], Return tt)
    /\ get_current_version db = 2
    /\ working db = seeded_store sample_env
    /\ committed db = seeded_store sample_env
    /\ (forall k template_data, nth_error seed_templates k = Some template_data ->
          TemplateRepository.get_by_id (uuid4 sample_env (6 * k)%nat) db
          = Some (seeded_template sample_env k template_data)).
Proof.
  apply fresh_database_is_seeded.
  intros i j _ _ E. cbn in E. lia.
Defined.

Lemma failed_migrations_leave_no_rows_witness :
  let failed := apply_migrations colliding_env (connect empty_store) in
  snd failed
  = Raise (Sqlite3Error (IntegrityError "UNIQUE constraint failed: template_exercises.id"))
  /\ clean (fst (fst failed))
  /\ user_data (working (fst (fst failed))) = user_data empty_store
  /\ schema_version (working (fst (fst failed))) = [(1, 1000)].
Proof.
  cbv zeta.
  assert (H := failed_migrations_leave_no_rows colliding_env (connect empty_store)).
  destruct (apply_migrations colliding_env (connect empty_store)) as [[db' printed] r] eqn:E.
  vm_compute in E. injection E as <- <- <-.
  destruct (H _ _ _ eq_refl eq_refl) as (_ & C & D & V & _).
  split; [reflexivity|]. split; [exact C|]. split; [exact D|exact V].
Defined.

Lemma template_delete_cascades_witness :
  TemplateRepository.get_by_id 2 sample_db = Some full_body
  /\ TemplateRepository.get_by_id 2 (fst (TemplateRepository.delete 2 sample_db)) = None
  /\ (forall r, In r (template_exercises (working (fst (TemplateRepository.delete 2 sample_db)))) ->
        TemplateExerciseRow.template_id r <> 2%N)
  /\ (forall other, other <> 2%N ->
        TemplateRepository.get_by_id other (fst (TemplateRepository.delete 2 sample_db))
        = TemplateRepository.get_by_id other sample_db).
Proof.
  destruct (template_delete_cascades 2 sample_db sample_db_ok) as (_ & G & E & U).
  split; [vm_compute; reflexivity|]. split; [exact G|]. split; [exact E|exact U].
Defined.

Lemma template_delete_keeps_sessions_witness :
  option_map WorkoutSession.template_id (SessionRepository.get_by_id 5 started_db)
  = Some (Some 2%N)
  /\ SessionRepository.get_by_id 5 (fst (TemplateRepository.delete 2 started_db))
     = option_map (without_template 2) (SessionRepository.get_by_id 5 started_db)
  /\ option_map WorkoutSession.template_name
       (SessionRepository.get_by_id 5 (fst (TemplateRepository.delete 2 started_db)))
     = Some (Some "Full Body"%string).
Proof.
  destruct (template_delete_keeps_sessions 2 5 started_db started_db_ok) as (G & _).
  split; [vm_compute; reflexivity|]. split; [exact G|]. rewrite G. vm_compute. reflexivity.
Defined.

Lemma duplicate_copies_template_witness :
  exists db' copy,
    TemplateRepository.duplicate sample_uuid4 9000 2 "Copy" sample_db
    = (db', Return (Some copy))
    /\ WorkoutTemplate.id copy = 1000%N
    /\ WorkoutTemplate.name copy = "Copy"%string
    /\ WorkoutTemplate.created_at copy = 9000
    /\ Forall2 (copy_of 1000) (WorkoutTemplate.exercises full_body)
         (WorkoutTemplate.exercises copy)
    /\ TemplateRepository.get_by_id 1000 db' = Some copy
    /\ TemplateRepository.get_by_id 2 db' = Some full_body.
Proof.
  assert (G : TemplateRepository.get_by_id 2 sample_db = Some full_body)
    by (vm_compute; reflexivity).
  assert (H := duplicate_copies_template sample_uuid4 9000 2 "Copy" sample_db).
  rewrite G in H. apply H.
  - vm_compute. reflexivity.
  - intros j. apply pk_exists_false. intros r I E. vm_compute in I. unfold sample_uuid4 in E.
    repeat (destruct I as [<-|I]; [cbn [TemplateExerciseRow.id] in E; lia|]). destruct I.
  - unfold sample_uuid4. intros i j E. lia.
Defined.



Lemma delete_exercise_cascades_witness :
  option_map (fun s => List.length (WorkoutSession.exercises s))
    (SessionRepository.get_by_id 3 sample_db) = Some 1%nat
  /\ SessionRepository.get_by_id 3 (fst (SessionRepository.delete_exercise 20 sample_db))
     = option_map (without_exercise 20) (SessionRepository.get_by_id 3 sample_db)
  /\ (forall w,
        In w (sets (working (fst (SessionRepository.delete_exercise 20 sample_db)))) ->
        SetRow.session_exercise_id w <> 20%N).
Proof.
  destruct (delete_exercise_cascades 20 3 sample_db sample_db_ok) as (_ & G & _ & W & _).
  split; [vm_compute; reflexivity|]. split; [exact G|exact W].
Defined.

Lemma session_delete_cascades_witness :
  SessionRepository.get_by_id 3 sample_db = Some bench_session
  /\ SessionRepository.get_by_id 3 (fst (SessionRepository.delete 3 sample_db)) = None
  /\ (forall e,
        In e (session_exercises (working (fst (SessionRepository.delete 3 sample_db)))) ->
        SessionExerciseRow.session_id e <> 3%N).
Proof.
  destruct (session_delete_cascades 3 sample_db sample_db_ok) as (_ & G & _ & E & _).
  split; [vm_compute; reflexivity|]. split; [exact G|exact E].
Defined.

Lemma stored_identifier_round_trip_witness :
  AppStateRepository.get_active_session_id sample_uuid_parse
    (fst (AppStateRepository.set_active_session_id sample_uuid_str (Some 42%N) sample_db))
  = Return (Some 42%N)
  /\ AppStateRepository.get_active_session_id sample_uuid_parse
       (fst (AppStateRepository.set_active_session_id sample_uuid_str None sample_db))
     = Return None.
Proof.
  destruct (stored_identifier_round_trip sample_uuid_str sample_uuid_parse 42 sample_db)
    as (S & N & _).
  - reflexivity.
  - discriminate.
  - split; [exact S|exact N].
Defined.

Lemma timer_state_round_trip_witness :
  AppStateRepository.get_timer_state sample_snapshot_loads sample_parse_isoformat
    (fst (AppStateRepository.set_timer_state sample_json_dumps sample_isoformat
            (Some sample_state) sample_db))
  = Return (Some (mkLoadedTimerState (JBool true) (JBool false) (Some 1234) None
                    (JNumber (241 # 2)))).
Proof.
  destruct (timer_state_round_trip sample_json_dumps sample_snapshot_loads sample_isoformat
              sample_parse_isoformat sample_state sample_db) as (R & _).
  - reflexivity.
  - intros t [E|E]; [|discriminate]. injection E as <-. split; [reflexivity|discriminate].
  - exact R.
Defined.

Lemma created_session_round_trip_witness :
  SessionRepository.get_by_id 5 started_db
  = Some (WorkoutSession.create 5 8000 (Some 2%N) (Some "Full Body"%string))
  /\ SessionRepository.get_by_id 3 started_db = SessionRepository.get_by_id 3 sample_db.
Proof.
  destruct (created_session_round_trip 5 8000 (Some 2%N) (Some "Full Body"%string) sample_db
              sample_db_ok eq_refl eq_refl) as (_ & G & _ & _ & _ & U).
  split; [exact G|]. apply U. discriminate.
Defined.
